(** * Analytics platform: event cleaning, identity resolution and attribution

    A shallow embedding of [src/analytics/api/main.py] and
    [src/analytics/integrations/google_ads_sync.py].

    Conventions.
    - A Python [str] is a [string]; a character is its code point, so the
      model covers the strings whose code points are below 256.
    - A timezone-aware [datetime] is the number of microseconds since the
      epoch, in UTC; a date is a number of days.
    - [Optional[T]] is [option T]; [x or d] is written out per type.
    - A call that may raise returns a [result]. *)

From Stdlib Require Import ZArith QArith List Bool Ascii String Lia.
Import ListNotations.

Local Open Scope string_scope.
Local Open Scope Z_scope.

(** ** Python built-ins used by the sources *)

Module Py.

(** [ord(char)] *)
Definition ord (c : ascii) : Z := Z.of_N (N_of_ascii c).

(** [chr(n)] for [0 <= n < 256] *)
Definition chr (n : Z) : ascii := ascii_of_N (Z.to_N n).

(** [not value] on a [str] *)
Definition is_empty (s : string) : bool :=
  match s with EmptyString => true | String _ _ => false end.

(** The literal ['\t\n\r'] *)
Definition tab_nl_cr : string :=
  String (chr 9) (String (chr 10) (String (chr 13) EmptyString)).

(** [char in s] for a one-character [char] *)
Fixpoint char_in (c : ascii) (s : string) : bool :=
  match s with
  | EmptyString => false
  | String d r => Ascii.eqb c d || char_in c r
  end.

(** [''.join(char for char in s if keep(char))] *)
Fixpoint join_if (keep : ascii -> bool) (s : string) : string :=
  match s with
  | EmptyString => EmptyString
  | String c r => if keep c then String c (join_if keep r) else join_if keep r
  end.

(** [s[:stop]]: a negative [stop] counts from the end, and both ends are
    clipped to the string. *)
Definition slice_to (stop : Z) (s : string) : string :=
  let len := Z.of_nat (String.length s) in
  let stop' := if stop <? 0 then Z.max 0 (len + stop) else Z.min stop len in
  substring 0 (Z.to_nat stop') s.

(** [char.isspace()] below 256: TAB..CR, FS..US, space, NEL and NBSP *)
Definition isspace (c : ascii) : bool :=
  let n := ord c in
  ((9 <=? n) && (n <=? 13)) || ((28 <=? n) && (n <=? 32))
  || (n =? 133) || (n =? 160).

Fixpoint lstrip (s : string) : string :=
  match s with
  | EmptyString => EmptyString
  | String c r => if isspace c then lstrip r else s
  end.

Fixpoint rstrip (s : string) : string :=
  match s with
  | EmptyString => EmptyString
  | String c r =>
      match rstrip r with
      | EmptyString => if isspace c then EmptyString else String c EmptyString
      | r' => String c r'
      end
  end.

(** [s.strip()] *)
Definition strip (s : string) : string := rstrip (lstrip s).

(** [char.lower()] below 256: A..Z and the accented capitals U+00C0..U+00DE
    (U+00D7, the multiplication sign, apart) move up by 32. *)
Definition lower_char (c : ascii) : ascii :=
  let n := ord c in
  if ((65 <=? n) && (n <=? 90))
     || ((192 <=? n) && (n <=? 222) && negb (n =? 215))
  then chr (n + 32) else c.

(** [s.lower()] *)
Fixpoint lower (s : string) : string :=
  match s with
  | EmptyString => EmptyString
  | String c r => String (lower_char c) (lower r)
  end.

(** [s.startswith(p)] *)
Definition startswith (s p : string) : bool := prefix p s.

(** [needle in hay] on strings *)
Fixpoint contains (needle hay : string) : bool :=
  prefix needle hay
  || match hay with
     | EmptyString => false
     | String _ r => contains needle r
     end.

(** [s.split(sep)] for a one-character separator *)
Fixpoint split (sep : ascii) (s : string) : list string :=
  match s with
  | EmptyString => [EmptyString]
  | String c r =>
      if Ascii.eqb c sep then EmptyString :: split sep r
      else match split sep r with
           | h :: t => String c h :: t
           | [] => [String c EmptyString]
           end
  end.

(** Outcome of a call that may raise: the value, or the message of the
    exception ([str(e)]). *)
Inductive result (A : Type) : Type :=
| Ok (a : A)
| Raise (msg : string).
Arguments Ok {A} a.
Arguments Raise {A} msg.

Definition digit_value (c : ascii) : option Z :=
  let n := ord c in
  if (48 <=? n) && (n <=? 57) then Some (n - 48) else None.

(** The digits of an [int] literal: decimal digits, a single underscore
    allowed between two digits. Returns the value and the digit count. *)
Fixpoint int_digits (s : string) (acc : Z) (count : nat) (after_underscore : bool)
  : option (Z * nat) :=
  match s with
  | EmptyString => if after_underscore then None else Some (acc, count)
  | String c r =>
      match digit_value c with
      | Some d => int_digits r (acc * 10 + d) (S count) false
      | None =>
          if Ascii.eqb c "_"%char
          then if after_underscore then None else int_digits r acc count true
          else None
      end
  end.

(** CPython's default [sys.int_info.default_max_str_digits] *)
Definition int_max_str_digits : nat := 4300.

Definition int_unsigned (s : string) : option Z :=
  match s with
  | EmptyString => None
  | String c _ =>
      match digit_value c with
      | None => None
      | Some _ =>
          match int_digits s 0 0%nat false with
          | Some (v, count) =>
              if (int_max_str_digits <? count)%nat then None else Some v
          | None => None
          end
      end
  end.

(** [int(s)] on a [str]: surrounding whitespace is skipped, then an optional
    sign, then the digits; anything else is a [ValueError] ([None]). *)
Definition int_signed (t : string) : option Z :=
  match t with
  | String "+"%char r => int_unsigned r
  | String "-"%char r => option_map Z.opp (int_unsigned r)
  | _ => int_unsigned t
  end.

(** The whitespace [int] skips around a literal, below 256: TAB..CR and
    space, NEL and NBSP. The separators FS..US, which [str.strip] removes,
    are not among them: [int] reads them as they are, and refuses them. *)
Definition int_space (c : ascii) : bool :=
  let n := ord c in
  ((9 <=? n) && (n <=? 13)) || (n =? 32) || (n =? 133) || (n =? 160).

Fixpoint int_lstrip (s : string) : string :=
  match s with
  | EmptyString => EmptyString
  | String c r => if int_space c then int_lstrip r else s
  end.

Fixpoint int_rstrip (s : string) : string :=
  match s with
  | EmptyString => EmptyString
  | String c r =>
      match int_rstrip r with
      | EmptyString => if int_space c then EmptyString else String c EmptyString
      | r' => String c r'
      end
  end.

Definition int (s : string) : option Z :=
  int_signed (int_rstrip (int_lstrip s)).

End Py.

(** ** Collaborators outside the repository

    The Python runtime and the libraries the sources call into: floats
    ([round], truthiness, the [ge=0] comparison), JSON serialisation of the
    open-ended custom properties, and the MD5 digest of an encoded string.
    The two library calls may raise. *)

Class Runtime : Type := {
  float : Type;
  float_of_int : Z -> float;
  float_nonzero : float -> bool;          (* [bool(x)] *)
  float_nonneg : float -> bool;           (* [x >= 0] *)
  round_ndigits : float -> Z -> float;    (* [round(x, ndigits)] *)
  dict : Type;                            (* [Dict[str, Any]] *)
  dict_empty : dict;                      (* [{}] *)
  json_dumps : dict -> Py.result string;
  md5_hexdigest : string -> Py.result string
    (* [hashlib.md5(s.encode()).hexdigest()] *)
}.

(** ** [class DataCleaner] of [api/main.py] *)

Module DataCleaner.

Definition clean_string (value : string) (max_length : Z) : string :=
  if Py.is_empty value then ""
  else
    let cleaned :=
      Py.join_if (fun char => (32 <=? Py.ord char) || Py.char_in char Py.tab_nl_cr)
                 value in
    Py.strip (Py.slice_to max_length cleaned).

(** The [for part in parts] loop inside the [try]: the first part that is
    not an integer ([ValueError]) or is out of range ends it. *)
Fixpoint check_parts (parts : list string) (ip : string) : string :=
  match parts with
  | [] => ip
  | part :: rest =>
      match Py.int part with
      | None => "0.0.0.0"
      | Some n =>
          if negb ((0 <=? n) && (n <=? 255)) then "0.0.0.0"
          else check_parts rest ip
      end
  end.

Definition validate_ip_address (ip : string) : string :=
  if Py.is_empty ip || String.eqb ip "0.0.0.0" then "0.0.0.0"
  else
    let parts := Py.split "."%char ip in
    if negb (Nat.eqb (List.length parts) 4) then "0.0.0.0"
    else check_parts parts ip.

(** The digest call may raise (an [encode] error), hence a [result]. *)
Definition generate_device_fingerprint {rt : Runtime} (user_agent ip : string)
  : Py.result string :=
  if Py.is_empty user_agent && Py.is_empty ip then Py.Ok ""
  else
    let fingerprint_data := user_agent ++ ":" ++ ip in
    md5_hexdigest fingerprint_data.

Definition bot_indicators : list string :=
  [ "bot"; "crawler"; "spider"; "scraper"; "curl"; "wget";
    "python-requests"; "java/"; "go-http-client" ].

Definition detect_bot_traffic (user_agent : string) : bool :=
  if Py.is_empty user_agent then false
  else
    let user_agent_lower := Py.lower user_agent in
    existsb (fun indicator => Py.contains indicator user_agent_lower)
            bot_indicators.

End DataCleaner.

(** ** Dates and times *)

Module Time.

Definition SECOND : Z := 1000000.
Definition DAY : Z := 86400 * SECOND.

(** [now.replace(hour=23, minute=59, second=59)]: the date and the
    microsecond of [now] are kept. *)
Definition replace_235959 (now : Z) : Z :=
  now - now mod DAY + (23 * 3600 + 59 * 60 + 59) * SECOND + now mod SECOND.

(** [(a - b).days]: a [timedelta] is normalised with a floor division. *)
Definition days_between (a b : Z) : Z := (a - b) / DAY.

(** [toDate(t)] *)
Definition toDate (t : Z) : Z := t / DAY.

End Time.

(** Records written through [logger] *)
Inductive log_record : Type :=
| Warning_event_time_old (v : Z)
| Error_cleaning_event (event_id e : string)
| Info_inserted_events (n : nat)
| Error_insert_failed (e : string)
| Warning_validation_errors (n : nat)
| Info_user_identification_completed (user_id : string)
| Error_failed_to_identify_user (e : string).

(** [x or d] for an [Optional[str]] *)
Definition or_str (x : option string) (d : string) : string :=
  match x with
  | Some s => if Py.is_empty s then d else s
  | None => d
  end.

(** [x or d] for an [Optional[int]] *)
Definition or_int (x : option Z) (d : Z) : Z :=
  match x with
  | Some n => if n =? 0 then d else n
  | None => d
  end.

(** [len(s) <= n] for an optional string field: [None] passes *)
Definition max_length (n : nat) (x : option string) : bool :=
  match x with
  | Some s => (String.length s <=? n)%nat
  | None => true
  end.

Definition length_between (lo hi : nat) (s : string) : bool :=
  ((lo <=? String.length s)%nat && (String.length s <=? hi)%nat).

Definition at_least (lo : Z) (x : option Z) : bool :=
  match x with
  | Some n => lo <=? n
  | None => true
  end.

(** ** [class EventData(BaseModel)] *)

Module EventData.
Section WithRuntime.
Context {rt : Runtime}.

Record t : Type := {
  event_id : string;
  event_time : Z;
  event_type : string;
  user_id : option string;
  anonymous_id : string;
  session_id : string;
  visit_id : Z;
  device_fingerprint : option string;
  user_agent : option string;
  ip_address : option string;
  page_url : option string;
  page_title : option string;
  referrer_url : option string;
  utm_source : option string;
  utm_medium : option string;
  utm_campaign : option string;
  utm_content : option string;
  utm_term : option string;
  gclid : option string;
  gbraid : option string;
  wbraid : option string;
  revenue : option float;
  currency : option string;
  order_id : option string;
  product_id : option string;
  product_category : option string;
  quantity : option Z;
  custom_properties : option dict;
  session_start_time : option Z;
  session_duration : option Z;
  page_views_in_session : option Z;
  is_bounce : option bool
}.

(** The [Field(...)] constraints: what the boundary checks of the shape of a
    submitted event. *)
Definition field_constraints (e : t) : bool :=
  length_between 1 255 (event_id e)
  && length_between 1 100 (event_type e)
  && max_length 255 (user_id e)
  && length_between 1 255 (anonymous_id e)
  && length_between 1 255 (session_id e)
  && (1 <=? visit_id e)
  && max_length 255 (device_fingerprint e)
  && max_length 1000 (user_agent e)
  && max_length 2000 (page_url e)
  && max_length 500 (page_title e)
  && max_length 2000 (referrer_url e)
  && max_length 255 (utm_source e)
  && max_length 255 (utm_medium e)
  && max_length 255 (utm_campaign e)
  && max_length 255 (utm_content e)
  && max_length 255 (utm_term e)
  && max_length 255 (gclid e)
  && max_length 255 (gbraid e)
  && max_length 255 (wbraid e)
  && match revenue e with Some x => float_nonneg x | None => true end
  && max_length 3 (currency e)
  && max_length 255 (order_id e)
  && max_length 255 (product_id e)
  && max_length 255 (product_category e)
  && at_least 0 (quantity e)
  && at_least 0 (session_duration e)
  && at_least 1 (page_views_in_session e).

(** [@validator('event_time')], run at the instant [now] *)
Definition validate_event_time (now v : Z) : Py.result Z * list log_record :=
  if Time.replace_235959 now <? v
  then (Py.Raise "Event time cannot be in the future", [])
  else if 7 <? Time.days_between now v
       then (Py.Ok v, [Warning_event_time_old v])
       else (Py.Ok v, []).

(** [@validator('page_url', 'referrer_url')] *)
Definition validate_urls (v : option string) : option string :=
  match v with
  | None => None
  | Some s =>
      if negb (Py.is_empty s)
         && negb (Py.startswith s "http://" || Py.startswith s "https://")
      then
        if Py.startswith s "//" then Some ("https:" ++ s)
        else if negb (Py.startswith s "/") then Some ("https://" ++ s)
             else Some s
      else Some s
  end.

(** [@validator('custom_properties')] *)
Definition validate_custom_properties (v : option dict)
  : Py.result (option dict) :=
  match v with
  | None => Py.Ok None
  | Some d =>
      match json_dumps d with
      | Py.Ok _ => Py.Ok v
      | Py.Raise _ => Py.Raise "Custom properties must be JSON serializable"
      end
  end.

Definition with_urls (e : t) (page referrer : option string) : t :=
  {| event_id := event_id e; event_time := event_time e;
     event_type := event_type e; user_id := user_id e;
     anonymous_id := anonymous_id e; session_id := session_id e;
     visit_id := visit_id e; device_fingerprint := device_fingerprint e;
     user_agent := user_agent e; ip_address := ip_address e;
     page_url := page; page_title := page_title e;
     referrer_url := referrer;
     utm_source := utm_source e; utm_medium := utm_medium e;
     utm_campaign := utm_campaign e; utm_content := utm_content e;
     utm_term := utm_term e; gclid := gclid e; gbraid := gbraid e;
     wbraid := wbraid e; revenue := revenue e; currency := currency e;
     order_id := order_id e; product_id := product_id e;
     product_category := product_category e; quantity := quantity e;
     custom_properties := custom_properties e;
     session_start_time := session_start_time e;
     session_duration := session_duration e;
     page_views_in_session := page_views_in_session e;
     is_bounce := is_bounce e |}.

(** Building an [EventData] from a submitted record at the instant [now]:
    the field constraints and the three validators. Any failure makes the
    model invalid; the warning of the time validator is logged either way. *)
Definition construct (now : Z) (raw : t) : Py.result t * list log_record :=
  let (time, logged) := validate_event_time now (event_time raw) in
  let outcome :=
    if negb (field_constraints raw) then Py.Raise "field constraint violated"
    else
      match time with
      | Py.Raise msg => Py.Raise msg
      | Py.Ok _ =>
          match validate_custom_properties (custom_properties raw) with
          | Py.Raise msg => Py.Raise msg
          | Py.Ok _ =>
              Py.Ok (with_urls raw (validate_urls (page_url raw))
                                   (validate_urls (referrer_url raw)))
          end
      end in
  (outcome, logged).

End WithRuntime.
End EventData.

(** ** The stored event row: the dictionary built by [_clean_event], with
    the 34 columns of [analytics.events_buffer] *)

Module Row.
Section WithRuntime.
Context {rt : Runtime}.

Record t : Type := {
  event_id : string;
  event_time : Z;
  event_type : string;
  user_id : string;
  anonymous_id : string;
  session_id : string;
  visit_id : Z;
  device_fingerprint : string;
  user_agent : string;
  ip_address : string;
  page_url : string;
  page_title : string;
  referrer_url : string;
  utm_source : string;
  utm_medium : string;
  utm_campaign : string;
  utm_content : string;
  utm_term : string;
  gclid : string;
  gbraid : string;
  wbraid : string;
  revenue : float;
  currency : string;
  order_id : string;
  product_id : string;
  product_category : string;
  quantity : Z;
  custom_properties : string;
  session_start_time : Z;
  session_duration : Z;
  page_views_in_session : Z;
  is_bounce : Z;
  is_valid : Z;
  validation_errors : string
}.

(** [row['is_valid'] = v; row['validation_errors'] = errors] *)
Definition set_validation (r : t) (v : Z) (errors : string) : t :=
  {| event_id := event_id r; event_time := event_time r;
     event_type := event_type r; user_id := user_id r;
     anonymous_id := anonymous_id r; session_id := session_id r;
     visit_id := visit_id r; device_fingerprint := device_fingerprint r;
     user_agent := user_agent r; ip_address := ip_address r;
     page_url := page_url r; page_title := page_title r;
     referrer_url := referrer_url r;
     utm_source := utm_source r; utm_medium := utm_medium r;
     utm_campaign := utm_campaign r; utm_content := utm_content r;
     utm_term := utm_term r; gclid := gclid r; gbraid := gbraid r;
     wbraid := wbraid r; revenue := revenue r; currency := currency r;
     order_id := order_id r; product_id := product_id r;
     product_category := product_category r; quantity := quantity r;
     custom_properties := custom_properties r;
     session_start_time := session_start_time r;
     session_duration := session_duration r;
     page_views_in_session := page_views_in_session r;
     is_bounce := is_bounce r;
     is_valid := v; validation_errors := errors |}.

(** [UPDATE user_id = v] on one row *)
Definition set_user_id (r : t) (v : string) : t :=
  {| event_id := event_id r; event_time := event_time r;
     event_type := event_type r; user_id := v;
     anonymous_id := anonymous_id r; session_id := session_id r;
     visit_id := visit_id r; device_fingerprint := device_fingerprint r;
     user_agent := user_agent r; ip_address := ip_address r;
     page_url := page_url r; page_title := page_title r;
     referrer_url := referrer_url r;
     utm_source := utm_source r; utm_medium := utm_medium r;
     utm_campaign := utm_campaign r; utm_content := utm_content r;
     utm_term := utm_term r; gclid := gclid r; gbraid := gbraid r;
     wbraid := wbraid r; revenue := revenue r; currency := currency r;
     order_id := order_id r; product_id := product_id r;
     product_category := product_category r; quantity := quantity r;
     custom_properties := custom_properties r;
     session_start_time := session_start_time r;
     session_duration := session_duration r;
     page_views_in_session := page_views_in_session r;
     is_bounce := is_bounce r;
     is_valid := is_valid r; validation_errors := validation_errors r |}.

End WithRuntime.
End Row.

(** ** [class EventBatch(BaseModel)] *)

Module EventBatch.
Section WithRuntime.
Context {rt : Runtime}.

(** Every item of [events] is validated; one invalid item makes the list,
    and so the batch, invalid. *)
Fixpoint construct_items (now : Z) (raws : list EventData.t)
  : Py.result (list EventData.t) * list log_record :=
  match raws with
  | [] => (Py.Ok [], [])
  | raw :: rest =>
      let (item, logged1) := EventData.construct now raw in
      let (items, logged2) := construct_items now rest in
      (match item, items with
       | Py.Ok e, Py.Ok es => Py.Ok (e :: es)
       | Py.Raise msg, _ => Py.Raise msg
       | Py.Ok _, Py.Raise msg => Py.Raise msg
       end,
       (logged1 ++ logged2)%list)
  end.

(** [events: List[EventData] = Field(..., min_items=1, max_items=1000)] *)
Definition construct (now : Z) (raws : list EventData.t)
  : Py.result (list EventData.t) * list log_record :=
  let (items, logged) := construct_items now raws in
  (if ((1 <=? List.length raws)%nat && (List.length raws <=? 1000)%nat)
   then items
   else Py.Raise "ensure this value has between 1 and 1000 items",
   logged).

End WithRuntime.
End EventBatch.

(** ** [class ClickHouseManager]: event insertion *)

Module ClickHouseManager.
Section WithRuntime.
Context {rt : Runtime}.

(** The storage collaborator: [client.insert] either stores the rows or
    raises; [insert_error rows] is the message of the exception, if any. *)
Variable insert_error : list Row.t -> option string.

Definition _clean_event (event : EventData.t) : Py.result Row.t :=
  let fingerprint :=
    if Py.is_empty (or_str (EventData.device_fingerprint event) "")
    then DataCleaner.generate_device_fingerprint
           (or_str (EventData.user_agent event) "")
           (or_str (EventData.ip_address event) "")
    else Py.Ok (or_str (EventData.device_fingerprint event) "") in
  match fingerprint with
  | Py.Raise e => Py.Raise e
  | Py.Ok device_fingerprint =>
      let session_start_time :=
        match EventData.session_start_time event with
        | Some t => t
        | None => EventData.event_time event
        end in
      match json_dumps (match EventData.custom_properties event with
                        | Some d => d
                        | None => dict_empty
                        end) with
      | Py.Raise e => Py.Raise e
      | Py.Ok custom_properties =>
          Py.Ok
            {| Row.event_id := DataCleaner.clean_string (EventData.event_id event) 255;
               Row.event_time := EventData.event_time event;
               Row.event_type := DataCleaner.clean_string (EventData.event_type event) 100;
               Row.user_id := DataCleaner.clean_string (or_str (EventData.user_id event) "") 255;
               Row.anonymous_id := DataCleaner.clean_string (EventData.anonymous_id event) 255;
               Row.session_id := DataCleaner.clean_string (EventData.session_id event) 255;
               Row.visit_id := EventData.visit_id event;
               Row.device_fingerprint := DataCleaner.clean_string device_fingerprint 255;
               Row.user_agent := DataCleaner.clean_string (or_str (EventData.user_agent event) "") 1000;
               Row.ip_address := DataCleaner.validate_ip_address (or_str (EventData.ip_address event) "0.0.0.0");
               Row.page_url := DataCleaner.clean_string (or_str (EventData.page_url event) "") 2000;
               Row.page_title := DataCleaner.clean_string (or_str (EventData.page_title event) "") 500;
               Row.referrer_url := DataCleaner.clean_string (or_str (EventData.referrer_url event) "") 2000;
               Row.utm_source := DataCleaner.clean_string (or_str (EventData.utm_source event) "") 255;
               Row.utm_medium := DataCleaner.clean_string (or_str (EventData.utm_medium event) "") 255;
               Row.utm_campaign := DataCleaner.clean_string (or_str (EventData.utm_campaign event) "") 255;
               Row.utm_content := DataCleaner.clean_string (or_str (EventData.utm_content event) "") 255;
               Row.utm_term := DataCleaner.clean_string (or_str (EventData.utm_term event) "") 255;
               Row.gclid := DataCleaner.clean_string (or_str (EventData.gclid event) "") 255;
               Row.gbraid := DataCleaner.clean_string (or_str (EventData.gbraid event) "") 255;
               Row.wbraid := DataCleaner.clean_string (or_str (EventData.wbraid event) "") 255;
               Row.revenue :=
                 round_ndigits
                   (match EventData.revenue event with
                    | Some x => if float_nonzero x then x else float_of_int 0
                    | None => float_of_int 0
                    end) 2;
               Row.currency := DataCleaner.clean_string (or_str (EventData.currency event) "USD") 3;
               Row.order_id := DataCleaner.clean_string (or_str (EventData.order_id event) "") 255;
               Row.product_id := DataCleaner.clean_string (or_str (EventData.product_id event) "") 255;
               Row.product_category := DataCleaner.clean_string (or_str (EventData.product_category event) "") 255;
               Row.quantity := or_int (EventData.quantity event) 0;
               Row.custom_properties := custom_properties;
               Row.session_start_time := session_start_time;
               Row.session_duration := or_int (EventData.session_duration event) 0;
               Row.page_views_in_session := or_int (EventData.page_views_in_session event) 1;
               Row.is_bounce :=
                 match EventData.is_bounce event with Some true => 1 | _ => 0 end;
               Row.is_valid := 1;
               Row.validation_errors := "" |}
      end
  end.

(** The body of the [try] of the loop of [insert_events]: clean the event,
    then flag bot traffic on the cleaned user agent. *)
Definition clean_and_flag (event : EventData.t) : Py.result Row.t :=
  match _clean_event event with
  | Py.Raise e => Py.Raise e
  | Py.Ok cleaned_event =>
      if DataCleaner.detect_bot_traffic (Row.user_agent cleaned_event)
      then Py.Ok (Row.set_validation cleaned_event 0 "bot_traffic")
      else Py.Ok cleaned_event
  end.

(** The [for event in events] loop, with its three accumulators. *)
Fixpoint clean_loop (events : list EventData.t)
    (cleaned_events : list Row.t) (validation_errors : list (string * string))
    (logged : list log_record)
  : list Row.t * list (string * string) * list log_record :=
  match events with
  | [] => (cleaned_events, validation_errors, logged)
  | event :: rest =>
      match clean_and_flag event with
      | Py.Ok cleaned_event =>
          clean_loop rest (cleaned_events ++ [cleaned_event])%list validation_errors logged
      | Py.Raise e =>
          clean_loop rest cleaned_events
            (validation_errors ++ [(EventData.event_id event, e)])%list
            (logged ++ [Error_cleaning_event (EventData.event_id event) e])%list
      end
  end.

(** What one call of [insert_events] does: the bulk writes stored in
    [analytics.events_buffer], the [(event_id, error)] pairs collected in
    [validation_errors], the log, and the exception it ends with, if any. *)
Record outcome : Type := {
  stored : list (list Row.t);
  rejected : list (string * string);
  logged : list log_record;
  raised : option string
}.

Definition insert_events (events : list EventData.t) : outcome :=
  match events with
  | [] => {| stored := []; rejected := []; logged := []; raised := None |}
  | _ =>
      let '(cleaned_events, validation_errors, logged0) :=
        clean_loop events [] [] [] in
      let warn :=
        match validation_errors with
        | [] => []
        | _ => [Warning_validation_errors (List.length validation_errors)]
        end in
      match cleaned_events with
      | [] =>
          {| stored := []; rejected := validation_errors;
             logged := (logged0 ++ warn)%list; raised := None |}
      | _ =>
          match insert_error cleaned_events with
          | Some e =>
              {| stored := []; rejected := validation_errors;
                 logged := (logged0 ++ [Error_insert_failed e])%list;
                 raised := Some e |}
          | None =>
              {| stored := [cleaned_events]; rejected := validation_errors;
                 logged := (logged0
                            ++ [Info_inserted_events (List.length cleaned_events)]
                            ++ warn)%list;
                 raised := None |}
          end
      end
  end.

(** [POST /api/events]. The body is parsed into an [EventBatch] before the
    handler runs; an invalid body is answered 422 and the handler is not
    called. Otherwise the handler acknowledges the batch and
    [insert_events] runs as a background task. *)
Inductive response : Type :=
| Accepted (events_count : nat)
| Unprocessable (detail : string).

Definition collect_events (now : Z) (body : list EventData.t)
  : response * option outcome :=
  match fst (EventBatch.construct now body) with
  | Py.Raise detail => (Unprocessable detail, None)
  | Py.Ok events => (Accepted (List.length events), Some (insert_events events))
  end.

End WithRuntime.
End ClickHouseManager.

(** ** The storage collaborator's command language

    [identify_user] sends two commands as text, with the two identifiers
    spliced between quotes. The server reads the text: this is the fragment of
    its language that the two commands are written in. A text outside the
    fragment is [Rejected], as a text the server refuses is. *)

Module Sql.

Inductive token : Type :=
| TWord (w : string)        (* keyword, table, column or function name *)
| TStr (s : string)         (* quoted string literal *)
| TEq | TLParen | TRParen | TComma | TLBracket | TRBracket.

(** The lexer finds where a quoted literal ends: a backslash takes the next
    character with it, and a quote followed by a quote goes on. The modes
    hold the text between the quotes as it is written. *)
Inductive mode : Type :=
| Idle
| InWord (acc : string)
| InStr (acc : string)        (* inside a quoted literal *)
| InStrEscape (acc : string)  (* after a backslash inside a literal *)
| InStrQuote (acc : string)   (* after a quote inside a literal: its end,
                                 or the first half of a doubled quote *)
| Failed.

Definition push (acc : string) (c : ascii) : string :=
  acc ++ String c EmptyString.

Definition is_word_char (c : ascii) : bool :=
  let n := Py.ord c in
  ((48 <=? n) && (n <=? 57)) || ((65 <=? n) && (n <=? 90))
  || ((97 <=? n) && (n <=? 122)) || (n =? 95) || (n =? 46).

Definition is_blank (c : ascii) : bool :=
  let n := Py.ord c in (n =? 32) || (n =? 9) || (n =? 10) || (n =? 13).

Definition quote : ascii := "'"%char.
Definition backslash : ascii := "\"%char.

(** Reading one character outside a literal and outside a word *)
Definition step_idle (toks : list token) (c : ascii) : mode * list token :=
  if is_blank c then (Idle, toks)
  else if Ascii.eqb c quote then (InStr "", toks)
  else if is_word_char c then (InWord (String c ""), toks)
  else if Ascii.eqb c "="%char then (Idle, toks ++ [TEq])%list
  else if Ascii.eqb c "("%char then (Idle, toks ++ [TLParen])%list
  else if Ascii.eqb c ")"%char then (Idle, toks ++ [TRParen])%list
  else if Ascii.eqb c ","%char then (Idle, toks ++ [TComma])%list
  else if Ascii.eqb c "["%char then (Idle, toks ++ [TLBracket])%list
  else if Ascii.eqb c "]"%char then (Idle, toks ++ [TRBracket])%list
  else (Failed, toks).

Definition step (st : mode * list token) (c : ascii) : mode * list token :=
  let (m, toks) := st in
  match m with
  | Failed => (Failed, toks)
  | Idle => step_idle toks c
  | InWord acc =>
      if is_word_char c then (InWord (push acc c), toks)
      else step_idle (toks ++ [TWord acc])%list c
  | InStr acc =>
      if Ascii.eqb c quote then (InStrQuote acc, toks)
      else if Ascii.eqb c backslash then (InStrEscape (push acc c), toks)
      else (InStr (push acc c), toks)
  | InStrEscape acc => (InStr (push acc c), toks)
  | InStrQuote acc =>
      if Ascii.eqb c quote then (InStr (push (push acc quote) quote), toks)
      else step_idle (toks ++ [TStr acc])%list c
  end.

Fixpoint run (st : mode * list token) (text : string) : mode * list token :=
  match text with
  | EmptyString => st
  | String c rest => run (step st c) rest
  end.

(** The value of a hexadecimal digit in [\xHH]; the server's table holds
    255 for any other character, and the two values are combined in a
    byte. *)
Definition unhex (c : ascii) : Z :=
  let n := Py.ord c in
  if (48 <=? n) && (n <=? 57) then n - 48
  else if (65 <=? n) && (n <=? 70) then n - 55
  else if (97 <=? n) && (n <=? 102) then n - 87
  else 255.

Definition unhex2 (h1 h2 : ascii) : ascii :=
  Py.chr ((unhex h1 * 16 + unhex h2) mod 256).

(** The character an escape letter stands for *)
Definition escape_char (c : ascii) : ascii :=
  if Ascii.eqb c "a"%char then Py.chr 7
  else if Ascii.eqb c "b"%char then Py.chr 8
  else if Ascii.eqb c "e"%char then Py.chr 27
  else if Ascii.eqb c "f"%char then Py.chr 12
  else if Ascii.eqb c "n"%char then Py.chr 10
  else if Ascii.eqb c "r"%char then Py.chr 13
  else if Ascii.eqb c "t"%char then Py.chr 9
  else if Ascii.eqb c "v"%char then Py.chr 11
  else if Ascii.eqb c "0"%char then Py.chr 0
  else c.

(** After a backslash, a character that is no escape keeps its backslash,
    unless it is a backslash, a quote of any kind, a slash or an equals
    sign. *)
Definition keeps_backslash (decoded : ascii) : bool :=
  let n := Py.ord decoded in
  negb ((n =? 92) || (n =? 39) || (n =? 34) || (n =? 96) || (n =? 47)
        || (n =? 61) || (n <=? 31)).

(** The value of a literal, from the text between its quotes. The reader
    runs over the literal a second time, on its own: [\x] takes the next two
    characters whatever they are, [\N] stands for nothing, and a quote must
    be doubled. Where the reader and the lexer disagree on the end of the
    literal, the command is refused. *)
Fixpoint unescape (raw : string) : option string :=
  match raw with
  | EmptyString => Some EmptyString
  | String c rest =>
      if Ascii.eqb c quote then
        match rest with
        | String c' rest' =>
            if Ascii.eqb c' quote
            then option_map (String quote) (unescape rest')
            else None
        | EmptyString => None
        end
      else if Ascii.eqb c backslash then
        match rest with
        | EmptyString => None
        | String e rest' =>
            if Ascii.eqb e "x"%char then
              match rest' with
              | String h1 (String h2 rest'') =>
                  option_map (String (unhex2 h1 h2)) (unescape rest'')
              | _ => None
              end
            else if Ascii.eqb e "N"%char then unescape rest'
            else
              let decoded := escape_char e in
              if keeps_backslash decoded
              then option_map (fun s => String backslash (String decoded s))
                              (unescape rest')
              else option_map (String decoded) (unescape rest')
        end
      else option_map (String c) (unescape rest)
  end.

(** The literals of a command, read *)
Fixpoint read_literals (toks : list token) : option (list token) :=
  match toks with
  | [] => Some []
  | TStr raw :: rest =>
      match unescape raw, read_literals rest with
      | Some s, Some rest' => Some (TStr s :: rest')
      | _, _ => None
      end
  | t :: rest => option_map (cons t) (read_literals rest)
  end.

Definition lex (text : string) : option (list token) :=
  match run (Idle, []) text with
  | (Idle, toks) => read_literals toks
  | (InWord acc, toks) => read_literals (toks ++ [TWord acc])%list
  | (InStrQuote acc, toks) => read_literals (toks ++ [TStr acc])%list
  | _ => None
  end.

Definition token_eqb (a b : token) : bool :=
  match a, b with
  | TWord x, TWord y => String.eqb x y
  | TStr x, TStr y => String.eqb x y
  | TEq, TEq | TLParen, TLParen | TRParen, TRParen | TComma, TComma
  | TLBracket, TLBracket | TRBracket, TRBracket => true
  | _, _ => false
  end.

(** The tokens left after the fixed tokens [fixed] *)
Fixpoint expect (fixed toks : list token) : option (list token) :=
  match fixed, toks with
  | [], _ => Some toks
  | f :: fixed', t :: toks' =>
      if token_eqb f t then expect fixed' toks' else None
  | _ :: _, [] => None
  end.

(** Conditions: comparisons [a = b] of columns and literals joined by [AND]
    and [OR], [AND] binding tighter: a disjunction of conjunctions. *)
Inductive operand : Type :=
| Col (name : string)
| Lit (s : string).

Definition operand_of (t : token) : option operand :=
  match t with
  | TWord w => Some (Col w)
  | TStr s => Some (Lit s)
  | _ => None
  end.

Fixpoint parse_cond (toks : list token)
  : option (list (list (operand * operand))) :=
  match toks with
  | a :: TEq :: b :: rest =>
      match operand_of a, operand_of b with
      | Some x, Some y =>
          match rest with
          | [] => Some [[(x, y)]]
          | TWord w :: rest' =>
              if String.eqb w "AND" then
                match parse_cond rest' with
                | Some (first :: disj) => Some (((x, y) :: first) :: disj)
                | _ => None
                end
              else if String.eqb w "OR" then
                match parse_cond rest' with
                | Some disj => Some ([(x, y)] :: disj)
                | None => None
                end
              else None
          | _ => None
          end
      | _, _ => None
      end
  | _ => None
  end.

Inductive exec_result (A : Type) : Type :=
| Done (a : A)
| Rejected.
Arguments Done {A} a.
Arguments Rejected {A}.

End Sql.

(** ** [class UserIdentification(BaseModel)] and [identify_user] *)

Module Profile.
(** A row of [analytics.user_profiles], with the six columns the [INSERT]
    names. *)
Record t : Type := {
  user_id : string;
  anonymous_ids : list string;
  first_seen : Z;
  last_seen : Z;
  created_at : Z;
  updated_at : Z
}.

(** Modelled from the spec: the declaration of [analytics.user_profiles] is
    not among the sources, so what the table does with a second row for a
    user is not in them. The spec has the profile write be an upsert of the
    storage collaborator, replace on conflict, the latest write winning:
    the row written for a user takes the place of the row the table holds
    for that user, and is added when the table holds none. *)
Definition upsert (p : t) (table : list t) : list t :=
  if existsb (fun q => String.eqb (user_id q) (user_id p)) table
  then map (fun q => if String.eqb (user_id q) (user_id p) then p else q) table
  else (table ++ [p])%list.
End Profile.

Module Identity.
Section WithRuntime.
Context {rt : Runtime}.

Record UserIdentification : Type := {
  user_id : string;
  anonymous_id : string;
  traits : option dict
}.

(** The two tables [identify_user] writes to *)
Record db : Type := {
  user_profiles : list Profile.t;
  events : list Row.t
}.

Definition nl : string := String (Py.chr 10) EmptyString.

(** The first f-string of [identify_user] (indentation left out) *)
Definition insert_profile_text (identification : UserIdentification) : string :=
  nl ++ "INSERT INTO analytics.user_profiles " ++ nl
  ++ "(user_id, anonymous_ids, first_seen, last_seen, created_at, updated_at)" ++ nl
  ++ "VALUES (" ++ nl
  ++ "'" ++ user_id identification ++ "'," ++ nl
  ++ "['" ++ anonymous_id identification ++ "']," ++ nl
  ++ "now64()," ++ nl
  ++ "now64()," ++ nl
  ++ "now64()," ++ nl
  ++ "now64()" ++ nl
  ++ ")" ++ nl.

(** The second f-string of [identify_user] (indentation left out) *)
Definition update_events_text (identification : UserIdentification) : string :=
  nl ++ "ALTER TABLE analytics.events " ++ nl
  ++ "UPDATE user_id = '" ++ user_id identification ++ "'" ++ nl
  ++ "WHERE anonymous_id = '" ++ anonymous_id identification
  ++ "' AND user_id = ''" ++ nl.

(** The string-typed columns of [analytics.events] *)
Definition string_columns : list (string * (Row.t -> string)) :=
  [ ("event_id", Row.event_id); ("event_type", Row.event_type);
    ("user_id", Row.user_id); ("anonymous_id", Row.anonymous_id);
    ("session_id", Row.session_id);
    ("device_fingerprint", Row.device_fingerprint);
    ("user_agent", Row.user_agent); ("ip_address", Row.ip_address);
    ("page_url", Row.page_url); ("page_title", Row.page_title);
    ("referrer_url", Row.referrer_url); ("utm_source", Row.utm_source);
    ("utm_medium", Row.utm_medium); ("utm_campaign", Row.utm_campaign);
    ("utm_content", Row.utm_content); ("utm_term", Row.utm_term);
    ("gclid", Row.gclid); ("gbraid", Row.gbraid); ("wbraid", Row.wbraid);
    ("currency", Row.currency); ("order_id", Row.order_id);
    ("product_id", Row.product_id);
    ("product_category", Row.product_category);
    ("custom_properties", Row.custom_properties);
    ("validation_errors", Row.validation_errors) ].

Fixpoint column (name : string) (cols : list (string * (Row.t -> string)))
  : option (Row.t -> string) :=
  match cols with
  | [] => None
  | (n, f) :: rest => if String.eqb name n then Some f else column name rest
  end.

Definition compile_operand (o : Sql.operand) : option (Row.t -> string) :=
  match o with
  | Sql.Col name => column name string_columns
  | Sql.Lit s => Some (fun _ => s)
  end.

Fixpoint compile_conj (atoms : list (Sql.operand * Sql.operand))
  : option (Row.t -> bool) :=
  match atoms with
  | [] => Some (fun _ => true)
  | (a, b) :: rest =>
      match compile_operand a, compile_operand b, compile_conj rest with
      | Some f, Some g, Some h =>
          Some (fun r => String.eqb (f r) (g r) && h r)
      | _, _, _ => None
      end
  end.

Fixpoint compile_disj (conjs : list (list (Sql.operand * Sql.operand)))
  : option (Row.t -> bool) :=
  match conjs with
  | [] => Some (fun _ => false)
  | c :: rest =>
      match compile_conj c, compile_disj rest with
      | Some f, Some g => Some (fun r => f r || g r)
      | _, _ => None
      end
  end.

Definition words (ws : list string) : list Sql.token := map Sql.TWord ws.

(** [ALTER TABLE analytics.events UPDATE user_id = <literal> WHERE <cond>],
    once the mutation has been applied *)
Definition exec_update (toks : list Sql.token) (d : db) : Sql.exec_result db :=
  match Sql.expect (words ["ALTER"; "TABLE"; "analytics.events"; "UPDATE"; "user_id"]
                    ++ [Sql.TEq])%list toks with
  | Some (Sql.TStr v :: Sql.TWord w :: cond) =>
      if String.eqb w "WHERE" then
        match Sql.parse_cond cond with
        | Some disj =>
            match compile_disj disj with
            | Some selected =>
                Sql.Done
                  {| user_profiles := user_profiles d;
                     events :=
                       map (fun r => if selected r then Row.set_user_id r v else r)
                           (events d) |}
            | None => Sql.Rejected
            end
        | None => Sql.Rejected
        end
      else Sql.Rejected
  | _ => Sql.Rejected
  end.

Definition now64_call : list Sql.token :=
  [Sql.TWord "now64"; Sql.TLParen; Sql.TRParen].

(** [INSERT INTO analytics.user_profiles (...) VALUES (<literal>,
    [<literal>], now64(), now64(), now64(), now64())], run at [now] *)
Definition exec_insert (now : Z) (toks : list Sql.token) (d : db)
  : Sql.exec_result db :=
  match Sql.expect
          (words ["INSERT"; "INTO"; "analytics.user_profiles"]
           ++ [Sql.TLParen; Sql.TWord "user_id"; Sql.TComma;
               Sql.TWord "anonymous_ids"; Sql.TComma;
               Sql.TWord "first_seen"; Sql.TComma;
               Sql.TWord "last_seen"; Sql.TComma;
               Sql.TWord "created_at"; Sql.TComma;
               Sql.TWord "updated_at"; Sql.TRParen;
               Sql.TWord "VALUES"; Sql.TLParen])%list toks with
  | Some (Sql.TStr u :: Sql.TComma :: Sql.TLBracket :: Sql.TStr a :: rest) =>
      match Sql.expect
              ([Sql.TRBracket; Sql.TComma] ++ now64_call ++ [Sql.TComma]
               ++ now64_call ++ [Sql.TComma] ++ now64_call ++ [Sql.TComma]
               ++ now64_call ++ [Sql.TRParen])%list rest with
      | Some [] =>
          Sql.Done
            {| user_profiles :=
                 Profile.upsert
                   {| Profile.user_id := u; Profile.anonymous_ids := [a];
                      Profile.first_seen := now; Profile.last_seen := now;
                      Profile.created_at := now; Profile.updated_at := now |}
                   (user_profiles d);
               events := events d |}
      | _ => Sql.Rejected
      end
  | _ => Sql.Rejected
  end.

(** The tokens of the two commands when both identifiers read back as
    themselves, and the profile row the first one then inserts *)
Definition update_tokens (user anonymous : string) : list Sql.token :=
  [ Sql.TWord "ALTER"; Sql.TWord "TABLE"; Sql.TWord "analytics.events";
    Sql.TWord "UPDATE"; Sql.TWord "user_id"; Sql.TEq; Sql.TStr user;
    Sql.TWord "WHERE"; Sql.TWord "anonymous_id"; Sql.TEq; Sql.TStr anonymous;
    Sql.TWord "AND"; Sql.TWord "user_id"; Sql.TEq; Sql.TStr "" ].

Definition insert_tokens (user anonymous : string) : list Sql.token :=
  ([ Sql.TWord "INSERT"; Sql.TWord "INTO"; Sql.TWord "analytics.user_profiles";
     Sql.TLParen; Sql.TWord "user_id"; Sql.TComma;
     Sql.TWord "anonymous_ids"; Sql.TComma;
     Sql.TWord "first_seen"; Sql.TComma;
     Sql.TWord "last_seen"; Sql.TComma;
     Sql.TWord "created_at"; Sql.TComma;
     Sql.TWord "updated_at"; Sql.TRParen;
     Sql.TWord "VALUES"; Sql.TLParen;
     Sql.TStr user; Sql.TComma; Sql.TLBracket; Sql.TStr anonymous;
     Sql.TRBracket; Sql.TComma ]
   ++ now64_call ++ [Sql.TComma] ++ now64_call ++ [Sql.TComma]
   ++ now64_call ++ [Sql.TComma] ++ now64_call
   ++ [Sql.TRParen])%list.

Definition new_profile (now : Z) (identification : UserIdentification)
  : Profile.t :=
  {| Profile.user_id := user_id identification;
     Profile.anonymous_ids := [anonymous_id identification];
     Profile.first_seen := now; Profile.last_seen := now;
     Profile.created_at := now; Profile.updated_at := now |}.

(** [client.command(text)], run at [now] *)
Definition command (now : Z) (text : string) (d : db) : Sql.exec_result db :=
  match Sql.lex text with
  | Some (Sql.TWord w :: toks) =>
      if String.eqb w "INSERT" then exec_insert now (Sql.TWord w :: toks) d
      else if String.eqb w "ALTER" then exec_update (Sql.TWord w :: toks) d
      else Sql.Rejected
  | _ => Sql.Rejected
  end.

Record outcome : Type := {
  state : db;
  logged : list log_record;
  raised : option string
}.

Definition server_exception : string := "command rejected by the server".

(** [identify_user]: the two commands in turn; an exception of either is
    logged and raised again, what was already written stays. The two
    commands run at [now1] and [now2]. *)
Definition identify_user (now1 now2 : Z) (identification : UserIdentification)
    (d : db) : outcome :=
  match command now1 (insert_profile_text identification) d with
  | Sql.Rejected =>
      {| state := d;
         logged := [Error_failed_to_identify_user server_exception];
         raised := Some server_exception |}
  | Sql.Done d1 =>
      match command now2 (update_events_text identification) d1 with
      | Sql.Rejected =>
          {| state := d1;
             logged := [Error_failed_to_identify_user server_exception];
             raised := Some server_exception |}
      | Sql.Done d2 =>
          {| state := d2;
             logged := [Info_user_identification_completed (user_id identification)];
             raised := None |}
      end
  end.

End WithRuntime.
End Identity.

(** ** [GoogleAdsSync.sync_attribution_data]: the attribution query

    A date is a day number, so the default date of the storage engine
    (1970-01-01) is day 0; counts are integers; a nullable cell is an
    [option].

    Modelled from the spec: the declarations of
    [analytics.google_ads_performance] and [analytics.events] are not among
    the sources, so the types of [cost] and [revenue] are not in them. The spec
    has currency amounts exchanged as decimals of two places: an amount is a
    rational number here, and a sum of amounts is exact. *)

(** What the engine returns for a division is not fixed by an amount being a
    decimal: a quotient of decimals is cut to the scale of the dividend, a
    quotient of counts is a rounded binary float, and either may leave the
    range of its type. The quotients are taken as the engine computes them, on
    a divisor other than zero, in a type of its own; so is the order that
    [ORDER BY] puts on them. *)
Class Engine : Type := {
  quotient : Type;
  zero : quotient;                          (* the literal [0] of an [if] *)
  amount_by_amount : Q -> Q -> quotient;    (* [website_revenue / ad_spend] *)
  amount_by_count : Q -> Z -> quotient;     (* [ad_spend / conversions] *)
  percentage : Z -> Z -> quotient;          (* [unique_users / ad_clicks * 100] *)
  quotient_compare : quotient -> quotient -> comparison;
  quotient_compare_antisym :
    forall a b, quotient_compare b a = CompOpp (quotient_compare a b)
}.

Module Attribution.

(** Modelled from the spec: the columns of [analytics.google_ads_performance]
    the query reads. The table is not declared in the sources; [cost] is a
    currency amount, which the spec has as a decimal of two places, a
    rational number here. *)
Record performance : Type := {
  date : Z;
  campaign_name : string;
  clicks : Z;
  cost : Q
}.

(** Modelled from the spec: the columns of [analytics.events] the query
    reads. The table is not declared in the sources; [revenue] is a currency
    amount, which the spec has as a decimal of two places, a rational number
    here. *)
Record event : Type := {
  event_time : Z;
  utm_source : string;
  utm_medium : string;
  utm_campaign : string;
  user_id : string;
  revenue : Q;
  event_type : string;
  is_valid : Z
}.

(** Modelled from the spec: the column [event_date] of [analytics.events]
    is filled by the table declaration, which is not in the sources; the
    spec has both aggregates taken over a rolling window of dates, so it is
    the date of [event_time]. *)
Definition event_date (e : event) : Z := Time.toDate (event_time e).

Definition key : Type := (Z * string)%type.

Definition key_eqb (a b : key) : bool :=
  (fst a =? fst b) && String.eqb (snd a) (snd b).

(** The groups of a [GROUP BY]: each key once, in order of first row *)
Fixpoint groups (keys : list key) : list key :=
  match keys with
  | [] => []
  | k :: rest => k :: filter (fun k' => negb (key_eqb k k')) (groups rest)
  end.

Definition sumZ (l : list Z) : Z := fold_right Z.add 0 l.
Definition sumQ (l : list Q) : Q := fold_right Qplus (0 : Q) l.

Fixpoint distinct (l : list string) : list string :=
  match l with
  | [] => []
  | x :: rest => x :: filter (fun y => negb (String.eqb x y)) (distinct rest)
  end.

(** [WITH google_ads_clicks AS (...)] *)
Record google_ads_click : Type := {
  gac_date : Z;
  gac_campaign_name : string;
  gac_ad_clicks : Z;
  gac_ad_spend : Q
}.

Definition performance_key (r : performance) : key := (date r, campaign_name r).

Definition google_ads_clicks (today : Z) (table : list performance)
  : list google_ads_click :=
  let rows := filter (fun r => today - 30 <=? date r) table in
  map (fun k =>
         let group := filter (fun r => key_eqb k (performance_key r)) rows in
         {| gac_date := fst k; gac_campaign_name := snd k;
            gac_ad_clicks := sumZ (map clicks group);
            gac_ad_spend := sumQ (map cost group) |})
      (groups (map performance_key rows)).

(** [website_conversions AS (...)] *)
Record website_conversion : Type := {
  wc_date : Z;
  wc_campaign_name : string;
  wc_unique_users : Z;
  wc_website_revenue : Q;
  wc_conversions : Z
}.

Definition event_key (e : event) : key := (Time.toDate (event_time e), utm_campaign e).

Definition website_conversions (today : Z) (table : list event)
  : list website_conversion :=
  let rows :=
    filter (fun e => (today - 30 <=? event_date e)
                     && String.eqb (utm_source e) "google"
                     && String.eqb (utm_medium e) "cpc"
                     && negb (String.eqb (utm_campaign e) "")
                     && (is_valid e =? 1)) table in
  map (fun k =>
         let group := filter (fun e => key_eqb k (event_key e)) rows in
         {| wc_date := fst k; wc_campaign_name := snd k;
            wc_unique_users := Z.of_nat (List.length (distinct (map user_id group)));
            wc_website_revenue := sumQ (map revenue group);
            wc_conversions :=
              Z.of_nat (List.length
                (filter (fun e => String.eqb (event_type e) "purchase") group)) |})
      (groups (map event_key rows)).

(** The cells of one side of a joined row *)
Record gac_cells : Type := {
  g_date : option Z;
  g_campaign_name : option string;
  g_ad_clicks : option Z;
  g_ad_spend : option Q
}.

Record wc_cells : Type := {
  w_date : option Z;
  w_campaign_name : option string;
  w_unique_users : option Z;
  w_website_revenue : option Q;
  w_conversions : option Z
}.

Definition gac_present (g : google_ads_click) : gac_cells :=
  {| g_date := Some (gac_date g); g_campaign_name := Some (gac_campaign_name g);
     g_ad_clicks := Some (gac_ad_clicks g); g_ad_spend := Some (gac_ad_spend g) |}.

Definition wc_present (w : website_conversion) : wc_cells :=
  {| w_date := Some (wc_date w); w_campaign_name := Some (wc_campaign_name w);
     w_unique_users := Some (wc_unique_users w);
     w_website_revenue := Some (wc_website_revenue w);
     w_conversions := Some (wc_conversions w) |}.

(** The cells of the side that has no matching row. The session setting
    [join_use_nulls] of the storage engine decides: NULL when it is set,
    the default value of the column type when it is not. The sources set
    nothing, and the engine's default is unset. *)
Definition gac_absent (join_use_nulls : bool) : gac_cells :=
  if join_use_nulls
  then {| g_date := None; g_campaign_name := None;
          g_ad_clicks := None; g_ad_spend := None |}
  else {| g_date := Some 0; g_campaign_name := Some "";
          g_ad_clicks := Some 0; g_ad_spend := Some (0 : Q) |}.

Definition wc_absent (join_use_nulls : bool) : wc_cells :=
  if join_use_nulls
  then {| w_date := None; w_campaign_name := None; w_unique_users := None;
          w_website_revenue := None; w_conversions := None |}
  else {| w_date := Some 0; w_campaign_name := Some "";
          w_unique_users := Some 0; w_website_revenue := Some (0 : Q);
          w_conversions := Some 0 |}.

(** [ON gac.date = wc.date AND gac.campaign_name = wc.campaign_name] *)
Definition on (g : google_ads_click) (w : website_conversion) : bool :=
  (gac_date g =? wc_date w)
  && String.eqb (gac_campaign_name g) (wc_campaign_name w).

(** [gac FULL OUTER JOIN wc ON ...] *)
Definition full_outer_join (join_use_nulls : bool)
    (gac : list google_ads_click) (wc : list website_conversion)
  : list (gac_cells * wc_cells) :=
  (flat_map
     (fun g =>
        match filter (on g) wc with
        | [] => [(gac_present g, wc_absent join_use_nulls)]
        | matched => map (fun w => (gac_present g, wc_present w)) matched
        end) gac
   ++ map (fun w => (gac_absent join_use_nulls, wc_present w))
          (filter (fun w => negb (existsb (fun g => on g w) gac)) wc))%list.

(** [coalesce(a, b)] *)
Definition coalesce {A : Type} (a b : option A) : option A :=
  match a with
  | Some _ => a
  | None => b
  end.

(** [x > 0], NULL for a NULL [x] *)
Definition positive (x : option Q) : option bool :=
  option_map (fun q => negb (Qle_bool q 0)) x.

Definition positive_count (x : option Z) : option bool :=
  option_map (fun n => 0 <? n) x.

(** [a OR b] in three-valued logic *)
Definition or3 (a b : option bool) : option bool :=
  match a, b with
  | Some true, _ => Some true
  | _, Some true => Some true
  | Some false, Some false => Some false
  | _, _ => None
  end.

(** The value of a derived ratio: what the engine computed, NULL, or a
    division by zero (an error for decimals, an infinity or NaN for
    floats). *)
Inductive ratio {eng : Engine} : Type :=
| Number (v : quotient)
| Null
| DivisionByZero.

(** [a / b]: NULL when an operand is, and the engine's quotient on a
    divisor other than zero *)
Definition divide_amounts {eng : Engine} (a b : option Q) : ratio :=
  match a, b with
  | Some x, Some y =>
      if Qeq_bool y 0 then DivisionByZero else Number (amount_by_amount x y)
  | _, _ => Null
  end.

Definition divide_by_count {eng : Engine} (a : option Q) (b : option Z) : ratio :=
  match a, b with
  | Some x, Some n =>
      if n =? 0 then DivisionByZero else Number (amount_by_count x n)
  | _, _ => Null
  end.

(** [a / b * 100] on two counts *)
Definition divide_counts_times_100 {eng : Engine} (a b : option Z) : ratio :=
  match a, b with
  | Some m, Some n =>
      if n =? 0 then DivisionByZero else Number (percentage m n)
  | _, _ => Null
  end.

(** [if(cond, then, else)]: a NULL condition takes the [else] branch *)
Definition if_ {eng : Engine} (cond : option bool) (then_ else_ : ratio) : ratio :=
  match cond with
  | Some true => then_
  | _ => else_
  end.

(** The three derived columns of the [SELECT] *)
Definition roas_of {eng : Engine} (gac : gac_cells) (wc : wc_cells) : ratio :=
  if_ (positive (g_ad_spend gac))
      (divide_amounts (w_website_revenue wc) (g_ad_spend gac)) (Number zero).

Definition cost_per_conversion_of {eng : Engine} (gac : gac_cells) (wc : wc_cells)
  : ratio :=
  if_ (positive_count (w_conversions wc))
      (divide_by_count (g_ad_spend gac) (w_conversions wc)) (Number zero).

Definition click_to_visit_rate_of {eng : Engine} (gac : gac_cells) (wc : wc_cells)
  : ratio :=
  if_ (positive_count (g_ad_clicks gac))
      (divide_counts_times_100 (w_unique_users wc) (g_ad_clicks gac))
      (Number zero).

(** A row of the result, and the ten columns of a row handed to
    [analytics.attribution_summary] *)
Module Summary.
Record t {eng : Engine} : Type := {
  date : option Z;
  campaign_name : option string;
  ad_clicks : option Z;
  ad_spend : option Q;
  website_users : option Z;
  website_revenue : option Q;
  website_conversions : option Z;
  roas : ratio;
  cost_per_conversion : ratio;
  click_to_visit_rate : ratio
}.
End Summary.

Definition select {eng : Engine} (j : gac_cells * wc_cells) : Summary.t :=
  let (gac, wc) := j in
  {| Summary.date := coalesce (g_date gac) (w_date wc);
     Summary.campaign_name := coalesce (g_campaign_name gac) (w_campaign_name wc);
     Summary.ad_clicks := coalesce (g_ad_clicks gac) (Some 0);
     Summary.ad_spend := coalesce (g_ad_spend gac) (Some (0 : Q));
     Summary.website_users := coalesce (w_unique_users wc) (Some 0);
     Summary.website_revenue := coalesce (w_website_revenue wc) (Some (0 : Q));
     Summary.website_conversions := coalesce (w_conversions wc) (Some 0);
     Summary.roas := roas_of gac wc;
     Summary.cost_per_conversion := cost_per_conversion_of gac wc;
     Summary.click_to_visit_rate := click_to_visit_rate_of gac wc |}.

(** [WHERE gac.ad_spend > 0 OR wc.website_revenue > 0]: a row is kept when
    the condition is true, not when it is false or NULL. *)
Definition where_ (j : gac_cells * wc_cells) : bool :=
  match or3 (positive (g_ad_spend (fst j))) (positive (w_website_revenue (snd j))) with
  | Some true => true
  | _ => false
  end.

(** [ORDER BY date DESC, roas DESC], NULLs last *)
Definition ratio_compare {eng : Engine} (a b : ratio) : comparison :=
  match a, b with
  | Number x, Number y => quotient_compare x y
  | Number _, _ => Gt
  | _, Number _ => Lt
  | _, _ => Eq
  end.

Definition date_compare (a b : option Z) : comparison :=
  match a, b with
  | Some x, Some y => Z.compare x y
  | Some _, None => Gt
  | None, Some _ => Lt
  | None, None => Eq
  end.

Definition precedes {eng : Engine} (a b : Summary.t) : bool :=
  match date_compare (Summary.date a) (Summary.date b) with
  | Gt => true
  | Lt => false
  | Eq =>
      match ratio_compare (Summary.roas a) (Summary.roas b) with
      | Lt => false
      | _ => true
      end
  end.

Fixpoint insert_sorted {eng : Engine} (x : Summary.t) (l : list Summary.t)
  : list Summary.t :=
  match l with
  | [] => [x]
  | y :: rest => if precedes x y then x :: l else y :: insert_sorted x rest
  end.

Definition order_by {eng : Engine} (l : list Summary.t) : list Summary.t :=
  fold_right insert_sorted [] l.

(** [attribution_query], run on the day [today] *)
Definition attribution_query {eng : Engine} (join_use_nulls : bool) (today : Z)
    (google_ads_performance : list performance) (events : list event)
  : list Summary.t :=
  order_by
    (map select
       (filter where_
          (full_outer_join join_use_nulls
             (google_ads_clicks today google_ads_performance)
             (website_conversions today events)))).

(** *** The table [analytics.attribution_summary] *)

(** A row of the table: the ten columns of the insert and [sync_timestamp],
    which the table fills with [now64()]. A cell is kept as it was handed
    over; a NULL ratio is a [None] handed to a column that is not nullable,
    and whether the client refuses it is the client's: a refused insert is
    an insert that raises. *)
Record stored {eng : Engine} : Type := {
  row : Summary.t;
  sync_timestamp : Z
}.

Definition date_eqb (a b : option Z) : bool :=
  match a, b with
  | Some x, Some y => x =? y
  | None, None => true
  | _, _ => false
  end.

Definition name_eqb (a b : option string) : bool :=
  match a, b with
  | Some x, Some y => String.eqb x y
  | None, None => true
  | _, _ => false
  end.

(** [ORDER BY (date, campaign_name)]: the sorting key of the table *)
Definition same_key {eng : Engine} (a b : stored) : bool :=
  date_eqb (Summary.date (row a)) (Summary.date (row b))
  && name_eqb (Summary.campaign_name (row a)) (Summary.campaign_name (row b)).

(** [ENGINE = ReplacingMergeTree(sync_timestamp)]: of the rows with one
    sorting key the engine keeps one, the row with the greatest
    [sync_timestamp], and of several with the greatest the one inserted
    last. It does so when it merges, at a time of its own: until then the
    table holds every row inserted. [merged] is the table once merged, as
    [SELECT ... FINAL] reads it; the rows are in insertion order. *)
Fixpoint merged {eng : Engine} (table : list stored) : list stored :=
  match table with
  | [] => []
  | s :: later =>
      if existsb (fun t => same_key s t && (sync_timestamp s <=? sync_timestamp t))
                 later
      then merged later
      else s :: filter (fun t => negb (same_key s t)) (merged later)
  end.

Inductive logged {eng : Engine} : Type :=
| Info_starting_attribution
| Info_attribution_results
| Info_campaign (r : Summary.t)
| Info_stored_attribution (n : nat)
| Error_storing_attribution (e : string)
| Error_in_attribution (e : string).

Record outcome {eng : Engine} : Type := {
  attribution_summary : list stored;
  log : list logged;
  raised : option string
}.

(** The message of the [TypeError] of [format(None, '.2f')] *)
Definition format_error : string :=
  "unsupported format string passed to NoneType.__format__".

(** The f-string of the logging loop formats [spend], [revenue] and [roas]
    with [.2f]: a number has the format, and a NULL cell, which the client
    returns as [None], has not. *)
Definition formats {eng : Engine} (r : Summary.t) : bool :=
  match Summary.ad_spend r, Summary.website_revenue r, Summary.roas r with
  | Some _, Some _, Number _ => true
  | Some _, Some _, DivisionByZero => true
  | _, _, _ => false
  end.

(** [for row in attribution_results[:10]]: the lines logged, and the
    exception that ends the loop, if any *)
Fixpoint log_rows {eng : Engine} (rows : list Summary.t)
  : list logged * option string :=
  match rows with
  | [] => ([], None)
  | r :: rest =>
      if formats r
      then let (lines, e) := log_rows rest in (Info_campaign r :: lines, e)
      else ([], Some format_error)
  end.

Section WithStorage.
Context {eng : Engine}.

(** The storage collaborator: the query, the [CREATE TABLE IF NOT EXISTS]
    and the insert each run or raise. *)
Variable query_error : option string.
Variable create_error : option string.
Variable insert_error : list Summary.t -> option string.

(** [_store_attribution_results], run at [now]: the table after it, what it
    logs, and the exception it raises again *)
Definition _store_attribution_results (now : Z)
    (attribution_results : list Summary.t) (table : list stored)
  : list stored * list logged * option string :=
  match create_error with
  | Some e => (table, [Error_storing_attribution e], Some e)
  | None =>
      match attribution_results with
      | [] => (table, [], None)
      | _ =>
          match insert_error attribution_results with
          | Some e => (table, [Error_storing_attribution e], Some e)
          | None =>
              ((table
                ++ map (fun r => {| row := r; sync_timestamp := now |})
                       attribution_results)%list,
               [Info_stored_attribution (List.length attribution_results)],
               None)
          end
      end
  end.

(** [sync_attribution_data], run on the day [today] at the instant [now]:
    the query, the log of the first ten rows, the store. An exception of
    any of them is logged and raised again. *)
Definition sync_attribution_data (join_use_nulls : bool) (today now : Z)
    (google_ads_performance : list performance) (events : list event)
    (table : list stored) : outcome :=
  match query_error with
  | Some e =>
      {| attribution_summary := table;
         log := [Info_starting_attribution; Error_in_attribution e];
         raised := Some e |}
  | None =>
      let attribution_results :=
        attribution_query join_use_nulls today google_ads_performance events in
      match log_rows (firstn 10 attribution_results) with
      | (lines, Some e) =>
          {| attribution_summary := table;
             log := ([Info_starting_attribution; Info_attribution_results]
                     ++ lines ++ [Error_in_attribution e])%list;
             raised := Some e |}
      | (lines, None) =>
          match _store_attribution_results now attribution_results table with
          | (table', stored_log, Some e) =>
              {| attribution_summary := table';
                 log := ([Info_starting_attribution; Info_attribution_results]
                         ++ lines ++ stored_log ++ [Error_in_attribution e])%list;
                 raised := Some e |}
          | (table', stored_log, None) =>
              {| attribution_summary := table';
                 log := ([Info_starting_attribution; Info_attribution_results]
                         ++ lines ++ stored_log)%list;
                 raised := None |}
          end
      end
  end.

End WithStorage.

End Attribution.

(** ** The specification's vocabulary

    Definitions that follow the words of the specification, to compare the
    code with. *)

Module Spec.

(** A control character that [clean_string] is to strip: code point below
    32, other than tab, newline and carriage return *)
Definition stripped_control (c : ascii) : bool :=
  (Py.ord c <? 32)
  && negb (Ascii.eqb c (Py.chr 9)) && negb (Ascii.eqb c (Py.chr 10))
  && negb (Ascii.eqb c (Py.chr 13)).

Fixpoint without_controls (s : string) : string :=
  match s with
  | EmptyString => EmptyString
  | String c r =>
      if stripped_control c then without_controls r
      else String c (without_controls r)
  end.

(** The first [n] characters *)
Fixpoint truncated (n : nat) (s : string) : string :=
  match n, s with
  | S n', String c r => String c (truncated n' r)
  | _, _ => EmptyString
  end.

Fixpoint all_chars (p : ascii -> bool) (s : string) : bool :=
  match s with
  | EmptyString => true
  | String c r => p c && all_chars p r
  end.

Definition first_char (s : string) : option ascii :=
  match s with
  | EmptyString => None
  | String c _ => Some c
  end.

Fixpoint last_char (s : string) : option ascii :=
  match s with
  | EmptyString => None
  | String c EmptyString => Some c
  | String _ r => last_char r
  end.

Definition not_space (c : option ascii) : Prop :=
  match c with
  | Some x => Py.isspace x = false
  | None => True
  end.

(** [t] is [s] with its surrounding whitespace trimmed *)
Definition trimmed (s t : string) : Prop :=
  exists lead trail,
    s = lead ++ t ++ trail
    /\ all_chars Py.isspace lead = true
    /\ all_chars Py.isspace trail = true
    /\ not_space (first_char t) /\ not_space (last_char t).

(** [needle] occurs in [s], letter case aside *)
Definition occurs_ignoring_case (needle s : string) : Prop :=
  exists pre mid post, s = pre ++ mid ++ post /\ Py.lower mid = needle.

(** The user agent carries a denylisted automation signature *)
Definition denylisted (user_agent : string) : Prop :=
  exists indicator,
    In indicator DataCleaner.bot_indicators
    /\ occurs_ignoring_case indicator user_agent.

(** A character of a denylisted signature, letter case aside *)
Definition signature_char (c : ascii) : bool :=
  existsb (Py.char_in (Py.lower_char c)) DataCleaner.bot_indicators.

(** An octet in decimal: one to three digits, at most 255 *)
Fixpoint decimal (s : string) (acc : Z) : Z :=
  match s with
  | EmptyString => acc
  | String c r => decimal r (acc * 10 + (Py.ord c - 48))
  end.

Definition is_digit (c : ascii) : bool :=
  (48 <=? Py.ord c) && (Py.ord c <=? 57).

Definition octet (s : string) : bool :=
  (1 <=? String.length s)%nat && (String.length s <=? 3)%nat
  && all_chars is_digit s && (decimal s 0 <=? 255).

(** A dotted quad: exactly four octets separated by dots *)
Definition dotted_quad (ip : string) : Prop :=
  exists a b c d,
    ip = a ++ "." ++ b ++ "." ++ c ++ "." ++ d
    /\ octet a = true /\ octet b = true /\ octet c = true /\ octet d = true.

Section Batch.
Context {rt : Runtime}.

(** The rows of the events of a batch that normalise, in order *)
Fixpoint accepted (events : list EventData.t) : list Row.t :=
  match events with
  | [] => []
  | event :: rest =>
      match ClickHouseManager.clean_and_flag event with
      | Py.Ok row => row :: accepted rest
      | Py.Raise _ => accepted rest
      end
  end.

(** The [(event_id, error)] pairs of the events of a batch whose
    normalisation raises, in order *)
Fixpoint rejections (events : list EventData.t) : list (string * string) :=
  match events with
  | [] => []
  | event :: rest =>
      match ClickHouseManager.clean_and_flag event with
      | Py.Ok _ => rejections rest
      | Py.Raise e => (EventData.event_id event, e) :: rejections rest
      end
  end.

(** The association of an anonymous identifier with a user in the
    profile table *)
(** The associations a profile table holds: per row, the user and the
    visitors of the user *)
Definition associations (profiles : list Profile.t)
  : list (string * list string) :=
  map (fun p => (Profile.user_id p, Profile.anonymous_ids p)) profiles.

Definition associated (profiles : list Profile.t) (user anonymous : string)
  : Prop :=
  exists p, In p profiles /\ Profile.user_id p = user
            /\ In anonymous (Profile.anonymous_ids p).

(** The backfill the specification asks of [identify_user] *)
Definition backfilled (user anonymous : string) (events : list Row.t)
  : list Row.t :=
  map (fun r =>
         if String.eqb (Row.anonymous_id r) anonymous
            && String.eqb (Row.user_id r) ""
         then Row.set_user_id r user else r)
      events.

End Batch.

(** An identifier that reads back as itself between quotes: no quote and
    no backslash *)
Definition plain (s : string) : bool :=
  all_chars (fun c => negb (Ascii.eqb c Sql.quote || Ascii.eqb c Sql.backslash)) s.

End Spec.


(** ** Sample data *)

Definition sample_dirty : string :=
  String "a" (String (Py.chr 0) (String "b" (String (Py.chr 7) (String "c" EmptyString)))).

(** A runtime to run the model on: integers for floats, a digest that refuses
    a text holding a question mark (as [encode] refuses a lone surrogate). *)
Definition sample_runtime : Runtime :=
  {| float := Z;
     float_of_int := fun n => n;
     float_nonzero := fun x => negb (x =? 0);
     float_nonneg := fun x => 0 <=? x;
     round_ndigits := fun x _ => x;
     dict := list (string * string);
     dict_empty := [];
     json_dumps := fun _ => Py.Ok "{}";
     md5_hexdigest := fun s =>
       if Py.contains "?" s
       then Py.Raise "'utf-8' codec can't encode character"
       else Py.Ok "0cc175b9c0f1b6a831c399e269772661" |}.

Definition sample_event (id : string) (time : Z) (agent : string)
  : EventData.t (rt := sample_runtime) :=
  {| EventData.event_id := id; EventData.event_time := time;
     EventData.event_type := "page_view"; EventData.user_id := Some "";
     EventData.anonymous_id := "a1"; EventData.session_id := "s1";
     EventData.visit_id := 1; EventData.device_fingerprint := Some "";
     EventData.user_agent := Some agent;
     EventData.ip_address := Some "10.0.0.1";
     EventData.page_url := Some "https://example.com/";
     EventData.page_title := Some "Home"; EventData.referrer_url := Some "";
     EventData.utm_source := Some ""; EventData.utm_medium := Some "";
     EventData.utm_campaign := Some ""; EventData.utm_content := Some "";
     EventData.utm_term := Some ""; EventData.gclid := Some "";
     EventData.gbraid := Some ""; EventData.wbraid := Some "";
     EventData.revenue := Some (0 : @float sample_runtime); EventData.currency := Some "USD";
     EventData.order_id := Some ""; EventData.product_id := Some "";
     EventData.product_category := Some ""; EventData.quantity := Some 0;
     EventData.custom_properties := Some ([] : @dict sample_runtime);
     EventData.session_start_time := None;
     EventData.session_duration := Some 0;
     EventData.page_views_in_session := Some 1;
     EventData.is_bounce := Some false |}.

Definition sample_row (id anonymous user : string) : Row.t (rt := sample_runtime) :=
  {| Row.event_id := id; Row.event_time := 0; Row.event_type := "page_view";
     Row.user_id := user; Row.anonymous_id := anonymous; Row.session_id := "s1";
     Row.visit_id := 1; Row.device_fingerprint := ""; Row.user_agent := "";
     Row.ip_address := "0.0.0.0"; Row.page_url := ""; Row.page_title := "";
     Row.referrer_url := ""; Row.utm_source := ""; Row.utm_medium := "";
     Row.utm_campaign := ""; Row.utm_content := ""; Row.utm_term := "";
     Row.gclid := ""; Row.gbraid := ""; Row.wbraid := "";
     Row.revenue := (0 : @float sample_runtime);
     Row.currency := "USD"; Row.order_id := ""; Row.product_id := "";
     Row.product_category := ""; Row.quantity := 0;
     Row.custom_properties := "{}"; Row.session_start_time := 0;
     Row.session_duration := 0; Row.page_views_in_session := 1;
     Row.is_bounce := 0; Row.is_valid := 1; Row.validation_errors := "" |}.

Definition sample_identification (user anonymous : string)
  : Identity.UserIdentification (rt := sample_runtime) :=
  {| Identity.user_id := user; Identity.anonymous_id := anonymous;
     Identity.traits := None |}.

(** Two stored events of the visitor [a1]: one unattributed, one of [u9] *)
Definition sample_db : Identity.db (rt := sample_runtime) :=
  {| Identity.user_profiles := [];
     Identity.events := [ sample_row "e1" "a1" ""; sample_row "e2" "a1" "u9" ] |}.

(** A user agent that spells a signature around a NUL character *)
Definition sample_split_bot : string :=
  String "b" (String (Py.chr 0) "ot").

(** An instant, and a batch of three events whose second is dated 30 days
    after it *)
Definition sample_now : Z := 1700000000 * Time.SECOND.

Definition sample_batch : list (EventData.t (rt := sample_runtime)) :=
  [ sample_event "e1" sample_now "Mozilla/5.0 normal browser";
    sample_event "e2" (sample_now + 30 * Time.DAY) "Mozilla/5.0 normal browser";
    sample_event "e3" sample_now "Mozilla/5.0 normal browser" ].

(** A storage collaborator that accepts every write *)
Definition sample_storage : list (Row.t (rt := sample_runtime)) -> option string :=
  fun _ => None.

(** The row stored for an event, when its normalisation does not raise *)
Definition sample_stored (event : EventData.t (rt := sample_runtime))
  : Row.t (rt := sample_runtime) :=
  match ClickHouseManager.clean_and_flag event with
  | Py.Ok row => row
  | Py.Raise _ => sample_row "" "" ""
  end.

Definition sample_crawler : EventData.t (rt := sample_runtime) :=
  sample_event "e7" sample_now "Mozilla/5.0 (compatible; Googlebot/2.1)".

(** An event dated 10 days before [sample_now] *)
Definition sample_stale : EventData.t (rt := sample_runtime) :=
  sample_event "e8" (sample_now - 10 * Time.DAY) "Mozilla/5.0 normal browser".

(** Two unattributed stored events, of the visitors [a'b] and [a\'b] *)
Definition sample_escaped_db : Identity.db (rt := sample_runtime) :=
  {| Identity.user_profiles := [];
     Identity.events := [ sample_row "e1" "a'b" ""; sample_row "e2" "a\'b" "" ] |}.

(** A day, a performance row with spend and no site traffic, and a purchase
    without revenue that came through a Google ad *)
Definition sample_today : Z := 100.

Definition sample_performance : Attribution.performance :=
  {| Attribution.date := 100; Attribution.campaign_name := "spring";
     Attribution.clicks := 10; Attribution.cost := 5 |}.


(** A campaign with clicks that cost nothing, and a purchase of 50 it earned *)
Definition sample_unpaid_performance : Attribution.performance :=
  {| Attribution.date := 100; Attribution.campaign_name := "summer";
     Attribution.clicks := 10; Attribution.cost := 0 |}.

Definition sample_purchase : Attribution.event :=
  {| Attribution.event_time := 100 * Time.DAY + 5;
     Attribution.utm_source := "google"; Attribution.utm_medium := "cpc";
     Attribution.utm_campaign := "summer"; Attribution.user_id := "u1";
     Attribution.revenue := 50; Attribution.event_type := "purchase";
     Attribution.is_valid := 1 |}.

(** An engine whose amounts are decimals of two places: a quotient is cut
    to two places, and a percentage of counts is taken exactly *)
Definition cut2 (q : Q) : Q :=
  (inject_Z (Z.quot (Qnum (q * 100)) (Zpos (Qden (q * 100)))) / 100)%Q.

Definition sample_engine : Engine :=
  {| quotient := Q;
     zero := 0%Q;
     amount_by_amount := fun a b => cut2 (a / b)%Q;
     amount_by_count := fun a n => cut2 (a / inject_Z n)%Q;
     percentage := fun m n => (inject_Z m / inject_Z n * 100)%Q;
     quotient_compare := Qcompare;
     quotient_compare_antisym := fun a b => eq_sym (Qcompare_antisym a b) |}.

Definition sample_zero_spend_row : Attribution.Summary.t (eng := sample_engine) :=
  match Attribution.attribution_query false sample_today
          [sample_unpaid_performance] [sample_purchase] with
  | row :: _ => row
  | [] => Attribution.select (Attribution.gac_absent false, Attribution.wc_absent false)
  end.


(** ** [GoogleAdsSync.run_data_quality_checks] *)

From Stdlib Require Import DecimalString Permutation SpecFloat.
From Stdlib Require PrimFloat FloatOps.

(** [str(n)] for an [int] *)
Definition str_of_int (n : Z) : string := NilZero.string_of_int (Z.to_int n).

Module Quality.

(** The columns of [analytics.google_ads_performance] the checks read *)
Record performance : Type := {
  date : Z;
  campaign_name : string;
  clicks : Z;
  cost : Q;
  avg_cpc : Q
}.

(** A row of [analytics.data_quality_log] *)
Record issue : Type := {
  check_timestamp : Z;
  check_type : string;
  table_name : string;
  issue_type : string;
  issue_count : Z;
  issue_details : string;
  severity : string
}.

Inductive logged : Type :=
| Info_running_checks
| Warning_data_quality_issue (check_name : string) (result : Z)
| Error_running_check (check_name e : string).

(** [SELECT count() ... WHERE <condition>] *)
Definition count (condition : performance -> bool) (table : list performance) : Z :=
  Z.of_nat (List.length (filter condition table)).

(** The list [quality_checks]: the name of each check and its query, run on
    the day [today] *)
Definition quality_checks : list (string * (Z -> list performance -> Z)) :=
  [ ("missing_campaign_names",
     fun today =>
       count (fun r => String.eqb (campaign_name r) "" && (today - 7 <=? date r)));
    ("zero_cost_with_clicks",
     fun today =>
       count (fun r => Qeq_bool (cost r) 0 && (0 <? clicks r)
                       && (today - 7 <=? date r)));
    ("high_cost_per_click",
     fun today =>
       count (fun r => negb (Qle_bool (avg_cpc r) 50) && (today - 7 <=? date r)));
    ("future_dates",
     fun today => count (fun r => today <? date r)) ].

Section WithStorage.

(** The storage collaborator: the query of a check, and the insert of an
    issue, either succeed or raise; and the clock read when a check logs. *)
Variable query_error : string -> option string.
Variable insert_error : issue -> option string.
Variable clock : string -> Z.

(** The issue a check logs for a positive [result] *)
Definition issue_of (check_name : string) (result : Z) : issue :=
  {| check_timestamp := clock check_name;
     check_type := "google_ads_sync";
     table_name := "google_ads_performance";
     issue_type := check_name;
     issue_count := result;
     issue_details :=
       "Found " ++ str_of_int result ++ " records with " ++ check_name;
     severity := if result <? 100 then "medium" else "high" |}.

(** The body of the loop: the [try] and its [except] *)
Definition run_check (today : Z) (table : list performance)
    (check : string * (Z -> list performance -> Z))
    (state : list issue * list logged) : list issue * list logged :=
  let (check_name, query) := check in
  let (data_quality_log, log) := state in
  match query_error check_name with
  | Some e => (data_quality_log, (log ++ [Error_running_check check_name e])%list)
  | None =>
      let result := query today table in
      if 0 <? result then
        match insert_error (issue_of check_name result) with
        | Some e =>
            (data_quality_log, (log ++ [Error_running_check check_name e])%list)
        | None =>
            ((data_quality_log ++ [issue_of check_name result])%list,
             (log ++ [Warning_data_quality_issue check_name result])%list)
        end
      else (data_quality_log, log)
  end.

Fixpoint run_checks (today : Z) (table : list performance)
    (checks : list (string * (Z -> list performance -> Z)))
    (state : list issue * list logged) : list issue * list logged :=
  match checks with
  | [] => state
  | check :: rest => run_checks today table rest (run_check today table check state)
  end.

(** [run_data_quality_checks], on the day [today]: the new state of
    [analytics.data_quality_log] and the log. It never raises. *)
Definition run_data_quality_checks (today : Z) (table : list performance)
    (data_quality_log : list issue) : list issue * list logged :=
  run_checks today table quality_checks (data_quality_log, [Info_running_checks]).

End WithStorage.
End Quality.

(** ** [GoogleAdsSync.setup_connections]: credentials and customer ids *)

Module Setup.

(** [os.getenv(name)] and [os.getenv(name, default)] on an environment *)
Definition getenv (environ : string -> option string) (name : string)
  : option string := environ name.

Definition getenv_default (environ : string -> option string)
    (name default : string) : string :=
  match environ name with
  | Some v => v
  | None => default
  end.

(** Truth of an [Optional[str]] *)
Definition truthy (x : option string) : bool :=
  match x with
  | Some s => negb (Py.is_empty s)
  | None => false
  end.

(** The part of [setup_connections] after the storage connection: the
    credential check and the parsing of [GOOGLE_ADS_CUSTOMER_IDS]. Loading the
    client of the ads platform either succeeds or raises [load_error]. *)
Definition setup_google_ads (environ : string -> option string)
    (load_error : option string) : Py.result (list string) :=
  if negb (forallb truthy
             [ getenv environ "GOOGLE_ADS_DEVELOPER_TOKEN";
               getenv environ "GOOGLE_ADS_CLIENT_ID";
               getenv environ "GOOGLE_ADS_CLIENT_SECRET";
               getenv environ "GOOGLE_ADS_REFRESH_TOKEN" ])
  then Py.Raise "Missing required Google Ads API credentials"
  else
    match load_error with
    | Some e => Py.Raise e
    | None =>
        let customer_ids_str := getenv_default environ "GOOGLE_ADS_CUSTOMER_IDS" "" in
        if negb (Py.is_empty customer_ids_str)
        then Py.Ok (map Py.strip (Py.split ","%char customer_ids_str))
        else Py.Raise "No Google Ads customer IDs provided"
    end.

(** The number of occurrences of a character *)
Fixpoint occurrences (c : ascii) (s : string) : nat :=
  match s with
  | EmptyString => 0%nat
  | String d r => ((if Ascii.eqb d c then 1 else 0) + occurrences c r)%nat
  end.

End Setup.

(** ** Python's [float]

    A [float] is a binary64 value: the Standard Library's [spec_float], with
    its operations at precision 53 and exponent bound 1024. *)

Module PyFloat.

Definition t : Type := spec_float.

Definition prec : Z := 53.
Definition emax : Z := 1024.

Definition zero : t := S754_zero false.

(** The float nearest to an integer, ties to even *)
Definition of_int (n : Z) : t := binary_normalize prec emax n 0 false.

(** [x / y] and [x * y] on floats *)
Definition div (x y : t) : t := SFdiv prec emax x y.
Definition mul (x y : t) : t := SFmul prec emax x y.

(** [bool(x)]: a zero of either sign is false, a NaN is true *)
Definition truthy (x : t) : bool :=
  match x with
  | S754_zero _ => false
  | _ => true
  end.



(** The float nearest to [n / d], ties to even, for [n > 0] and [d > 0]: the
    quotient and its rounding are the ones of the division of floats, taken on
    the two integers. *)
Definition of_ratio (s : bool) (n d : Z) : t :=
  let '(mz, ez, lz) := SFdiv_core_binary prec emax n 0 d 0 in
  binary_round_aux prec emax s mz ez lz.

(** The float nearest to the decimal [n / 10 ^ ndigits], for [n >= 0], with
    the sign [s]: what reading the decimal text gives. *)
Definition of_decimal (s : bool) (n : Z) (ndigits : nat) : t :=
  if n =? 0 then S754_zero s else of_ratio s n (10 ^ Z.of_nat ndigits).



End PyFloat.

(** ** [GoogleAdsSync.sync_campaign_performance], [_fetch_campaign_performance]
    and [_insert_performance_data] *)

Module AdsSync.

(** A value of a performance record *)
Inductive cell : Type :=
| Str (s : string)
| Int (n : Z)
| Float (x : PyFloat.t).

(** A performance record: a [Dict[str, Any]], keys in insertion order *)
Definition record : Type := list (string * cell).

(** [record.get(col, default)] *)
Fixpoint get (r : record) (col : string) (default : cell) : cell :=
  match r with
  | [] => default
  | (k, v) :: rest => if String.eqb k col then v else get rest col default
  end.

Definition columns : list string :=
  [ "date"; "account_id"; "campaign_id"; "campaign_name";
    "ad_group_id"; "ad_group_name"; "keyword_id"; "keyword_text";
    "impressions"; "clicks"; "cost"; "conversions"; "conversion_value";
    "quality_score"; "ctr"; "avg_cpc"; "avg_position"; "sync_timestamp" ].

(** [tuple(record.get(col, '') for col in columns)] *)
Definition row_of (r : record) : list cell :=
  map (fun col => get r col (Str "")) columns.

(** [GoogleAdsSync._clean_string(value, max_length)]; [str(value)] of a
    string is the string itself. *)
Definition _clean_string (value : string) (max_length : Z) : string :=
  if Py.is_empty value then ""
  else
    let cleaned :=
      Py.join_if (fun char => (32 <=? Py.ord char) || Py.char_in char Py.tab_nl_cr)
                 value in
    Py.strip (Py.slice_to max_length cleaned).

(** *** A row of the ads platform, and the record made of it *)

(** A number of the platform: an [int] or a [float] *)
Inductive number : Type :=
| Integer (n : Z)
| Real (x : PyFloat.t).

(** The fields of a result row that the record reads; a metric that is
    missing is [None]. *)
Module GoogleAdsRow.
Record t : Type := {
  segments_date : string;
  customer_id : Z;
  campaign_id : Z;
  campaign_name : string;
  ad_group_id : Z;
  ad_group_name : string;
  criterion_id : Z;
  keyword_text : string;
  impressions : option number;
  clicks : option number;
  cost_micros : option number;
  conversions : option number;
  conversions_value : option number;
  quality_score : option number;
  ctr : option number;
  average_cpc : option number;
  average_position : option number
}.
End GoogleAdsRow.







(** What [_fetch_campaign_performance] ends with for one account; inside its
    [try] it logs an exception before raising it again, and an exception of
    [get_service], before the [try], is raised as it is. *)
Inductive fetched : Type :=
| Fetched (performance_data : list record)
| GoogleAdsException (ex : string)
| OtherException (e : string)
| ServiceException (google_ads : bool) (e : string).



Inductive logged : Type :=
| Info_syncing (start_date end_date : Z)
| Info_fetched (n : nat) (customer_id : string)
| Error_google_ads_exception (ex : string)
| Error_fetching_performance (e : string)
| Error_google_ads_api (customer_id ex : string)
| Error_fetching (customer_id e : string)
| Info_inserted_records (n : nat)
| Info_synced (n : nat)
| Warning_no_performance_data
| Error_inserting (e : string)
| Error_in_sync (e : string).

Section WithCollaborators.

(** The collaborators: the ads platform, asked for one account and a range
    of dates, and the storage, which stores the rows or raises. *)
Variable fetch : string -> Z -> Z -> fetched.
Variable insert_error : list (list cell) -> option string.

(** The [for customer_id in self.customer_ids] loop *)
Fixpoint fetch_loop (start_date end_date : Z) (customer_ids : list string)
    (all_performance_data : list record) (log : list logged)
  : list record * list logged :=
  match customer_ids with
  | [] => (all_performance_data, log)
  | customer_id :: rest =>
      match fetch customer_id start_date end_date with
      | Fetched performance_data =>
          fetch_loop start_date end_date rest
            (all_performance_data ++ performance_data)%list
            (log ++ [Info_fetched (List.length performance_data) customer_id])%list
      | GoogleAdsException ex =>
          fetch_loop start_date end_date rest all_performance_data
            (log ++ [Error_google_ads_exception ex;
                     Error_google_ads_api customer_id ex])%list
      | OtherException e =>
          fetch_loop start_date end_date rest all_performance_data
            (log ++ [Error_fetching_performance e;
                     Error_fetching customer_id e])%list
      | ServiceException google_ads e =>
          fetch_loop start_date end_date rest all_performance_data
            (log ++ [if google_ads then Error_google_ads_api customer_id e
                     else Error_fetching customer_id e])%list
      end
  end.

Record outcome : Type := {
  inserted : list (list (list cell));  (* the bulk inserts stored *)
  log : list logged;
  raised : option string
}.

(** [sync_campaign_performance(days_back)], run at the instant [now] *)
Definition sync_campaign_performance (now : Z) (days_back : Z)
    (customer_ids : list string) : outcome :=
  let end_date := Time.toDate now in
  let start_date := end_date - days_back in
  let '(all_performance_data, log0) :=
    fetch_loop start_date end_date customer_ids []
               [Info_syncing start_date end_date] in
  match all_performance_data with
  | [] =>
      {| inserted := []; log := (log0 ++ [Warning_no_performance_data])%list;
         raised := None |}
  | _ =>
      let rows := map row_of all_performance_data in
      match insert_error rows with
      | Some e =>
          {| inserted := [];
             log := (log0 ++ [Error_inserting e; Error_in_sync e])%list;
             raised := Some e |}
      | None =>
          {| inserted := [rows];
             log := (log0 ++ [Info_inserted_records (List.length rows);
                              Info_synced (List.length all_performance_data)])%list;
             raised := None |}
      end
  end.

(** The records of the accounts whose fetch succeeds, in account order *)
Definition fetched_records (start_date end_date : Z) (customer_ids : list string)
  : list record :=
  flat_map (fun customer_id =>
              match fetch customer_id start_date end_date with
              | Fetched performance_data => performance_data
              | _ => []
              end) customer_ids.

End WithCollaborators.
End AdsSync.

(** ** Further vocabulary *)

Module Spec2.

(** A URL as the validator leaves it: absent, empty, with a scheme, or a path
    from the root *)
Definition normalised_url (v : option string) : Prop :=
  match v with
  | None => True
  | Some s =>
      s = "" \/ Py.startswith s "http://" = true
      \/ Py.startswith s "https://" = true \/ Py.startswith s "/" = true
  end.

(** The entries [entries] written one after the other with [sep] between
    them *)
Fixpoint joined (sep : ascii) (entries : list string) : string :=
  match entries with
  | [] => EmptyString
  | e :: rest =>
      match rest with
      | [] => e
      | _ => e ++ String sep (joined sep rest)
      end
  end.



(** The events the site-side aggregate reads *)
Definition eligible (today : Z) (e : Attribution.event) : bool :=
  (today - 30 <=? Attribution.event_date e)
  && String.eqb (Attribution.utm_source e) "google"
  && String.eqb (Attribution.utm_medium e) "cpc"
  && negb (String.eqb (Attribution.utm_campaign e) "")
  && (Attribution.is_valid e =? 1).

(** The clicks of the rows of one (date, campaign) key *)
Definition share (rows : list Attribution.performance) (k : Attribution.key) : Z :=
  Attribution.sumZ
    (map Attribution.clicks
       (filter (fun r => Attribution.key_eqb k (Attribution.performance_key r)) rows)).

(** [a] is not below [b] in the order of [roas DESC]: a number is not below
    a NULL, and two numbers are as the engine orders them *)
Definition roas_not_below {eng : Engine} (a b : Attribution.ratio) : Prop :=
  match a, b with
  | Attribution.Number x, Attribution.Number y => quotient_compare x y <> Lt
  | Attribution.Number _, _ => True
  | _, Attribution.Number _ => False
  | _, _ => True
  end.

(** [x] may stand before [y] under [ORDER BY date DESC, roas DESC]: the date
    of [x] is the later one, or the dates are the same and the [roas] of [x]
    is not below that of [y] *)
Definition in_order {eng : Engine} (x y : Attribution.Summary.t) : Prop :=
  match Attribution.Summary.date x, Attribution.Summary.date y with
  | Some a, Some b =>
      b < a
      \/ (a = b /\ roas_not_below (Attribution.Summary.roas x)
                                   (Attribution.Summary.roas y))
  | Some _, None => True
  | None, Some _ => False
  | None, None =>
      roas_not_below (Attribution.Summary.roas x) (Attribution.Summary.roas y)
  end.

(** Every two consecutive rows are in order *)
Fixpoint ordered {eng : Engine} (l : list Attribution.Summary.t) : Prop :=
  match l with
  | [] => True
  | x :: rest =>
      match rest with
      | [] => True
      | y :: _ => in_order x y
      end /\ ordered rest
  end.

Section Rows.
Context {rt : Runtime}.

(** A stored row whose text columns are within the lengths of the schema *)
Definition within_caps (r : Row.t) : Prop :=
  (String.length (Row.event_id r) <= 255
   /\ String.length (Row.event_type r) <= 100
   /\ String.length (Row.user_id r) <= 255
   /\ String.length (Row.anonymous_id r) <= 255
   /\ String.length (Row.session_id r) <= 255
   /\ String.length (Row.device_fingerprint r) <= 255
   /\ String.length (Row.user_agent r) <= 1000
   /\ String.length (Row.page_url r) <= 2000
   /\ String.length (Row.page_title r) <= 500
   /\ String.length (Row.referrer_url r) <= 2000
   /\ String.length (Row.utm_source r) <= 255
   /\ String.length (Row.utm_medium r) <= 255
   /\ String.length (Row.utm_campaign r) <= 255
   /\ String.length (Row.utm_content r) <= 255
   /\ String.length (Row.utm_term r) <= 255
   /\ String.length (Row.gclid r) <= 255
   /\ String.length (Row.gbraid r) <= 255
   /\ String.length (Row.wbraid r) <= 255
   /\ String.length (Row.currency r) <= 3
   /\ String.length (Row.order_id r) <= 255
   /\ String.length (Row.product_id r) <= 255
   /\ String.length (Row.product_category r) <= 255)%nat.

End Rows.

(** An issue that a run of some checks adds to [analytics.data_quality_log]:
    the issue of a check whose query succeeds with a positive count and whose
    insert succeeds *)
Definition added_by (query_error : string -> option string)
    (insert_error : Quality.issue -> option string) (clock : string -> Z)
    (today : Z) (table : list Quality.performance)
    (checks : list (string * (Z -> list Quality.performance -> Z)))
    (i : Quality.issue) : Prop :=
  exists name query,
    In (name, query) checks
    /\ i = Quality.issue_of clock name (query today table)
    /\ 0 < query today table
    /\ query_error name = None /\ insert_error i = None.

End Spec2.

(** A runtime whose library calls never raise, and sample data for the
    further properties *)
Definition sample_environ (name : string) : option string :=
  if String.eqb name "GOOGLE_ADS_CUSTOMER_IDS" then Some "123, 456 ,"
  else Some "secret".

Definition sample_quality_table : list Quality.performance :=
  [ {| Quality.date := 100; Quality.campaign_name := "";
       Quality.clicks := 3; Quality.cost := 0; Quality.avg_cpc := 60 |};
    {| Quality.date := 99; Quality.campaign_name := "spring";
       Quality.clicks := 0; Quality.cost := 2; Quality.avg_cpc := 1 |} ].

(** A storage whose query for the missing-names check fails *)
Definition sample_query_error (check_name : string) : option string :=
  if String.eqb check_name "missing_campaign_names"
  then Some "Code: 241. Memory limit exceeded" else None.

(** Performance rows all older than a week on day 100 *)
Definition sample_old_table : list Quality.performance :=
  [ {| Quality.date := 90; Quality.campaign_name := "";
       Quality.clicks := 3; Quality.cost := 0; Quality.avg_cpc := 60 |} ].

(** An ads platform that fails for the account [111] and answers one record
    for every other account *)
Definition sample_fetch (customer_id : string) (start_date end_date : Z)
  : AdsSync.fetched :=
  if String.eqb customer_id "111" then AdsSync.GoogleAdsException "quota"
  else AdsSync.Fetched [[("account_id", AdsSync.Str customer_id)]].

Definition sample_cells : list AdsSync.cell :=
  map (fun n => AdsSync.Int (Z.of_nat n)) (seq 0 18).

(** A record with its keys in another order than the columns, without
    [sync_timestamp] and with a key that is no column *)
Definition sample_record : AdsSync.record :=
  (("note", AdsSync.Str "x")
   :: rev (firstn 17 (combine AdsSync.columns sample_cells)))%list.

(** An event of a visit that came from the campaign [campaign] *)
Definition sample_campaign_event (campaign : string)
  : EventData.t (rt := sample_runtime) :=
  let e := sample_event "e1" sample_now "Mozilla/5.0" in
  {| EventData.event_id := EventData.event_id e;
     EventData.event_time := EventData.event_time e;
     EventData.event_type := EventData.event_type e;
     EventData.user_id := EventData.user_id e;
     EventData.anonymous_id := EventData.anonymous_id e;
     EventData.session_id := EventData.session_id e;
     EventData.visit_id := EventData.visit_id e;
     EventData.device_fingerprint := EventData.device_fingerprint e;
     EventData.user_agent := EventData.user_agent e;
     EventData.ip_address := EventData.ip_address e;
     EventData.page_url := EventData.page_url e;
     EventData.page_title := EventData.page_title e;
     EventData.referrer_url := EventData.referrer_url e;
     EventData.utm_source := EventData.utm_source e;
     EventData.utm_medium := EventData.utm_medium e;
     EventData.utm_campaign := Some campaign;
     EventData.utm_content := EventData.utm_content e;
     EventData.utm_term := EventData.utm_term e;
     EventData.gclid := EventData.gclid e;
     EventData.gbraid := EventData.gbraid e;
     EventData.wbraid := EventData.wbraid e;
     EventData.revenue := EventData.revenue e;
     EventData.currency := EventData.currency e;
     EventData.order_id := EventData.order_id e;
     EventData.product_id := EventData.product_id e;
     EventData.product_category := EventData.product_category e;
     EventData.quantity := EventData.quantity e;
     EventData.custom_properties := EventData.custom_properties e;
     EventData.session_start_time := EventData.session_start_time e;
     EventData.session_duration := EventData.session_duration e;
     EventData.page_views_in_session := EventData.page_views_in_session e;
     EventData.is_bounce := EventData.is_bounce e |}.

(** An address of 307 characters: 300 zeros before [1.2.3.4] *)
Fixpoint zeros (n : nat) : string :=
  match n with
  | O => EmptyString
  | S m => String "0"%char (zeros m)
  end.

Definition sample_long_ip : string := zeros 300 ++ "1.2.3.4".

(** A second campaign known from the site only, and a storage that works *)
Definition sample_winter_purchase : Attribution.event :=
  {| Attribution.event_time := 100 * Time.DAY + 9;
     Attribution.utm_source := "google"; Attribution.utm_medium := "cpc";
     Attribution.utm_campaign := "winter"; Attribution.user_id := "u2";
     Attribution.revenue := 20; Attribution.event_type := "purchase";
     Attribution.is_valid := 1 |}.

Definition sample_sync (join_use_nulls : bool)
    (google_ads_performance : list Attribution.performance)
    (events : list Attribution.event)
  : Attribution.outcome (eng := sample_engine) :=
  Attribution.sync_attribution_data None None (fun _ => None) join_use_nulls
    sample_today sample_now google_ads_performance events [].


(** * Properties *)

(** ** Strings *)

Section StringFacts.

Lemma append_nil_r (s : string) : s ++ "" = s.
Proof. induction s as [|c s IH]; simpl; [reflexivity | now rewrite IH]. Qed.

Lemma append_assoc (a b c : string) : (a ++ b) ++ c = a ++ b ++ c.
Proof. induction a as [|x a IH]; simpl; [reflexivity | now rewrite IH]. Qed.

Lemma length_append (a b : string) :
  String.length (a ++ b) = (String.length a + String.length b)%nat.
Proof. induction a as [|x a IH]; simpl; [reflexivity | now rewrite IH]. Qed.

Lemma all_chars_append (p : ascii -> bool) (a b : string) :
  Spec.all_chars p (a ++ b) = Spec.all_chars p a && Spec.all_chars p b.
Proof.
  induction a as [|x a IH]; simpl; [reflexivity|].
  now rewrite IH, andb_assoc.
Qed.

Lemma lower_append (a b : string) :
  Py.lower (a ++ b) = Py.lower a ++ Py.lower b.
Proof. induction a as [|x a IH]; simpl; [reflexivity | now rewrite IH]. Qed.

Lemma lower_length (s : string) : String.length (Py.lower s) = String.length s.
Proof. induction s as [|x s IH]; simpl; [reflexivity | now rewrite IH]. Qed.

Lemma join_if_append (keep : ascii -> bool) (a b : string) :
  Py.join_if keep (a ++ b) = Py.join_if keep a ++ Py.join_if keep b.
Proof.
  induction a as [|x a IH]; simpl; [reflexivity|].
  destruct (keep x); simpl; now rewrite IH.
Qed.

Lemma join_if_all (keep : ascii -> bool) (s : string) :
  Spec.all_chars keep s = true -> Py.join_if keep s = s.
Proof.
  induction s as [|x s IH]; simpl; [reflexivity|].
  intros H. apply andb_true_iff in H as [Hx Hs].
  rewrite Hx. now rewrite IH.
Qed.

Lemma join_if_length (keep : ascii -> bool) (s : string) :
  (String.length (Py.join_if keep s) <= String.length s)%nat.
Proof.
  induction s as [|x s IH]; simpl; [lia|].
  destruct (keep x); simpl; lia.
Qed.

(** The generator of [clean_string] keeps a character exactly when it is
    not a control character to strip. *)
Lemma keep_iff_not_stripped (c : ascii) :
  ((32 <=? Py.ord c) || Py.char_in c Py.tab_nl_cr)
  = negb (Spec.stripped_control c).
Proof. destruct c as [[] [] [] [] [] [] [] []]; reflexivity. Qed.

Lemma join_if_without_controls (s : string) :
  Py.join_if (fun char => (32 <=? Py.ord char) || Py.char_in char Py.tab_nl_cr) s
  = Spec.without_controls s.
Proof.
  induction s as [|c s IH]; [reflexivity|].
  cbn [Py.join_if Spec.without_controls].
  rewrite keep_iff_not_stripped, IH.
  now destruct (Spec.stripped_control c).
Qed.

Lemma substring_truncated (n : nat) (s : string) :
  substring 0 n s = Spec.truncated n s.
Proof.
  revert s; induction n as [|n IH]; intros [|c s]; simpl; try reflexivity.
  now rewrite IH.
Qed.

Lemma truncated_min (n : nat) (s : string) :
  Spec.truncated (Nat.min n (String.length s)) s = Spec.truncated n s.
Proof.
  revert s; induction n as [|n IH]; intros [|c s]; simpl; try reflexivity.
  now rewrite IH.
Qed.

Lemma truncated_all (n : nat) (s : string) :
  (String.length s <= n)%nat -> Spec.truncated n s = s.
Proof.
  revert s; induction n as [|n IH]; intros [|c s]; simpl; intros H;
    try reflexivity; try lia.
  rewrite IH; [reflexivity | lia].
Qed.

(** A slice with a non-negative stop is a truncation. *)
Lemma slice_to_truncated (stop : Z) (s : string) :
  0 <= stop -> Py.slice_to stop s = Spec.truncated (Z.to_nat stop) s.
Proof.
  intros H. unfold Py.slice_to.
  destruct (Z.ltb_spec stop 0) as [Hneg|_]; [lia|].
  rewrite substring_truncated, Z2Nat.inj_min, Nat2Z.id.
  apply truncated_min.
Qed.

Lemma lstrip_spec (s : string) :
  exists lead,
    s = lead ++ Py.lstrip s
    /\ Spec.all_chars Py.isspace lead = true
    /\ Spec.not_space (Spec.first_char (Py.lstrip s)).
Proof.
  induction s as [|c s (lead & Hs & Hlead & Hfirst)].
  - exists "". now simpl.
  - simpl. destruct (Py.isspace c) eqn:Hc.
    + exists (String c lead). simpl. rewrite Hc, Hlead. now rewrite <- Hs.
    + exists "". now simpl.
Qed.

Lemma rstrip_spec (s : string) :
  exists trail,
    s = Py.rstrip s ++ trail
    /\ Spec.all_chars Py.isspace trail = true
    /\ Spec.not_space (Spec.last_char (Py.rstrip s))
    /\ (Py.rstrip s = "" \/ Spec.first_char (Py.rstrip s) = Spec.first_char s).
Proof.
  induction s as [|c s (trail & Hs & Htrail & Hlast & _)].
  - exists "". simpl. auto.
  - simpl. destruct (Py.rstrip s) as [|d r] eqn:Hr.
    + simpl in Hs. subst trail. destruct (Py.isspace c) eqn:Hc.
      * exists (String c s). simpl. rewrite Hc, Htrail. auto.
      * exists s. simpl. auto.
    + exists trail. simpl in *. rewrite <- Hs. auto.
Qed.

Lemma strip_trimmed (s : string) : Spec.trimmed s (Py.strip s).
Proof.
  unfold Py.strip.
  destruct (lstrip_spec s) as (lead & Hs & Hlead & Hfirst).
  destruct (rstrip_spec (Py.lstrip s)) as (trail & Ht & Htrail & Hlast & Hsame).
  exists lead, trail. repeat split; try assumption.
  - now rewrite <- Ht.
  - destruct Hsame as [-> | ->]; [exact I | assumption].
Qed.

End StringFacts.

(** ** [DataCleaner.clean_string] *)

(** C7. For every string [value] and every length [max_length],
    [clean_string] removes exactly the characters with code point below 32
    other than tab, newline and carriage return, truncates to [max_length]
    characters, and trims the surrounding whitespace; it is a total function.
    In particular [clean_string("a\x00b\x07c", 10) = "abc"]. *)
Theorem clean_string_spec (value : string) (max_length : Z) :
  0 <= max_length ->
  Spec.trimmed
    (Spec.truncated (Z.to_nat max_length) (Spec.without_controls value))
    (DataCleaner.clean_string value max_length)
  /\ DataCleaner.clean_string sample_dirty 10 = "abc".
Proof.
  intros Hlen. split; [|reflexivity].
  unfold DataCleaner.clean_string.
  destruct value as [|c value].
  - simpl. destruct (Z.to_nat max_length); exists "", ""; simpl; auto.
  - cbn [Py.is_empty].
    rewrite join_if_without_controls, slice_to_truncated by assumption.
    apply strip_trimmed.
Qed.

Lemma clean_string_spec_witness :
  Spec.trimmed
    (Spec.truncated (Z.to_nat 10) (Spec.without_controls sample_dirty))
    (DataCleaner.clean_string sample_dirty 10)
  /\ DataCleaner.clean_string sample_dirty 10 = "abc".
Proof. apply (clean_string_spec sample_dirty 10). lia. Defined.

(** ** [DataCleaner.validate_ip_address] *)

Section IpFacts.

Lemma check_parts_range (parts : list string) (ip : string) :
  DataCleaner.check_parts parts ip = ip
  \/ DataCleaner.check_parts parts ip = "0.0.0.0".
Proof.
  induction parts as [|part rest IH]; simpl; [now left|].
  destruct (Py.int part) as [n|]; [|now right].
  destruct (negb ((0 <=? n) && (n <=? 255))); [now right | exact IH].
Qed.

(** The result is the input or ["0.0.0.0"]: no input makes the function
    raise, and no other address is ever produced. *)
Lemma validate_ip_address_range (ip : string) :
  DataCleaner.validate_ip_address ip = ip
  \/ DataCleaner.validate_ip_address ip = "0.0.0.0".
Proof.
  unfold DataCleaner.validate_ip_address.
  destruct (Py.is_empty ip || String.eqb ip "0.0.0.0"); [now right|].
  destruct (negb (Nat.eqb (List.length (Py.split "." ip)) 4)); [now right|].
  apply check_parts_range.
Qed.

Lemma digit_not_space (c : ascii) :
  Spec.is_digit c = true -> Py.isspace c = false.
Proof. destruct c as [[] [] [] [] [] [] [] []]; simpl; intros H; try discriminate; reflexivity. Qed.

Lemma digit_not_int_space (c : ascii) :
  Spec.is_digit c = true -> Py.int_space c = false.
Proof. destruct c as [[] [] [] [] [] [] [] []]; simpl; intros H; try discriminate; reflexivity. Qed.

Lemma digit_not_dot (c : ascii) :
  Spec.is_digit c = true -> Ascii.eqb c "."%char = false.
Proof. destruct c as [[] [] [] [] [] [] [] []]; simpl; intros H; try discriminate; reflexivity. Qed.

Lemma digit_value_digit (c : ascii) :
  Spec.is_digit c = true -> Py.digit_value c = Some (Py.ord c - 48).
Proof. unfold Spec.is_digit, Py.digit_value. now intros ->. Qed.

Lemma int_signed_digit (c : ascii) (r : string) :
  Spec.is_digit c = true ->
  Py.int_signed (String c r) = Py.int_unsigned (String c r).
Proof. destruct c as [[] [] [] [] [] [] [] []]; simpl; intros H; try discriminate; reflexivity. Qed.

Lemma rstrip_no_space (s : string) :
  Spec.all_chars (fun c => negb (Py.isspace c)) s = true -> Py.rstrip s = s.
Proof.
  induction s as [|c s IH]; simpl; [reflexivity|].
  intros H. apply andb_true_iff in H as [Hc Hs].
  rewrite (IH Hs). apply negb_true_iff in Hc. rewrite Hc.
  now destruct s.
Qed.

Lemma all_chars_impl (p q : ascii -> bool) (s : string) :
  (forall c, p c = true -> q c = true) ->
  Spec.all_chars p s = true -> Spec.all_chars q s = true.
Proof.
  intros Hpq. induction s as [|c s IH]; simpl; [reflexivity|].
  intros H. apply andb_true_iff in H as [Hc Hs].
  now rewrite (Hpq _ Hc), (IH Hs).
Qed.

Lemma strip_digits (s : string) :
  Spec.all_chars Spec.is_digit s = true -> Py.strip s = s.
Proof.
  intros H. unfold Py.strip.
  assert (Hl : Py.lstrip s = s).
  { destruct s as [|c s]; [reflexivity|]. simpl in *.
    apply andb_true_iff in H as [Hc _]. now rewrite (digit_not_space _ Hc). }
  rewrite Hl. apply rstrip_no_space.
  apply all_chars_impl with (p := Spec.is_digit); [|assumption].
  intros c Hc. now rewrite (digit_not_space _ Hc).
Qed.

Lemma int_rstrip_no_space (s : string) :
  Spec.all_chars (fun c => negb (Py.int_space c)) s = true -> Py.int_rstrip s = s.
Proof.
  induction s as [|c s IH]; simpl; [reflexivity|].
  intros H. apply andb_true_iff in H as [Hc Hs].
  rewrite (IH Hs). apply negb_true_iff in Hc. rewrite Hc.
  now destruct s.
Qed.

Lemma int_strip_digits (s : string) :
  Spec.all_chars Spec.is_digit s = true -> Py.int_rstrip (Py.int_lstrip s) = s.
Proof.
  intros H.
  assert (Hl : Py.int_lstrip s = s).
  { destruct s as [|c s]; [reflexivity|]. simpl in *.
    apply andb_true_iff in H as [Hc _]. now rewrite (digit_not_int_space _ Hc). }
  rewrite Hl. apply int_rstrip_no_space.
  apply all_chars_impl with (p := Spec.is_digit); [|assumption].
  intros c Hc. now rewrite (digit_not_int_space _ Hc).
Qed.

Lemma int_digits_all_digits (s : string) (acc : Z) (count : nat) :
  Spec.all_chars Spec.is_digit s = true ->
  Py.int_digits s acc count false
  = Some (Spec.decimal s acc, (count + String.length s)%nat).
Proof.
  revert acc count. induction s as [|c s IH]; intros acc count H; simpl.
  - now rewrite Nat.add_0_r.
  - simpl in H. apply andb_true_iff in H as [Hc Hs].
    rewrite (digit_value_digit _ Hc), (IH _ _ Hs).
    now rewrite Nat.add_succ_r.
Qed.

Lemma decimal_lower_bound (s : string) (acc : Z) :
  Spec.all_chars Spec.is_digit s = true -> 0 <= acc -> 0 <= Spec.decimal s acc.
Proof.
  revert acc. induction s as [|c s IH]; intros acc H Hacc; simpl; [assumption|].
  simpl in H. apply andb_true_iff in H as [Hc Hs].
  apply IH; [assumption|].
  unfold Spec.is_digit in Hc. apply andb_true_iff in Hc as [Hlo _].
  apply Z.leb_le in Hlo. lia.
Qed.

(** [int] reads an octet as its decimal value. *)
Lemma int_octet (s : string) :
  Spec.octet s = true ->
  Py.int s = Some (Spec.decimal s 0) /\ 0 <= Spec.decimal s 0 <= 255.
Proof.
  unfold Spec.octet. intros H.
  apply andb_true_iff in H as [H Hmax].
  apply andb_true_iff in H as [H Hdigits].
  apply andb_true_iff in H as [Hlo Hhi].
  apply Nat.leb_le in Hlo, Hhi. apply Z.leb_le in Hmax.
  split; [|split; [now apply decimal_lower_bound | assumption]].
  unfold Py.int. rewrite (int_strip_digits _ Hdigits).
  destruct s as [|c r]; [simpl in Hlo; lia|].
  assert (Hc : Spec.is_digit c = true).
  { simpl in Hdigits. now apply andb_true_iff in Hdigits as [Hc _]. }
  rewrite (int_signed_digit _ _ Hc).
  unfold Py.int_unsigned. rewrite (digit_value_digit _ Hc).
  rewrite (int_digits_all_digits _ _ _ Hdigits).
  replace (Py.int_max_str_digits <? 0 + String.length (String c r))%nat
    with false; [reflexivity|].
  symmetry. apply Nat.ltb_ge. unfold Py.int_max_str_digits. lia.
Qed.

Lemma split_no_sep (sep : ascii) (s : string) :
  Spec.all_chars (fun c => negb (Ascii.eqb c sep)) s = true ->
  Py.split sep s = [s].
Proof.
  induction s as [|c s IH]; simpl; [reflexivity|].
  intros H. apply andb_true_iff in H as [Hc Hs].
  apply negb_true_iff in Hc. now rewrite Hc, (IH Hs).
Qed.

Lemma split_at_sep (sep : ascii) (a rest : string) :
  Spec.all_chars (fun c => negb (Ascii.eqb c sep)) a = true ->
  Py.split sep (a ++ String sep rest) = a :: Py.split sep rest.
Proof.
  induction a as [|c a IH]; simpl.
  - intros _. now rewrite Ascii.eqb_refl.
  - intros H. apply andb_true_iff in H as [Hc Ha].
    apply negb_true_iff in Hc. now rewrite Hc, (IH Ha).
Qed.

Lemma octet_no_dot (s : string) :
  Spec.octet s = true ->
  Spec.all_chars (fun c => negb (Ascii.eqb c "."%char)) s = true.
Proof.
  unfold Spec.octet. intros H.
  apply andb_true_iff in H as [H _]. apply andb_true_iff in H as [_ Hdigits].
  apply all_chars_impl with (p := Spec.is_digit); [|assumption].
  intros c Hc. now rewrite (digit_not_dot _ Hc).
Qed.

Lemma octet_first_digit (c : ascii) (s : string) :
  Spec.octet (String c s) = true -> Spec.is_digit c = true.
Proof.
  unfold Spec.octet. intros H.
  apply andb_true_iff in H as [H _]. apply andb_true_iff in H as [_ Hdigits].
  simpl in Hdigits. now apply andb_true_iff in Hdigits as [Hc _].
Qed.

(** Every dotted quad is returned unchanged. *)
Lemma validate_ip_address_dotted_quad (ip : string) :
  Spec.dotted_quad ip -> DataCleaner.validate_ip_address ip = ip.
Proof.
  intros (a & b & c & d & -> & Ha & Hb & Hc & Hd).
  unfold DataCleaner.validate_ip_address.
  set (ip := a ++ "." ++ b ++ "." ++ c ++ "." ++ d).
  destruct (Py.is_empty ip || String.eqb ip "0.0.0.0") eqn:Hguard.
  - apply orb_true_iff in Hguard as [Hempty | Hzero].
    + destruct a; [discriminate Ha | discriminate Hempty].
    + symmetry. now apply String.eqb_eq.
  - assert (Hsplit : Py.split "." ip = [a; b; c; d]).
    { unfold ip. simpl.
      rewrite !split_at_sep by now apply octet_no_dot.
      now rewrite split_no_sep by now apply octet_no_dot. }
    rewrite Hsplit. cbn [List.length Nat.eqb negb DataCleaner.check_parts].
    destruct (int_octet _ Ha) as (-> & Ha1 & Ha2).
    destruct (int_octet _ Hb) as (-> & Hb1 & Hb2).
    destruct (int_octet _ Hc) as (-> & Hc1 & Hc2).
    destruct (int_octet _ Hd) as (-> & Hd1 & Hd2).
    repeat match goal with
           | |- context [?x <=? ?y] =>
               let H := fresh in
               assert (H : (x <=? y) = true) by (apply Z.leb_le; lia);
               rewrite H; clear H
           end.
    reflexivity.
Qed.

End IpFacts.

(** C6. The specification has [validate_ip] return ["0.0.0.0"] for every input
    that is not a dotted quad. The code reads each part with [int], which also
    takes a sign, surrounding whitespace and underscores: ["+1.2.3.4"] is not
    a dotted quad, and is returned unchanged. *)
Theorem validate_ip_address_accepts_signed_part :
  ~ Spec.dotted_quad "+1.2.3.4"
  /\ DataCleaner.validate_ip_address "+1.2.3.4" = "+1.2.3.4"
  /\ DataCleaner.validate_ip_address "+1.2.3.4" <> "0.0.0.0".
Proof.
  split; [|split].
  - intros (a & b & c & d & Heq & Ha & _).
    destruct a as [|x a]; [discriminate Ha|].
    simpl in Heq. injection Heq as Hx _. subst x.
    apply octet_first_digit in Ha. discriminate Ha.
  - vm_compute. reflexivity.
  - vm_compute. discriminate.
Qed.

(** ** [DataCleaner.detect_bot_traffic] *)

Section BotFacts.

Lemma prefix_spec (n h : string) :
  prefix n h = true <-> exists q, h = n ++ q.
Proof.
  revert h. induction n as [|a n IH]; intros h.
  - destruct h; simpl; split; intros; eauto.
  - destruct h as [|b h]; simpl.
    + split; [discriminate | intros (q & Hq); discriminate Hq].
    + destruct (ascii_dec a b) as [->|Hab].
      * rewrite IH. split; intros (q & Hq); exists q.
        -- now rewrite Hq.
        -- now injection Hq.
      * split; [discriminate|].
        intros (q & Hq). injection Hq as Hb _. now subst.
Qed.

Lemma contains_spec (n h : string) :
  Py.contains n h = true <-> exists p q, h = p ++ n ++ q.
Proof.
  induction h as [|c h IH].
  - cbn [Py.contains]. rewrite orb_false_r, prefix_spec. split.
    + intros (q & Hq). now exists "", q.
    + intros (p & q & Hpq). destruct p as [|x p]; [|discriminate Hpq].
      now exists q.
  - cbn [Py.contains]. rewrite orb_true_iff, IH, prefix_spec. split.
    + intros [(q & Hq) | (p & q & Hpq)].
      * now exists "", q.
      * exists (String c p), q. simpl. now rewrite Hpq.
    + intros (p & q & Hpq). destruct p as [|x p].
      * left. now exists q.
      * right. exists p, q. simpl in Hpq. now injection Hpq.
Qed.

Lemma lower_split (s a b : string) :
  Py.lower s = a ++ b ->
  exists s1 s2, s = s1 ++ s2 /\ Py.lower s1 = a /\ Py.lower s2 = b.
Proof.
  revert s. induction a as [|x a IH]; intros s H.
  - exists "", s. auto.
  - destruct s as [|c s]; [discriminate H|].
    simpl in H. injection H as Hx Hrest.
    destruct (IH _ Hrest) as (s1 & s2 & -> & H1 & H2).
    exists (String c s1), s2. simpl. now rewrite Hx, H1.
Qed.

Lemma indicator_not_empty (indicator : string) :
  In indicator DataCleaner.bot_indicators -> indicator <> "".
Proof.
  simpl. intros H.
  repeat (destruct H as [<- | H]; [discriminate|]). contradiction.
Qed.

Lemma lower_not_empty (s : string) : Py.lower s <> "" -> s <> "".
Proof. now destruct s. Qed.

(** The detector answers [true] exactly on the user agents that carry a
    denylisted signature, letter case aside. *)
Lemma detect_bot_traffic_spec (user_agent : string) :
  DataCleaner.detect_bot_traffic user_agent = true <-> Spec.denylisted user_agent.
Proof.
  unfold DataCleaner.detect_bot_traffic, Spec.denylisted, Spec.occurs_ignoring_case.
  split.
  - destruct (Py.is_empty user_agent); [discriminate|].
    intros H. apply existsb_exists in H as (indicator & Hin & Hc).
    apply contains_spec in Hc as (p & q & Hpq).
    apply lower_split in Hpq as (pre & rest & -> & Hpre & Hrest).
    apply lower_split in Hrest as (mid & post & -> & Hmid & Hpost).
    exists indicator. split; [assumption|]. now exists pre, mid, post.
  - intros (indicator & Hin & pre & mid & post & -> & Hmid).
    assert (Hne : mid <> "").
    { apply lower_not_empty. rewrite Hmid. now apply indicator_not_empty. }
    replace (Py.is_empty (pre ++ mid ++ post)) with false
      by (destruct pre; [destruct mid; [contradiction | reflexivity] | reflexivity]).
    apply existsb_exists. exists indicator. split; [assumption|].
    apply contains_spec. exists (Py.lower pre), (Py.lower post).
    now rewrite !lower_append, Hmid.
Qed.

Lemma signature_char_survives (c : ascii) :
  Spec.signature_char c = true ->
  ((32 <=? Py.ord c) || Py.char_in c Py.tab_nl_cr) = true
  /\ negb (Py.isspace c) = true.
Proof.
  destruct c as [[] [] [] [] [] [] [] []]; vm_compute; intros H;
    try discriminate H; split; reflexivity.
Qed.

Lemma char_in_middle (x : ascii) (pre post : string) :
  Py.char_in x (pre ++ String x post) = true.
Proof.
  induction pre as [|c pre IH]; simpl.
  - now rewrite Ascii.eqb_refl.
  - rewrite IH. apply orb_true_r.
Qed.

Lemma chars_in_own_lower (pre s post : string) :
  Spec.all_chars (fun c => Py.char_in (Py.lower_char c) (pre ++ Py.lower s ++ post)) s
  = true.
Proof.
  revert pre. induction s as [|c s IH]; intros pre; [reflexivity|].
  cbn [Spec.all_chars Py.lower]. simpl append at 2.
  rewrite char_in_middle. simpl.
  replace (pre ++ String (Py.lower_char c) (Py.lower s ++ post))
    with ((pre ++ String (Py.lower_char c) "") ++ Py.lower s ++ post)
    by now rewrite append_assoc.
  apply IH.
Qed.

Lemma signature_chars (indicator mid : string) :
  In indicator DataCleaner.bot_indicators ->
  Py.lower mid = indicator ->
  Spec.all_chars Spec.signature_char mid = true.
Proof.
  intros Hin Hmid.
  apply all_chars_impl
    with (p := fun c => Py.char_in (Py.lower_char c) indicator).
  - intros c Hc. apply existsb_exists. now exists indicator.
  - pose proof (chars_in_own_lower "" mid "") as H.
    simpl in H. now rewrite append_nil_r, Hmid in H.
Qed.

Lemma lstrip_keeps (a m b : string) :
  Spec.not_space (Spec.first_char m) -> m <> "" ->
  exists a', Py.lstrip (a ++ m ++ b) = a' ++ m ++ b.
Proof.
  intros Hfirst Hne. induction a as [|x a (a' & IH)].
  - exists "". destruct m as [|c m]; [contradiction|].
    simpl in *. now rewrite Hfirst.
  - simpl. destruct (Py.isspace x).
    + now exists a'.
    + now exists (String x a).
Qed.

Lemma rstrip_keeps_prefix (m b : string) :
  Spec.all_chars (fun c => negb (Py.isspace c)) m = true ->
  exists b', Py.rstrip (m ++ b) = m ++ b'.
Proof.
  induction m as [|c m IH]; intros H.
  - now exists (Py.rstrip b).
  - simpl in H. apply andb_true_iff in H as [Hc Hm].
    destruct (IH Hm) as (b' & Hb'). exists b'.
    simpl. rewrite Hb'. apply negb_true_iff in Hc. rewrite Hc.
    now destruct (m ++ b').
Qed.

Lemma rstrip_after (a x : string) :
  Py.rstrip x <> "" -> Py.rstrip (a ++ x) = a ++ Py.rstrip x.
Proof.
  intros Hne. induction a as [|c a IH]; [reflexivity|].
  simpl. rewrite IH. destruct (a ++ Py.rstrip x) eqn:E; [|reflexivity].
  destruct a; simpl in E; [contradiction | discriminate E].
Qed.

(** Trimming leaves a non-empty run of non-space characters in place. *)
Lemma strip_keeps (a m b : string) :
  Spec.all_chars (fun c => negb (Py.isspace c)) m = true -> m <> "" ->
  exists a' b', Py.strip (a ++ m ++ b) = a' ++ m ++ b'.
Proof.
  intros Hm Hne. unfold Py.strip.
  destruct (lstrip_keeps a m b) as (a' & ->); [|assumption|].
  { destruct m as [|c m]; [contradiction|]. simpl in *.
    apply andb_true_iff in Hm as [Hc _]. now apply negb_true_iff. }
  destruct (rstrip_keeps_prefix m b Hm) as (b' & Hb').
  exists a', b'. rewrite rstrip_after; rewrite Hb'; [reflexivity|].
  destruct m; [contradiction | discriminate].
Qed.

(** Cleaning a user agent of at most 1000 characters keeps every
    signature it carries. *)
Lemma clean_string_keeps_signature (user_agent : string) :
  (String.length user_agent <= 1000)%nat ->
  Spec.denylisted user_agent ->
  Spec.denylisted (DataCleaner.clean_string user_agent 1000).
Proof.
  intros Hlen (indicator & Hin & pre & mid & post & -> & Hmid).
  pose proof (signature_chars _ _ Hin Hmid) as Hsig.
  assert (Hne : mid <> "").
  { apply lower_not_empty. rewrite Hmid. now apply indicator_not_empty. }
  unfold DataCleaner.clean_string.
  replace (Py.is_empty (pre ++ mid ++ post)) with false
    by (destruct pre; [destruct mid; [contradiction | reflexivity] | reflexivity]).
  set (keep := fun char => (32 <=? Py.ord char) || Py.char_in char Py.tab_nl_cr).
  rewrite !join_if_append.
  rewrite (join_if_all keep mid).
  2:{ apply all_chars_impl with (p := Spec.signature_char); [|assumption].
      intros c Hc. now apply signature_char_survives. }
  rewrite slice_to_truncated by lia.
  rewrite truncated_all.
  2:{ change (Z.to_nat 1000) with 1000%nat.
      rewrite !length_append in *.
      pose proof (join_if_length keep pre). pose proof (join_if_length keep post).
      lia. }
  destruct (strip_keeps (Py.join_if keep pre) mid (Py.join_if keep post))
    as (a' & b' & ->); [|assumption|].
  { apply all_chars_impl with (p := Spec.signature_char); [|assumption].
    intros c Hc. now apply signature_char_survives. }
  exists indicator. split; [assumption|]. now exists a', mid, b'.
Qed.

End BotFacts.

(** ** Normalisation and insertion of events *)

Section EventFacts.
Context {rt : Runtime}.
Variable insert_error : list Row.t -> option string.

(** What [_clean_event] writes in the columns the validation reads *)
Lemma clean_event_columns (event : EventData.t) (r : Row.t) :
  ClickHouseManager._clean_event event = Py.Ok r ->
  Row.user_agent r
  = DataCleaner.clean_string (or_str (EventData.user_agent event) "") 1000
  /\ Row.is_valid r = 1 /\ Row.validation_errors r = "".
Proof.
  unfold ClickHouseManager._clean_event.
  destruct (if Py.is_empty (or_str (EventData.device_fingerprint event) "")
            then _ else _) as [fp|]; [|discriminate].
  destruct (json_dumps _) as [cp|]; [|discriminate].
  intros H. injection H as <-. auto.
Qed.

Lemma clean_and_flag_inv (event : EventData.t) (row : Row.t) :
  ClickHouseManager.clean_and_flag event = Py.Ok row ->
  exists r,
    ClickHouseManager._clean_event event = Py.Ok r
    /\ row = if DataCleaner.detect_bot_traffic (Row.user_agent r)
             then Row.set_validation r 0 "bot_traffic" else r.
Proof.
  unfold ClickHouseManager.clean_and_flag.
  destruct (ClickHouseManager._clean_event event) as [r|]; [|discriminate].
  intros H. exists r. split; [reflexivity|].
  destruct (DataCleaner.detect_bot_traffic (Row.user_agent r));
    now injection H as <-.
Qed.

(** The flag of a stored row is decided by the detector on the cleaned
    user agent, and by nothing else. *)
Lemma clean_and_flag_validation (event : EventData.t) (row : Row.t) :
  ClickHouseManager.clean_and_flag event = Py.Ok row ->
  Row.user_agent row
  = DataCleaner.clean_string (or_str (EventData.user_agent event) "") 1000
  /\ (DataCleaner.detect_bot_traffic (Row.user_agent row) = true ->
      Row.is_valid row = 0 /\ Row.validation_errors row = "bot_traffic")
  /\ (DataCleaner.detect_bot_traffic (Row.user_agent row) = false ->
      Row.is_valid row = 1 /\ Row.validation_errors row = "").
Proof.
  intros H. destruct (clean_and_flag_inv _ _ H) as (r & Hr & ->).
  destruct (clean_event_columns _ _ Hr) as (Hua & Hvalid & Herr).
  destruct (DataCleaner.detect_bot_traffic (Row.user_agent r)) eqn:Hbot;
    cbn [Row.set_validation Row.user_agent Row.is_valid Row.validation_errors];
    rewrite ?Hbot; repeat split; auto; discriminate.
Qed.

Lemma replace_235959_not_before (now : Z) : now <= Time.replace_235959 now.
Proof.
  unfold Time.replace_235959, Time.DAY, Time.SECOND.
  Z.div_mod_to_equations. lia.
Qed.

(** The time validator accepts every instant already past; it logs a
    warning when the whole days elapsed exceed 7. *)
Lemma validate_event_time_past (now v : Z) :
  v <= now ->
  EventData.validate_event_time now v
  = (Py.Ok v,
     if 7 <? Time.days_between now v then [Warning_event_time_old v] else []).
Proof.
  intros Hpast. unfold EventData.validate_event_time.
  pose proof (replace_235959_not_before now).
  destruct (Z.ltb_spec (Time.replace_235959 now) v) as [Hfuture|_].
  - lia.
  - now destruct (7 <? Time.days_between now v).
Qed.

Lemma days_between_over_7 (now v : Z) :
  7 * Time.DAY < now - v -> v <= now.
Proof. unfold Time.DAY, Time.SECOND. lia. Qed.

(** The loop of [insert_events] partitions the batch, in order. *)
Lemma clean_loop_partition (events : list EventData.t)
    (cleaned : list Row.t) (errors : list (string * string))
    (logged : list log_record) :
  exists logged',
    ClickHouseManager.clean_loop events cleaned errors logged
    = ((cleaned ++ Spec.accepted events)%list,
       (errors ++ Spec.rejections events)%list, logged').
Proof.
  revert cleaned errors logged.
  induction events as [|event rest IH]; intros cleaned errors logged; simpl.
  - exists logged. now rewrite !app_nil_r.
  - destruct (ClickHouseManager.clean_and_flag event) as [row|e].
    + destruct (IH (cleaned ++ [row])%list errors logged) as (logged' & ->).
      exists logged'. now rewrite <- app_assoc.
    + destruct (IH cleaned (errors ++ [(EventData.event_id event, e)])%list
                  (logged ++ [Error_cleaning_event (EventData.event_id event) e])%list)
        as (logged' & ->).
      exists logged'. now rewrite <- app_assoc.
Qed.

Lemma accepted_rejections_length (events : list EventData.t) :
  (List.length (Spec.accepted events) + List.length (Spec.rejections events)
   = List.length events)%nat.
Proof.
  induction events as [|event rest IH]; simpl; [reflexivity|].
  destruct (ClickHouseManager.clean_and_flag event); simpl; lia.
Qed.

(** [insert_events] reports every event that failed to normalise, and
    sends all the others in one bulk write. *)
Lemma insert_events_outcome (events : list EventData.t) :
  let o := ClickHouseManager.insert_events insert_error events in
  ClickHouseManager.rejected o = Spec.rejections events
  /\ (ClickHouseManager.raised o = None ->
      ClickHouseManager.stored o
      = match Spec.accepted events with [] => [] | rows => [rows] end)
  /\ (ClickHouseManager.raised o <> None -> ClickHouseManager.stored o = []).
Proof.
  unfold ClickHouseManager.insert_events.
  destruct events as [|event rest]; [simpl; auto|].
  destruct (clean_loop_partition (event :: rest) [] [] []) as (logged' & ->).
  cbn [app].
  destruct (Spec.accepted (event :: rest)) as [|row rows]; [simpl; auto|].
  destruct (insert_error (row :: rows)); simpl; repeat split; auto; congruence.
Qed.

(** A batch holding one event dated after the end of the current day is
    refused when it is parsed. *)
Lemma construct_future (now : Z) (raw : EventData.t) :
  Time.replace_235959 now < EventData.event_time raw ->
  exists detail, fst (EventData.construct now raw) = Py.Raise detail.
Proof.
  intros Hfuture. unfold EventData.construct, EventData.validate_event_time.
  apply Z.ltb_lt in Hfuture. rewrite Hfuture. cbn [fst].
  destruct (negb (EventData.field_constraints raw)); eauto.
Qed.

Lemma construct_items_future (now : Z) (body : list EventData.t) :
  (exists raw, In raw body
               /\ Time.replace_235959 now < EventData.event_time raw) ->
  exists detail, fst (EventBatch.construct_items now body) = Py.Raise detail.
Proof.
  intros (raw & Hin & Hfuture).
  induction body as [|first rest IH]; [contradiction|].
  cbn [EventBatch.construct_items].
  destruct (EventData.construct now first) as [item logged1] eqn:Hfirst.
  destruct (EventBatch.construct_items now rest) as [items logged2].
  cbn [fst] in *.
  destruct Hin as [-> | Hin].
  - destruct (construct_future now raw Hfuture) as (detail & Hd).
    rewrite Hfirst in Hd. cbn [fst] in Hd. subst item. eauto.
  - destruct (IH Hin) as (detail & ->). destruct item; eauto.
Qed.

Lemma collect_events_future (now : Z) (body : list EventData.t) :
  (exists raw, In raw body
               /\ Time.replace_235959 now < EventData.event_time raw) ->
  exists detail,
    ClickHouseManager.collect_events insert_error now body
    = (ClickHouseManager.Unprocessable detail, None).
Proof.
  intros H. destruct (construct_items_future now body H) as (detail & Hd).
  unfold ClickHouseManager.collect_events, EventBatch.construct.
  destruct (EventBatch.construct_items now body) as [items logged].
  cbn [fst] in *. subst items.
  destruct ((1 <=? List.length body)%nat && (List.length body <=? 1000)%nat);
    eauto.
Qed.

(** Cleaning raises only when the digest or the serialisation does: the
    time of the event plays no part. *)
Lemma clean_and_flag_succeeds (event : EventData.t) :
  (forall s, exists digest, md5_hexdigest s = Py.Ok digest) ->
  (forall d, exists text, json_dumps d = Py.Ok text) ->
  exists row, ClickHouseManager.clean_and_flag event = Py.Ok row.
Proof.
  intros Hmd5 Hjson.
  unfold ClickHouseManager.clean_and_flag, ClickHouseManager._clean_event.
  assert (Hfp : exists fp,
    (if Py.is_empty (or_str (EventData.device_fingerprint event) "")
     then DataCleaner.generate_device_fingerprint
            (or_str (EventData.user_agent event) "")
            (or_str (EventData.ip_address event) "")
     else Py.Ok (or_str (EventData.device_fingerprint event) "")) = Py.Ok fp).
  { destruct (Py.is_empty (or_str (EventData.device_fingerprint event) ""));
      [|eauto].
    unfold DataCleaner.generate_device_fingerprint.
    destruct (Py.is_empty _ && Py.is_empty _); [eauto | apply Hmd5]. }
  destruct Hfp as (fp & ->).
  destruct (Hjson (match EventData.custom_properties event with
                   | Some d => d | None => dict_empty end)) as (text & ->).
  match goal with
  | |- context [DataCleaner.detect_bot_traffic ?ua] =>
      destruct (DataCleaner.detect_bot_traffic ua)
  end; eauto.
Qed.

End EventFacts.

(** ** The stored rows *)

Section StoredRows.
Context {rt : Runtime}.
Variable insert_error : list Row.t -> option string.

Lemma accepted_in (events : list EventData.t) (row : Row.t) :
  In row (Spec.accepted events) ->
  exists event, In event events
                /\ ClickHouseManager.clean_and_flag event = Py.Ok row.
Proof.
  induction events as [|event rest IH]; simpl; [contradiction|].
  destruct (ClickHouseManager.clean_and_flag event) as [r|e] eqn:Hevent.
  - intros [<- | Hin]; [eauto|]. destruct (IH Hin) as (ev & Hev & Hrow). eauto.
  - intros Hin. destruct (IH Hin) as (ev & Hev & Hrow). eauto.
Qed.

Lemma stored_in (events : list EventData.t) (rows : list Row.t) (row : Row.t) :
  In rows (ClickHouseManager.stored
             (ClickHouseManager.insert_events insert_error events)) ->
  In row rows ->
  exists event, In event events
                /\ ClickHouseManager.clean_and_flag event = Py.Ok row.
Proof.
  intros Hrows Hrow.
  destruct (insert_events_outcome insert_error events) as (_ & Hok & Hraised).
  destruct (ClickHouseManager.raised
              (ClickHouseManager.insert_events insert_error events)) as [e|].
  - rewrite Hraised in Hrows by discriminate. contradiction.
  - rewrite (Hok eq_refl) in Hrows.
    destruct (Spec.accepted events) as [|r rs] eqn:Hacc; [contradiction|].
    destruct Hrows as [<- | []]. rewrite <- Hacc in Hrow.
    now apply accepted_in.
Qed.

Lemma nothing_rejected (events : list EventData.t) :
  (forall s, exists digest, md5_hexdigest s = Py.Ok digest) ->
  (forall d, exists text, json_dumps d = Py.Ok text) ->
  Spec.rejections events = []
  /\ List.length (Spec.accepted events) = List.length events.
Proof.
  intros Hmd5 Hjson. induction events as [|event rest [IH1 IH2]]; [now split|].
  simpl. destruct (clean_and_flag_succeeds event Hmd5 Hjson) as (row & ->).
  simpl. now rewrite IH2.
Qed.

End StoredRows.

(** C9 (as amended). The bot flag follows the cleaned user agent. A raw user
    agent of at most 1000 characters that carries a denylisted signature,
    letter case aside, is stored with [is_valid = 0] and
    [validation_errors = "bot_traffic"], whatever else normalisation found;
    a row is flagged exactly when its cleaned user agent (control characters
    removed, truncated, trimmed) carries a signature, so a user agent such as
    "Mozilla/5.0 normal browser", whose cleaned form carries none, is not
    flagged. *)
Theorem bot_flag_follows_cleaned_user_agent {rt : Runtime}
    (event : EventData.t) (row : Row.t) :
  ClickHouseManager.clean_and_flag event = Py.Ok row ->
  let cleaned :=
    DataCleaner.clean_string (or_str (EventData.user_agent event) "") 1000 in
  (forall user_agent,
      EventData.user_agent event = Some user_agent ->
      (String.length user_agent <= 1000)%nat ->
      Spec.denylisted user_agent ->
      Row.is_valid row = 0 /\ Row.validation_errors row = "bot_traffic")
  /\ (Spec.denylisted cleaned ->
      Row.is_valid row = 0 /\ Row.validation_errors row = "bot_traffic")
  /\ (~ Spec.denylisted cleaned ->
      Row.is_valid row = 1 /\ Row.validation_errors row = "")
  /\ ~ Spec.denylisted "Mozilla/5.0 normal browser"
  /\ DataCleaner.clean_string "Mozilla/5.0 normal browser" 1000
     = "Mozilla/5.0 normal browser".
Proof.
  intros Hrow cleaned.
  destruct (clean_and_flag_validation _ _ Hrow) as (Hua & Hbot & Hclean).
  fold cleaned in Hua. rewrite Hua in Hbot, Hclean.
  assert (Hflag : Spec.denylisted cleaned ->
                  Row.is_valid row = 0 /\ Row.validation_errors row = "bot_traffic").
  { intros H. now apply Hbot, detect_bot_traffic_spec. }
  repeat split; try (now apply Hflag).
  - apply Hflag. unfold cleaned. rewrite H. simpl.
    replace (if Py.is_empty user_agent then "" else user_agent) with user_agent
      by now destruct user_agent.
    now apply clean_string_keeps_signature.
  - apply Hflag. unfold cleaned. rewrite H. simpl.
    replace (if Py.is_empty user_agent then "" else user_agent) with user_agent
      by now destruct user_agent.
    now apply clean_string_keeps_signature.
  - apply Hclean.
    destruct (DataCleaner.detect_bot_traffic cleaned) eqn:Hd; [|reflexivity].
    exfalso. now apply H, detect_bot_traffic_spec.
  - apply Hclean.
    destruct (DataCleaner.detect_bot_traffic cleaned) eqn:Hd; [|reflexivity].
    exfalso. now apply H, detect_bot_traffic_spec.
  - intros H. apply detect_bot_traffic_spec in H. vm_compute in H. discriminate H.
Qed.

Lemma bot_flag_follows_cleaned_user_agent_witness :
  ClickHouseManager.clean_and_flag sample_crawler = Py.Ok (sample_stored sample_crawler)
  /\ Row.is_valid (sample_stored sample_crawler) = 0
  /\ Row.validation_errors (sample_stored sample_crawler) = "bot_traffic".
Proof.
  assert (H : ClickHouseManager.clean_and_flag sample_crawler
              = Py.Ok (sample_stored sample_crawler)) by (vm_compute; reflexivity).
  split; [exact H|].
  destruct (bot_flag_follows_cleaned_user_agent sample_crawler
              (sample_stored sample_crawler) H) as (Hraw & _).
  apply (Hraw "Mozilla/5.0 (compatible; Googlebot/2.1)").
  - reflexivity.
  - simpl. lia.
  - exists "bot". split; [simpl; auto|].
    exists "Mozilla/5.0 (compatible; Google", "bot", "/2.1)". split; reflexivity.
Defined.

(** C9, as stated, fails: the user agent "b\x00ot" carries no denylisted
    signature, and its row is flagged as bot traffic, because the detector
    reads the cleaned user agent "bot". *)
Lemma bot_flag_set_without_signature :
  ~ Spec.denylisted sample_split_bot
  /\ Row.is_valid (sample_stored (sample_event "e1" sample_now sample_split_bot)) = 0
  /\ Row.validation_errors (sample_stored (sample_event "e1" sample_now sample_split_bot))
     = "bot_traffic"
  /\ ClickHouseManager.clean_and_flag (sample_event "e1" sample_now sample_split_bot)
     = Py.Ok (sample_stored (sample_event "e1" sample_now sample_split_bot)).
Proof.
  split; [|repeat split; vm_compute; reflexivity].
  intros H. apply detect_bot_traffic_spec in H. vm_compute in H. discriminate H.
Qed.

(** C10. Every row that [insert_events] stores has [validation_errors] equal
    to the empty string or to "bot_traffic", and has [is_valid = 0] exactly
    when the detector fires on its cleaned user agent, [is_valid = 1]
    otherwise. An event dated more than 7 days before [now] passes the time
    validator, which at most logs a warning, and its row is valid unless it
    is bot traffic. *)
Theorem stored_row_validation_invariant {rt : Runtime}
    (insert_error : list Row.t -> option string) (now : Z)
    (events : list EventData.t) (rows : list Row.t) (row : Row.t) :
  In rows (ClickHouseManager.stored
             (ClickHouseManager.insert_events insert_error events)) ->
  In row rows ->
  exists event,
    In event events
    /\ Row.user_agent row
       = DataCleaner.clean_string (or_str (EventData.user_agent event) "") 1000
    /\ (Row.validation_errors row = "" \/ Row.validation_errors row = "bot_traffic")
    /\ (Row.is_valid row = 0
        <-> DataCleaner.detect_bot_traffic (Row.user_agent row) = true)
    /\ (Row.is_valid row = 1
        <-> DataCleaner.detect_bot_traffic (Row.user_agent row) = false)
    /\ (Row.is_valid row = 1 <-> Row.validation_errors row = "")
    /\ (7 * Time.DAY < now - EventData.event_time event ->
        EventData.validate_event_time now (EventData.event_time event)
        = (Py.Ok (EventData.event_time event),
           if 7 <? Time.days_between now (EventData.event_time event)
           then [Warning_event_time_old (EventData.event_time event)] else [])
        /\ (DataCleaner.detect_bot_traffic (Row.user_agent row) = false ->
            Row.is_valid row = 1 /\ Row.validation_errors row = "")).
Proof.
  intros Hrows Hrow.
  destruct (stored_in insert_error events rows row Hrows Hrow) as (event & Hin & Hev).
  exists event.
  destruct (clean_and_flag_validation _ _ Hev) as (Hua & Hbot & Hclean).
  split; [assumption|]. split; [assumption|].
  destruct (DataCleaner.detect_bot_traffic (Row.user_agent row)) eqn:Hd.
  - destruct (Hbot eq_refl) as [Hv He]. rewrite Hv, He.
    repeat split; auto; try discriminate.
    apply validate_event_time_past. now apply days_between_over_7.
  - destruct (Hclean eq_refl) as [Hv He]. rewrite Hv, He.
    repeat split; auto; try discriminate.
    apply validate_event_time_past. now apply days_between_over_7.
Qed.

Lemma stored_row_validation_invariant_witness :
  exists event,
    In event [sample_stale]
    /\ Row.user_agent (sample_stored sample_stale)
       = DataCleaner.clean_string (or_str (EventData.user_agent event) "") 1000
    /\ (Row.validation_errors (sample_stored sample_stale) = ""
        \/ Row.validation_errors (sample_stored sample_stale) = "bot_traffic")
    /\ (Row.is_valid (sample_stored sample_stale) = 0
        <-> DataCleaner.detect_bot_traffic
              (Row.user_agent (sample_stored sample_stale)) = true)
    /\ (Row.is_valid (sample_stored sample_stale) = 1
        <-> DataCleaner.detect_bot_traffic
              (Row.user_agent (sample_stored sample_stale)) = false)
    /\ (Row.is_valid (sample_stored sample_stale) = 1
        <-> Row.validation_errors (sample_stored sample_stale) = "")
    /\ (7 * Time.DAY < sample_now - EventData.event_time event ->
        EventData.validate_event_time sample_now (EventData.event_time event)
        = (Py.Ok (EventData.event_time event),
           if 7 <? Time.days_between sample_now (EventData.event_time event)
           then [Warning_event_time_old (EventData.event_time event)] else [])
        /\ (DataCleaner.detect_bot_traffic
              (Row.user_agent (sample_stored sample_stale)) = false ->
            Row.is_valid (sample_stored sample_stale) = 1
            /\ Row.validation_errors (sample_stored sample_stale) = "")).
Proof.
  apply (stored_row_validation_invariant sample_storage sample_now
           [sample_stale] [sample_stored sample_stale]).
  - vm_compute. left. reflexivity.
  - simpl. left. reflexivity.
Defined.

(** C1 (as amended). [insert_events] isolates failures per event: every event
    whose normalisation raises is reported as one [(event_id, error)] pair,
    every other event is stored, all of them in one bulk write, and no event
    is lost. A future [event_time] is not such a failure: it is refused by
    the validator of [EventData] when the submission is parsed, which rejects
    the whole batch before [insert_events] runs; normalisation itself raises
    only when a library call does, whatever the time of the event. *)
Theorem insert_events_isolates_failures {rt : Runtime}
    (insert_error : list Row.t -> option string) (events : list EventData.t) :
  let o := ClickHouseManager.insert_events insert_error events in
  ClickHouseManager.rejected o = Spec.rejections events
  /\ (ClickHouseManager.raised o = None ->
      ClickHouseManager.stored o
      = match Spec.accepted events with [] => [] | rows => [rows] end)
  /\ (List.length (Spec.accepted events) + List.length (Spec.rejections events)
      = List.length events)%nat
  /\ (forall now body,
         (exists raw, In raw body
                      /\ Time.replace_235959 now < EventData.event_time raw) ->
         exists detail,
           ClickHouseManager.collect_events insert_error now body
           = (ClickHouseManager.Unprocessable detail, None))
  /\ ((forall s, exists digest, md5_hexdigest s = Py.Ok digest) ->
      (forall d, exists text, json_dumps d = Py.Ok text) ->
      Spec.rejections events = []
      /\ List.length (Spec.accepted events) = List.length events).
Proof.
  intros o.
  destruct (insert_events_outcome insert_error events) as (Hrej & Hok & _).
  split; [exact Hrej|]. split; [exact Hok|].
  split; [apply accepted_rejections_length|].
  split; [intros now body; apply collect_events_future|].
  apply nothing_rejected.
Qed.

Lemma insert_events_isolates_failures_witness :
  ClickHouseManager.stored
    (ClickHouseManager.insert_events sample_storage sample_batch)
  = match Spec.accepted sample_batch with [] => [] | rows => [rows] end.
Proof.
  apply (insert_events_isolates_failures sample_storage sample_batch).
  vm_compute. reflexivity.
Defined.

(** C1, as stated, fails: for a batch of three events whose second is dated
    30 days ahead, the submission is refused as a whole, so that nothing is
    stored and no rejection is reported; and [insert_events], handed the same
    three events, stores all three and rejects none. *)
Lemma future_event_refuses_whole_batch :
  ClickHouseManager.collect_events sample_storage sample_now sample_batch
  = (ClickHouseManager.Unprocessable "Event time cannot be in the future", None)
  /\ map (map Row.event_id)
         (ClickHouseManager.stored
            (ClickHouseManager.insert_events sample_storage sample_batch))
     = [["e1"; "e2"; "e3"]]
  /\ ClickHouseManager.rejected
       (ClickHouseManager.insert_events sample_storage sample_batch) = [].
Proof. repeat split; vm_compute; reflexivity. Qed.

(** ** The command text of [identify_user] *)

Section LexerFacts.

Lemma run_append (st : Sql.mode * list Sql.token) (a b : string) :
  Sql.run st (a ++ b) = Sql.run (Sql.run st a) b.
Proof. revert st. induction a as [|c a IH]; intros st; simpl; auto. Qed.

(** A plain identifier between quotes is read as itself. *)
Lemma run_plain (acc : string) (toks : list Sql.token) (s : string) :
  Spec.plain s = true ->
  Sql.run (Sql.InStr acc, toks) s = (Sql.InStr (acc ++ s), toks).
Proof.
  unfold Spec.plain. revert acc.
  induction s as [|c s IH]; intros acc H; simpl.
  - now rewrite append_nil_r.
  - simpl in H. apply andb_true_iff in H as [Hc Hs].
    apply negb_true_iff, orb_false_iff in Hc as [Hq Hb].
    rewrite Hq, Hb, (IH _ Hs). unfold Sql.push.
    now rewrite append_assoc.
Qed.

(** The lexer only adds tokens: what it has read stays in front. *)
Lemma step_idle_extends (toks : list Sql.token) (c : ascii) :
  exists more, snd (Sql.step_idle toks c) = (toks ++ more)%list.
Proof.
  unfold Sql.step_idle.
  repeat match goal with
         | |- context [if ?b then _ else _] => destruct b
         end;
    cbn [snd]; try (exists []; now rewrite app_nil_r); eauto.
Qed.

Lemma step_extends (m : Sql.mode) (toks : list Sql.token) (c : ascii) :
  exists more, snd (Sql.step (m, toks) c) = (toks ++ more)%list.
Proof.
  assert (Hsame : exists more : list Sql.token, toks = (toks ++ more)%list)
    by (exists []; now rewrite app_nil_r).
  destruct m; cbn [Sql.step]; try apply step_idle_extends;
    try (repeat match goal with
                | |- context [if ?b then _ else _] => destruct b
                end; cbn [snd]; assumption).
  - destruct (Sql.is_word_char c); [assumption|].
    destruct (step_idle_extends (toks ++ [Sql.TWord acc]) c) as (more & ->).
    exists (Sql.TWord acc :: more). now rewrite <- app_assoc.
  - destruct (Ascii.eqb c Sql.quote); [assumption|].
    destruct (step_idle_extends (toks ++ [Sql.TStr acc]) c) as (more & ->).
    exists (Sql.TStr acc :: more). now rewrite <- app_assoc.
Qed.

Lemma run_extends (text : string) (m : Sql.mode) (toks : list Sql.token) :
  exists more, snd (Sql.run (m, toks) text) = (toks ++ more)%list.
Proof.
  revert m toks. induction text as [|c text IH]; intros m toks.
  - exists []. cbn. now rewrite app_nil_r.
  - cbn [Sql.run].
    destruct (Sql.step (m, toks) c) as [m' toks'] eqn:Hstep.
    destruct (step_extends m toks c) as (more & Hmore).
    rewrite Hstep in Hmore. cbn [snd] in Hmore. subst toks'.
    destruct (IH m' (toks ++ more)%list) as (more' & ->).
    exists (more ++ more')%list. now rewrite app_assoc.
Qed.

Lemma read_literals_word (w : string) (toks read : list Sql.token) :
  Sql.read_literals (Sql.TWord w :: toks) = Some read ->
  exists rest, read = Sql.TWord w :: rest.
Proof.
  cbn [Sql.read_literals]. destruct (Sql.read_literals toks) as [rest|];
    [|discriminate].
  intros H. injection H as <-. eauto.
Qed.

(** A command whose text begins with a word is read, if at all, as tokens
    that begin with the word. *)
Lemma lex_first_word (w : string) (toks : list Sql.token) (rest : string)
    (read : list Sql.token) :
  match Sql.run (Sql.Idle, Sql.TWord w :: toks) rest with
  | (Sql.Idle, all) => Sql.read_literals all
  | (Sql.InWord acc, all) => Sql.read_literals (all ++ [Sql.TWord acc])
  | (Sql.InStrQuote acc, all) => Sql.read_literals (all ++ [Sql.TStr acc])
  | _ => None
  end = Some read ->
  exists tail, read = Sql.TWord w :: tail.
Proof.
  destruct (run_extends rest Sql.Idle (Sql.TWord w :: toks)) as (more & Hmore).
  destruct (Sql.run (Sql.Idle, Sql.TWord w :: toks) rest) as [m all].
  cbn [snd] in Hmore. subst all.
  destruct m; try discriminate; cbn [app]; apply read_literals_word.
Qed.

Lemma unescape_plain (s : string) :
  Spec.plain s = true -> Sql.unescape s = Some s.
Proof.
  unfold Spec.plain. induction s as [|c s IH]; [reflexivity|].
  intros H. simpl in H. apply andb_true_iff in H as [Hc Hs].
  apply negb_true_iff, orb_false_iff in Hc as [Hq Hb].
  cbn [Sql.unescape]. now rewrite Hq, Hb, (IH Hs).
Qed.

End LexerFacts.

Ltac run_chunk :=
  rewrite run_append;
  match goal with
  | |- context [Sql.run (Sql.run ?st ?a) ?b] =>
      let v := eval vm_compute in (Sql.run st a) in
      change (Sql.run st a) with v
  end.

Ltac run_hole H := rewrite run_append, (run_plain _ _ _ H).

Section IdentityFacts.
Context {rt : Runtime}.

Lemma lex_update_events_text (identification : Identity.UserIdentification) :
  Spec.plain (Identity.user_id identification) = true ->
  Spec.plain (Identity.anonymous_id identification) = true ->
  Sql.lex (Identity.update_events_text identification)
  = Some (Identity.update_tokens (Identity.user_id identification)
                        (Identity.anonymous_id identification)).
Proof.
  destruct identification as [user anonymous traits]. cbn [Identity.user_id Identity.anonymous_id].
  intros Hu Ha. unfold Sql.lex, Identity.update_events_text.
  cbn [Identity.user_id Identity.anonymous_id].
  do 4 run_chunk. run_hole Hu. do 3 run_chunk. run_hole Ha.
  run_chunk.
  match goal with
  | |- context [Sql.run ?st ?a] =>
      let v := eval vm_compute in (Sql.run st a) in
      change (Sql.run st a) with v
  end.
  cbn [Sql.read_literals app option_map String.append].
  rewrite (unescape_plain _ Hu), (unescape_plain _ Ha).
  reflexivity.
Qed.

Lemma lex_insert_profile_text (identification : Identity.UserIdentification) :
  Spec.plain (Identity.user_id identification) = true ->
  Spec.plain (Identity.anonymous_id identification) = true ->
  Sql.lex (Identity.insert_profile_text identification)
  = Some (Identity.insert_tokens (Identity.user_id identification)
                        (Identity.anonymous_id identification)).
Proof.
  destruct identification as [user anonymous traits]. cbn [Identity.user_id Identity.anonymous_id].
  intros Hu Ha. unfold Sql.lex, Identity.insert_profile_text.
  cbn [Identity.user_id Identity.anonymous_id].
  do 8 run_chunk. run_hole Hu. do 3 run_chunk. run_hole Ha.
  do 11 run_chunk.
  match goal with
  | |- context [Sql.run ?st ?a] =>
      let v := eval vm_compute in (Sql.run st a) in
      change (Sql.run st a) with v
  end.
  cbn [Sql.read_literals app option_map String.append].
  rewrite (unescape_plain _ Hu), (unescape_plain _ Ha).
  reflexivity.
Qed.

Lemma command_update (now : Z) (identification : Identity.UserIdentification)
    (d : Identity.db) :
  Spec.plain (Identity.user_id identification) = true ->
  Spec.plain (Identity.anonymous_id identification) = true ->
  Identity.command now (Identity.update_events_text identification) d
  = Sql.Done
      {| Identity.user_profiles := Identity.user_profiles d;
         Identity.events :=
           Spec.backfilled (Identity.user_id identification)
                           (Identity.anonymous_id identification)
                           (Identity.events d) |}.
Proof.
  intros Hu Ha. unfold Identity.command.
  rewrite (lex_update_events_text _ Hu Ha).
  cbn. unfold Spec.backfilled. do 2 f_equal.
  apply map_ext. intros r.
  now rewrite andb_true_r, orb_false_r.
Qed.

Lemma command_insert (now : Z) (identification : Identity.UserIdentification)
    (d : Identity.db) :
  Spec.plain (Identity.user_id identification) = true ->
  Spec.plain (Identity.anonymous_id identification) = true ->
  Identity.command now (Identity.insert_profile_text identification) d
  = Sql.Done
      {| Identity.user_profiles :=
           Profile.upsert (Identity.new_profile now identification)
                          (Identity.user_profiles d);
         Identity.events := Identity.events d |}.
Proof.
  intros Hu Ha. unfold Identity.command.
  rewrite (lex_insert_profile_text _ Hu Ha).
  cbn. reflexivity.
Qed.

End IdentityFacts.

Section IdentifyFacts.
Context {rt : Runtime}.

(** For plain identifiers, [identify_user] writes the profile row of the
    user and stamps the user on the unattributed events of the visitor. *)
Lemma identify_user_plain (now1 now2 : Z)
    (identification : Identity.UserIdentification) (d : Identity.db) :
  Spec.plain (Identity.user_id identification) = true ->
  Spec.plain (Identity.anonymous_id identification) = true ->
  Identity.identify_user now1 now2 identification d
  = {| Identity.state :=
         {| Identity.user_profiles :=
              Profile.upsert (Identity.new_profile now1 identification)
                             (Identity.user_profiles d);
            Identity.events :=
              Spec.backfilled (Identity.user_id identification)
                              (Identity.anonymous_id identification)
                              (Identity.events d) |};
       Identity.logged :=
         [Info_user_identification_completed (Identity.user_id identification)];
       Identity.raised := None |}.
Proof.
  intros Hu Ha. unfold Identity.identify_user.
  rewrite (command_insert _ _ _ Hu Ha), (command_update _ _ _ Hu Ha).
  reflexivity.
Qed.

(** What the first command does, whatever the identifiers hold: the server
    refuses the text, or writes the profile row of one user, read from the
    text. *)
Lemma exec_insert_cases (toks : list Sql.token) :
  (forall now d, Identity.exec_insert now toks d = Sql.Rejected)
  \/ exists u a, forall now d,
       Identity.exec_insert now toks d
       = Sql.Done
           {| Identity.user_profiles :=
                Profile.upsert
                  {| Profile.user_id := u; Profile.anonymous_ids := [a];
                     Profile.first_seen := now; Profile.last_seen := now;
                     Profile.created_at := now; Profile.updated_at := now |}
                  (Identity.user_profiles d);
              Identity.events := Identity.events d |}.
Proof.
  unfold Identity.exec_insert.
  destruct (Sql.expect _ toks) as [l|]; [|now left].
  destruct l as [|[] l]; try now left.
  destruct l as [|[] l]; try now left.
  destruct l as [|[] l]; try now left.
  destruct l as [|[] l]; try now left.
  destruct (Sql.expect _ l) as [[|]|]; try now left.
  right. eauto.
Qed.

Lemma exec_update_cases (toks : list Sql.token) :
  (forall d, Identity.exec_update toks d = Sql.Rejected)
  \/ exists v selected, forall d,
       Identity.exec_update toks d
       = Sql.Done
           {| Identity.user_profiles := Identity.user_profiles d;
              Identity.events :=
                map (fun r => if selected r : bool then Row.set_user_id r v else r)
                    (Identity.events d) |}.
Proof.
  unfold Identity.exec_update.
  destruct (Sql.expect _ toks) as [l|]; [|now left].
  destruct l as [|[] l]; try now left.
  destruct l as [|[] l]; try now left.
  destruct (String.eqb w "WHERE"); [|now left].
  destruct (Sql.parse_cond l) as [disj|]; [|now left].
  destruct (Identity.compile_disj disj) as [selected|]; [|now left].
  right. eauto.
Qed.

Lemma command_insert_cases (identification : Identity.UserIdentification) :
  (forall now d,
      Identity.command now (Identity.insert_profile_text identification) d
      = Sql.Rejected)
  \/ exists u a, forall now d,
       Identity.command now (Identity.insert_profile_text identification) d
       = Sql.Done
           {| Identity.user_profiles :=
                Profile.upsert
                  {| Profile.user_id := u; Profile.anonymous_ids := [a];
                     Profile.first_seen := now; Profile.last_seen := now;
                     Profile.created_at := now; Profile.updated_at := now |}
                  (Identity.user_profiles d);
              Identity.events := Identity.events d |}.
Proof.
  unfold Identity.command.
  destruct (Sql.lex (Identity.insert_profile_text identification))
    as [toks|] eqn:Hlex; [|now left].
  assert (Hfirst : exists tail, toks = Sql.TWord "INSERT" :: tail).
  { revert Hlex. unfold Sql.lex, Identity.insert_profile_text.
    do 2 run_chunk. apply lex_first_word. }
  destruct Hfirst as (tail & ->). cbn [String.eqb Ascii.eqb Bool.eqb].
  apply exec_insert_cases.
Qed.

Lemma command_update_cases (identification : Identity.UserIdentification) :
  (forall now d,
      Identity.command now (Identity.update_events_text identification) d
      = Sql.Rejected)
  \/ exists v selected, forall now d,
       Identity.command now (Identity.update_events_text identification) d
       = Sql.Done
           {| Identity.user_profiles := Identity.user_profiles d;
              Identity.events :=
                map (fun r => if selected r : bool then Row.set_user_id r v else r)
                    (Identity.events d) |}.
Proof.
  unfold Identity.command.
  destruct (Sql.lex (Identity.update_events_text identification))
    as [toks|] eqn:Hlex; [|now left].
  assert (Hfirst : exists tail, toks = Sql.TWord "ALTER" :: tail).
  { revert Hlex. unfold Sql.lex, Identity.update_events_text.
    do 2 run_chunk. apply lex_first_word. }
  destruct Hfirst as (tail & ->). cbn [String.eqb Ascii.eqb Bool.eqb].
  destruct (exec_update_cases (Sql.TWord "ALTER" :: tail))
    as [H | (v & selected & H)]; [left | right]; eauto.
Qed.

(** Writing the row of a user a second time leaves one row for the user,
    with the same associations. *)
Lemma upsert_holds (p : Profile.t) (table : list Profile.t) :
  existsb (fun q => String.eqb (Profile.user_id q) (Profile.user_id p))
          (Profile.upsert p table) = true.
Proof.
  unfold Profile.upsert.
  destruct (existsb _ table) eqn:He.
  - apply existsb_exists in He as (q & Hq & Hkey).
    apply existsb_exists. exists p. split; [|apply String.eqb_refl].
    apply in_map_iff. exists q. now rewrite Hkey.
  - rewrite existsb_app. cbn. now rewrite String.eqb_refl, orb_true_r.
Qed.

Lemma upsert_again_rows (p p' : Profile.t) (table : list Profile.t) :
  Profile.user_id p' = Profile.user_id p ->
  Profile.upsert p' (Profile.upsert p table)
  = map (fun q => if String.eqb (Profile.user_id q) (Profile.user_id p)
                  then p' else q)
        (Profile.upsert p table).
Proof.
  intros Hkey. unfold Profile.upsert at 1. rewrite Hkey, upsert_holds.
  reflexivity.
Qed.

Lemma upsert_rows_of_user (p q : Profile.t) (table : list Profile.t) :
  In q (Profile.upsert p table) ->
  String.eqb (Profile.user_id q) (Profile.user_id p) = true -> q = p.
Proof.
  unfold Profile.upsert. destruct (existsb _ table) eqn:He.
  - intros Hq Hkey. apply in_map_iff in Hq as (q0 & Hq0 & _).
    destruct (String.eqb (Profile.user_id q0) (Profile.user_id p)) eqn:Hk0;
      [congruence|]. subst q0. congruence.
  - intros Hq Hkey. apply in_app_iff in Hq as [Hq | [<- | []]]; [|reflexivity].
    assert (existsb (fun q => String.eqb (Profile.user_id q) (Profile.user_id p))
                    table = true) by (apply existsb_exists; eauto).
    congruence.
Qed.

Lemma upsert_again (p p' : Profile.t) (table : list Profile.t) :
  Profile.user_id p' = Profile.user_id p ->
  Profile.anonymous_ids p' = Profile.anonymous_ids p ->
  Spec.associations (Profile.upsert p' (Profile.upsert p table))
  = Spec.associations (Profile.upsert p table).
Proof.
  intros Hkey Hids. rewrite (upsert_again_rows _ _ _ Hkey).
  unfold Spec.associations. rewrite map_map. apply map_ext_in.
  intros q Hq.
  destruct (String.eqb (Profile.user_id q) (Profile.user_id p)) eqn:Hk;
    [|reflexivity].
  rewrite (upsert_rows_of_user _ _ _ Hq Hk). congruence.
Qed.

Lemma upsert_again_length (p p' : Profile.t) (table : list Profile.t) :
  Profile.user_id p' = Profile.user_id p ->
  List.length (Profile.upsert p' (Profile.upsert p table))
  = List.length (Profile.upsert p table).
Proof.
  intros Hkey. rewrite (upsert_again_rows _ _ _ Hkey). apply length_map.
Qed.

(** An update of [user_id] applied a second time changes nothing. *)
Lemma update_again (v : string) (selected : Row.t -> bool) (events : list Row.t) :
  map (fun r => if selected r then Row.set_user_id r v else r)
      (map (fun r => if selected r then Row.set_user_id r v else r) events)
  = map (fun r => if selected r then Row.set_user_id r v else r) events.
Proof.
  rewrite map_map. apply map_ext. intros r.
  destruct (selected r) eqn:Hr; [|now rewrite Hr].
  destruct (selected (Row.set_user_id r v)); reflexivity.
Qed.

Lemma backfilled_twice (user anonymous : string) (events : list Row.t) :
  Spec.backfilled user anonymous (Spec.backfilled user anonymous events)
  = Spec.backfilled user anonymous events.
Proof.
  unfold Spec.backfilled. rewrite map_map. apply map_ext. intros r.
  destruct (String.eqb (Row.anonymous_id r) anonymous
            && String.eqb (Row.user_id r) "") eqn:Hr; [|now rewrite Hr].
  cbn [Row.set_user_id Row.anonymous_id Row.user_id].
  now destruct (String.eqb (Row.anonymous_id r) anonymous && String.eqb user "").
Qed.

(** The backfill touches the rows of the visitor that carry no user, and
    of those only the column [user_id]. *)
Lemma backfilled_scope (user anonymous : string) (events : list Row.t)
    (n : nat) (r : Row.t) :
  nth_error events n = Some r ->
  exists r',
    nth_error (Spec.backfilled user anonymous events) n = Some r'
    /\ Row.set_user_id r' "" = Row.set_user_id r ""
    /\ (Row.anonymous_id r = anonymous -> Row.user_id r = "" ->
        Row.user_id r' = user)
    /\ (Row.user_id r <> "" -> r' = r)
    /\ (Row.anonymous_id r <> anonymous -> r' = r).
Proof.
  intros Hn. unfold Spec.backfilled.
  rewrite nth_error_map, Hn. cbn [option_map].
  eexists. split; [reflexivity|].
  destruct (String.eqb_spec (Row.anonymous_id r) anonymous) as [Ha|Ha];
    destruct (String.eqb_spec (Row.user_id r) "") as [Hu|Hu];
    cbn [andb]; repeat split; auto; try contradiction.
Qed.

End IdentifyFacts.

(** C4. The profile write is idempotent. For every pair of identifiers,
    whatever characters they hold, a second call of [identify_user] with the
    pair leaves the associations of the profile table as the first call left
    them, one row for one association and none added; the stored events are
    as the first call left them too, and the second call raises exactly when
    the first did. Only the timestamps of the profile row are written anew. *)
Theorem identify_user_idempotent {rt : Runtime}
    (now1 now2 now3 now4 : Z)
    (identification : Identity.UserIdentification) (d : Identity.db) :
  let once := Identity.identify_user now1 now2 identification d in
  let twice := Identity.identify_user now3 now4 identification (Identity.state once) in
  Spec.associations (Identity.user_profiles (Identity.state twice))
  = Spec.associations (Identity.user_profiles (Identity.state once))
  /\ List.length (Identity.user_profiles (Identity.state twice))
     = List.length (Identity.user_profiles (Identity.state once))
  /\ Identity.events (Identity.state twice) = Identity.events (Identity.state once)
  /\ Identity.raised twice = Identity.raised once.
Proof.
  intros once twice. unfold twice, once, Identity.identify_user.
  destruct (command_insert_cases identification) as [Hins | (u & a & Hins)];
    rewrite ?Hins.
  - cbn [Identity.state]. rewrite ?Hins. cbn. auto.
  - destruct (command_update_cases identification)
      as [Hupd | (v & selected & Hupd)]; rewrite ?Hupd;
      cbn [Identity.state Identity.raised]; rewrite ?Hins, ?Hupd;
      cbn [Identity.state Identity.raised Identity.user_profiles Identity.events].
    + rewrite upsert_again, upsert_again_length by reflexivity. auto.
    + rewrite upsert_again, upsert_again_length, update_again by reflexivity.
      auto.
Qed.

(** The profile table after one call and after two calls with the pair
    (u2, a1): one row for the user either time. *)
Lemma identify_user_idempotent_sample :
  Spec.associations
    (Identity.user_profiles
       (Identity.state
          (Identity.identify_user 7 8 (sample_identification "u2" "a1")
             (Identity.state
                (Identity.identify_user 5 6 (sample_identification "u2" "a1")
                   sample_db)))))
  = (Spec.associations (Identity.user_profiles sample_db) ++ [("u2", ["a1"])])%list.
Proof. vm_compute. reflexivity. Qed.

(** C5. The specification has the backfill stamp exactly the unattributed
    rows of the given [anonymous_id]. The identifiers are spliced into the
    command text between quotes, and the server reads the text: given the
    anonymous_id [a\'b], the command selects the rows of the visitor [a'b].
    The unattributed row of [a'b] is stamped with the user, and the
    unattributed row of [a\'b] itself is left as it was. *)
Theorem identify_backfill_reads_escapes :
  map Row.anonymous_id (Identity.events sample_escaped_db) = ["a'b"; "a\'b"]
  /\ map Row.user_id (Identity.events sample_escaped_db) = [""; ""]
  /\ Identity.raised
       (Identity.identify_user 5 6 (sample_identification "u2" "a\'b")
          sample_escaped_db) = None
  /\ map Row.user_id
       (Identity.events
          (Identity.state
             (Identity.identify_user 5 6 (sample_identification "u2" "a\'b")
                sample_escaped_db)))
     = ["u2"; ""].
Proof. repeat split; vm_compute; reflexivity. Qed.

(** ** The attribution query *)

Section AttributionFacts.
Import Attribution.
Context {eng : Engine}.

Lemma in_insert_sorted (x z : Summary.t) (l : list Summary.t) :
  In z (insert_sorted x l) <-> z = x \/ In z l.
Proof.
  induction l as [|y l IH]; simpl.
  - intuition.
  - destruct (precedes x y); simpl; [intuition|].
    rewrite IH. intuition.
Qed.

(** [ORDER BY] only permutes the rows. *)
Lemma in_order_by (z : Summary.t) (l : list Summary.t) :
  In z (order_by l) <-> In z l.
Proof.
  induction l as [|x l IH]; simpl; [reflexivity|].
  rewrite in_insert_sorted, IH. intuition.
Qed.

Lemma in_attribution_query (join_use_nulls : bool) (today : Z)
    (table : list performance) (events : list event) (row : Summary.t) :
  In row (attribution_query join_use_nulls today table events)
  <-> exists j,
        In j (full_outer_join join_use_nulls
                (google_ads_clicks today table)
                (website_conversions today events))
        /\ where_ j = true /\ row = select j.
Proof.
  unfold attribution_query. rewrite in_order_by, in_map_iff. split.
  - intros (j & <- & Hj). apply filter_In in Hj as [Hj Hw]. eauto.
  - intros (j & Hj & Hw & ->). exists j. split; [reflexivity|].
    apply filter_In. auto.
Qed.

(** The rows of the join: a matched pair, an ad-side row alone, or a
    site-side row alone. *)
Lemma in_full_outer_join (join_use_nulls : bool)
    (gac : list google_ads_click) (wc : list website_conversion)
    (j : gac_cells * wc_cells) :
  In j (full_outer_join join_use_nulls gac wc)
  <-> (exists g w, In g gac /\ In w wc /\ on g w = true
                   /\ j = (gac_present g, wc_present w))
      \/ (exists g, In g gac /\ (forall w, In w wc -> on g w = false)
                    /\ j = (gac_present g, wc_absent join_use_nulls))
      \/ (exists w, In w wc /\ (forall g, In g gac -> on g w = false)
                    /\ j = (gac_absent join_use_nulls, wc_present w)).
Proof.
  unfold full_outer_join. rewrite in_app_iff, in_flat_map, in_map_iff. split.
  - intros [(g & Hg & Hj) | (w & <- & Hw)].
    + destruct (filter (on g) wc) as [|m ms] eqn:Hm.
      * destruct Hj as [<- | []]. right. left. exists g.
        split; [assumption|]. split; [|reflexivity].
        intros w Hw. destruct (on g w) eqn:Hon; [|reflexivity].
        assert (In w (filter (on g) wc)) by (apply filter_In; auto).
        rewrite Hm in H. contradiction.
      * apply in_map_iff in Hj as (w & <- & Hw).
        rewrite <- Hm in Hw. apply filter_In in Hw as [Hw Hon].
        left. now exists g, w.
    + apply filter_In in Hw as [Hw Hnone]. right. right. exists w.
      split; [assumption|]. split; [|reflexivity].
      intros g Hg. apply negb_true_iff in Hnone.
      destruct (on g w) eqn:Hon; [|reflexivity].
      assert (existsb (fun g => on g w) gac = true)
        by (apply existsb_exists; eauto).
      congruence.
  - intros [(g & w & Hg & Hw & Hon & ->) | [(g & Hg & Hnone & ->) | (w & Hw & Hnone & ->)]].
    + left. exists g. split; [assumption|].
      assert (Hin : In w (filter (on g) wc)) by (apply filter_In; auto).
      destruct (filter (on g) wc) as [|m ms]; [contradiction|].
      apply in_map_iff. eauto.
    + left. exists g. split; [assumption|].
      destruct (filter (on g) wc) as [|m ms] eqn:Hm; [now left|].
      assert (Hin : In m (filter (on g) wc)) by (rewrite Hm; now left).
      apply filter_In in Hin as [Hin Hon]. rewrite (Hnone m Hin) in Hon.
      discriminate Hon.
    + right. exists w. split; [reflexivity|].
      apply filter_In. split; [assumption|].
      apply negb_true_iff. destruct (existsb (fun g => on g w) gac) eqn:He;
        [|reflexivity].
      apply existsb_exists in He as (g & Hg & Hon).
      rewrite (Hnone g Hg) in Hon. discriminate Hon.
Qed.

Lemma positive_true (q : Q) : (0 < q)%Q -> negb (Qle_bool q 0) = true.
Proof.
  intros H. apply negb_true_iff. destruct (Qle_bool q 0) eqn:E; [|reflexivity].
  apply Qle_bool_iff in E. exfalso. now apply (Qlt_not_le _ _ H).
Qed.

Lemma positive_false (q : Q) : (q <= 0)%Q -> negb (Qle_bool q 0) = false.
Proof. intros H. apply negb_false_iff. now apply Qle_bool_iff. Qed.

Lemma positive_not_zero (q : Q) : (0 < q)%Q -> Qeq_bool q 0 = false.
Proof.
  intros H. destruct (Qeq_bool q 0) eqn:E; [|reflexivity].
  apply Qeq_bool_iff in E. rewrite E in H. now apply Qlt_irrefl in H.
Qed.

Lemma count_not_zero (n : Z) : (0 < n)%Z -> (n =? 0) = false.
Proof. intros H. apply Z.eqb_neq. lia. Qed.

End AttributionFacts.

Section RatioFacts.
Import Attribution.
Context {eng : Engine}.



(** No row of the result, under either setting, holds a division by
    zero. *)
Lemma ratios_never_divide_by_zero (join_use_nulls : bool) (today : Z)
    (table : list performance) (events : list event) (row : Summary.t) :
  In row (attribution_query join_use_nulls today table events) ->
  Summary.roas row <> DivisionByZero
  /\ Summary.cost_per_conversion row <> DivisionByZero
  /\ Summary.click_to_visit_rate row <> DivisionByZero.
Proof.
  intros H. apply in_attribution_query in H as (j & Hj & _ & ->).
  destruct j as [[d1 c1 clicks spend] [d2 c2 users revenue conversions]].
  unfold select.
  cbn [Summary.roas Summary.cost_per_conversion Summary.click_to_visit_rate].
  unfold roas_of, cost_per_conversion_of, click_to_visit_rate_of.
  cbn [g_ad_spend g_ad_clicks w_unique_users w_website_revenue w_conversions].
  repeat split.
  - destruct spend as [s|]; [|discriminate]. cbn [positive option_map].
    destruct (Qlt_le_dec 0 s) as [H|H].
    + rewrite (positive_true _ H). cbn [if_].
      destruct revenue; cbn [divide_amounts]; [|discriminate].
      rewrite (positive_not_zero _ H). discriminate.
    + rewrite (positive_false _ H). discriminate.
  - destruct conversions as [c|]; [|discriminate].
    cbn [positive_count option_map].
    destruct (Z.ltb_spec 0 c) as [H|H]; [|discriminate]. cbn [if_].
    destruct spend; cbn [divide_by_count]; [|discriminate].
    rewrite (count_not_zero _ H). discriminate.
  - destruct clicks as [c|]; [|discriminate].
    cbn [positive_count option_map].
    destruct (Z.ltb_spec 0 c) as [H|H]; [|discriminate]. cbn [if_].
    destruct users; cbn [divide_counts_times_100]; [|discriminate].
    rewrite (count_not_zero _ H). discriminate.
Qed.

End RatioFacts.

Section JoinFacts.
Import Attribution.
Context {eng : Engine}.





End JoinFacts.

(** * Further properties *)

(** ** Field cleaning *)

Section CleanerFacts.

Lemma split_length (sep : ascii) (s : string) :
  List.length (Py.split sep s) = S (Setup.occurrences sep s).
Proof.
  induction s as [|c s IH]; [reflexivity|].
  cbn [Py.split Setup.occurrences].
  destruct (Ascii.eqb c sep); simpl.
  - now rewrite IH.
  - destruct (Py.split sep s) as [|h t]; simpl in *; lia.
Qed.

Lemma truncated_length (n : nat) (s : string) :
  (String.length (Spec.truncated n s) <= n)%nat.
Proof.
  revert s. induction n as [|n IH]; intros [|c s]; simpl; try lia.
  specialize (IH s). lia.
Qed.

Lemma all_chars_truncated (p : ascii -> bool) (n : nat) (s : string) :
  Spec.all_chars p s = true -> Spec.all_chars p (Spec.truncated n s) = true.
Proof.
  revert s. induction n as [|n IH]; intros [|c s]; simpl; auto.
  intros H. apply andb_true_iff in H as [Hc Hs]. now rewrite Hc, IH.
Qed.

Lemma all_chars_without_controls (s : string) :
  Spec.all_chars (fun c => negb (Spec.stripped_control c))
                 (Spec.without_controls s) = true.
Proof.
  induction s as [|c s IH]; [reflexivity|]. simpl.
  destruct (Spec.stripped_control c) eqn:Hc; [assumption|].
  simpl. now rewrite Hc.
Qed.

Lemma trimmed_parts (p : ascii -> bool) (s t : string) :
  Spec.trimmed s t ->
  (String.length t <= String.length s)%nat
  /\ (Spec.all_chars p s = true -> Spec.all_chars p t = true).
Proof.
  intros (lead & trail & -> & _). split.
  - rewrite !length_append. lia.
  - rewrite !all_chars_append. intros H.
    apply andb_true_iff in H as [_ H]. now apply andb_true_iff in H as [H _].
Qed.

Lemma rstrip_fixed (s : string) :
  Spec.not_space (Spec.last_char s) -> Py.rstrip s = s.
Proof.
  induction s as [|c s IH]; [reflexivity|].
  destruct s as [|d s].
  - simpl. now intros ->.
  - intros H. change (Spec.last_char (String c (String d s)))
      with (Spec.last_char (String d s)) in H.
    assert (E : Py.rstrip (String c (String d s))
                = match Py.rstrip (String d s) with
                  | EmptyString =>
                      if Py.isspace c then EmptyString else String c EmptyString
                  | r' => String c r'
                  end) by reflexivity.
    now rewrite E, (IH H).
Qed.

Lemma lstrip_fixed (s : string) :
  Spec.not_space (Spec.first_char s) -> Py.lstrip s = s.
Proof. destruct s as [|c s]; simpl; [reflexivity | now intros ->]. Qed.

Lemma strip_fixed (s t : string) : Spec.trimmed s t -> Py.strip t = t.
Proof.
  intros (lead & trail & _ & _ & _ & Hfirst & Hlast).
  unfold Py.strip. rewrite (lstrip_fixed _ Hfirst). now apply rstrip_fixed.
Qed.

Lemma clean_string_trimmed (value : string) (max_length : Z) :
  0 <= max_length ->
  Spec.trimmed
    (Spec.truncated (Z.to_nat max_length) (Spec.without_controls value))
    (DataCleaner.clean_string value max_length).
Proof.
  intros Hlen. unfold DataCleaner.clean_string.
  destruct value as [|c value].
  - simpl. destruct (Z.to_nat max_length); exists "", ""; simpl; auto.
  - cbn [Py.is_empty].
    rewrite join_if_without_controls, slice_to_truncated by assumption.
    apply strip_trimmed.
Qed.

(** What [clean_string] returns: at most [max_length] characters, none of
    them a stripped control, no whitespace at either end. *)
Lemma clean_string_shape (value : string) (max_length : Z) :
  0 <= max_length ->
  (String.length (DataCleaner.clean_string value max_length)
   <= Z.to_nat max_length)%nat
  /\ Spec.all_chars (fun c => negb (Spec.stripped_control c))
                    (DataCleaner.clean_string value max_length) = true
  /\ Py.strip (DataCleaner.clean_string value max_length)
     = DataCleaner.clean_string value max_length.
Proof.
  intros Hlen.
  pose proof (clean_string_trimmed value max_length Hlen) as Htrim.
  destruct (trimmed_parts (fun c => negb (Spec.stripped_control c)) _ _ Htrim)
    as [Hle Hall].
  split; [|split].
  - pose proof (truncated_length (Z.to_nat max_length)
                  (Spec.without_controls value)). lia.
  - apply Hall, all_chars_truncated, all_chars_without_controls.
  - exact (strip_fixed _ _ Htrim).
Qed.

End CleanerFacts.

(** X1. [validate_ip_address] is a normalisation: it returns its input or
    ["0.0.0.0"], never another address, and validating an address already
    validated changes nothing. *)
Theorem validate_ip_address_idempotent (ip : string) :
  (DataCleaner.validate_ip_address ip = ip
   \/ DataCleaner.validate_ip_address ip = "0.0.0.0")
  /\ DataCleaner.validate_ip_address (DataCleaner.validate_ip_address ip)
     = DataCleaner.validate_ip_address ip.
Proof.
  pose proof (validate_ip_address_range ip) as H. split; [exact H|].
  destruct H as [H | H]; rewrite H; [exact H | reflexivity].
Qed.

(** X2. Every dotted quad (four decimal octets of one to three digits, each
    at most 255, separated by dots) is returned unchanged by
    [validate_ip_address]. *)
Theorem validate_ip_address_keeps_dotted_quad (ip : string) :
  Spec.dotted_quad ip -> DataCleaner.validate_ip_address ip = ip.
Proof. apply validate_ip_address_dotted_quad. Qed.

Lemma validate_ip_address_keeps_dotted_quad_witness :
  DataCleaner.validate_ip_address "192.168.1.255" = "192.168.1.255".
Proof.
  apply (validate_ip_address_keeps_dotted_quad "192.168.1.255").
  exists "192", "168", "1", "255". repeat split; reflexivity.
Defined.

(** X3. An address that does not hold exactly three dots (the empty string,
    an IPv6 address, a truncated quad) is replaced by ["0.0.0.0"]. *)
Theorem validate_ip_address_needs_three_dots (ip : string) :
  Setup.occurrences "." ip <> 3%nat ->
  DataCleaner.validate_ip_address ip = "0.0.0.0".
Proof.
  intros Hdots. unfold DataCleaner.validate_ip_address.
  destruct (Py.is_empty ip || String.eqb ip "0.0.0.0"); [reflexivity|].
  rewrite split_length.
  destruct (Nat.eqb_spec (S (Setup.occurrences "." ip)) 4) as [H|H];
    [lia | reflexivity].
Qed.

Lemma validate_ip_address_needs_three_dots_witness :
  DataCleaner.validate_ip_address "2001:db8::1.2" = "0.0.0.0".
Proof.
  apply (validate_ip_address_needs_three_dots "2001:db8::1.2").
  vm_compute. intros H. discriminate H.
Defined.

(** X4. [detect_bot_traffic] answers [True] exactly for the user agents in
    which one of the nine signatures occurs, letter case aside; the empty
    user agent is never bot traffic. *)
Theorem detect_bot_traffic_exact (user_agent : string) :
  (DataCleaner.detect_bot_traffic user_agent = true -> Spec.denylisted user_agent)
  /\ (Spec.denylisted user_agent -> DataCleaner.detect_bot_traffic user_agent = true)
  /\ (user_agent = "" -> DataCleaner.detect_bot_traffic user_agent = false).
Proof.
  split; [|split].
  - apply detect_bot_traffic_spec.
  - apply detect_bot_traffic_spec.
  - now intros ->.
Qed.

Lemma detect_bot_traffic_exact_witness :
  DataCleaner.detect_bot_traffic "Wget/1.21 (linux-gnu)" = true.
Proof.
  apply (detect_bot_traffic_exact "Wget/1.21 (linux-gnu)").
  exists "wget". split; [simpl; auto 10|].
  exists "", "Wget", "/1.21 (linux-gnu)". split; reflexivity.
Defined.

(** X5. For a length [max_length >= 0], [clean_string] returns at most
    [max_length] characters, none of them a stripped control character, and
    cleaning a cleaned string again changes nothing. *)
Theorem clean_string_idempotent (value : string) (max_length : Z) :
  0 <= max_length ->
  (String.length (DataCleaner.clean_string value max_length)
   <= Z.to_nat max_length)%nat
  /\ Spec.all_chars (fun c => negb (Spec.stripped_control c))
                    (DataCleaner.clean_string value max_length) = true
  /\ DataCleaner.clean_string (DataCleaner.clean_string value max_length) max_length
     = DataCleaner.clean_string value max_length.
Proof.
  intros Hlen.
  destruct (clean_string_shape value max_length Hlen) as (Hle & Hall & Hstrip).
  split; [exact Hle|]. split; [exact Hall|].
  generalize dependent (DataCleaner.clean_string value max_length).
  intros cleaned Hle Hall Hstrip.
  unfold DataCleaner.clean_string.
  destruct cleaned as [|c r] eqn:Hr; [reflexivity|]. cbn [Py.is_empty].
  rewrite join_if_all.
  2:{ apply all_chars_impl
        with (p := fun c => negb (Spec.stripped_control c)); [|assumption].
      intros x Hx. now rewrite keep_iff_not_stripped. }
  rewrite slice_to_truncated, truncated_all by assumption.
  exact Hstrip.
Qed.

Lemma clean_string_idempotent_witness :
  DataCleaner.clean_string (DataCleaner.clean_string sample_dirty 2) 2
  = DataCleaner.clean_string sample_dirty 2.
Proof. apply (clean_string_idempotent sample_dirty 2). lia. Defined.

(** ** Validators of [EventData] *)

Section ValidatorFacts.
Context {rt : Runtime}.

Lemma startswith_append (p s : string) : Py.startswith (p ++ s) p = true.
Proof. apply prefix_spec. now exists s. Qed.

Lemma startswith_slashes (s : string) :
  Py.startswith s "//" = true -> Py.startswith ("https:" ++ s) "https://" = true.
Proof.
  unfold Py.startswith. intros H. apply prefix_spec in H as (q & ->).
  apply prefix_spec. now exists q.
Qed.

Lemma validate_urls_with_scheme (s : string) :
  Py.startswith s "https://" = true ->
  EventData.validate_urls (Some s) = Some s.
Proof.
  intros H. unfold EventData.validate_urls. rewrite H.
  now rewrite orb_true_r, andb_false_r.
Qed.

Lemma replace_235959_same_day (now : Z) :
  now <= Time.replace_235959 now < (Time.toDate now + 1) * Time.DAY.
Proof.
  unfold Time.replace_235959, Time.toDate, Time.DAY, Time.SECOND.
  Z.div_mod_to_equations. lia.
Qed.

Lemma days_between_over_7_iff (now v : Z) :
  7 < Time.days_between now v <-> 8 * Time.DAY <= now - v.
Proof.
  unfold Time.days_between, Time.DAY, Time.SECOND.
  Z.div_mod_to_equations. lia.
Qed.

Lemma construct_ok (now : Z) (raw e : EventData.t) :
  fst (EventData.construct now raw) = Py.Ok e ->
  EventData.field_constraints raw = true
  /\ EventData.event_time raw <= Time.replace_235959 now
  /\ e = EventData.with_urls raw
           (EventData.validate_urls (EventData.page_url raw))
           (EventData.validate_urls (EventData.referrer_url raw)).
Proof.
  unfold EventData.construct, EventData.validate_event_time.
  destruct (EventData.field_constraints raw); cbn [negb].
  2:{ destruct (Time.replace_235959 now <? EventData.event_time raw);
        [|destruct (7 <? Time.days_between now (EventData.event_time raw))];
        discriminate. }
  destruct (Z.ltb_spec (Time.replace_235959 now) (EventData.event_time raw))
    as [Hfuture|Hpast]; [discriminate|].
  assert (H : forall logged,
    fst (match EventData.validate_custom_properties (EventData.custom_properties raw) with
         | Py.Ok _ =>
             Py.Ok (EventData.with_urls raw
                      (EventData.validate_urls (EventData.page_url raw))
                      (EventData.validate_urls (EventData.referrer_url raw)))
         | Py.Raise msg => Py.Raise msg
         end, logged : list log_record) = Py.Ok e ->
    e = EventData.with_urls raw
          (EventData.validate_urls (EventData.page_url raw))
          (EventData.validate_urls (EventData.referrer_url raw))).
  { intros logged. cbn [fst].
    destruct (EventData.validate_custom_properties _); [|discriminate].
    now intros He; injection He as <-. }
  destruct (7 <? Time.days_between now (EventData.event_time raw));
    intros He; apply H in He; auto.
Qed.

Lemma construct_items_ok (now : Z) (raws events : list EventData.t) :
  fst (EventBatch.construct_items now raws) = Py.Ok events ->
  events = map (fun raw => EventData.with_urls raw
                  (EventData.validate_urls (EventData.page_url raw))
                  (EventData.validate_urls (EventData.referrer_url raw))) raws
  /\ Forall (fun raw => EventData.field_constraints raw = true
                        /\ EventData.event_time raw <= Time.replace_235959 now)
            raws.
Proof.
  revert events. induction raws as [|raw rest IH]; intros events.
  - simpl. intros H. injection H as <-. auto.
  - cbn [EventBatch.construct_items].
    destruct (EventData.construct now raw) as [item logged1] eqn:Hitem.
    destruct (EventBatch.construct_items now rest) as [items logged2].
    cbn [fst] in *.
    destruct item as [e|]; [|discriminate].
    destruct items as [es|]; [|discriminate].
    intros H. injection H as <-.
    destruct (IH es eq_refl) as [-> Hall].
    assert (He : fst (EventData.construct now raw) = Py.Ok e)
      by now rewrite Hitem.
    apply construct_ok in He as (Hfc & Htime & ->).
    split; [reflexivity|]. constructor; auto.
Qed.

End ValidatorFacts.

(** X6. The URL validator is a normalisation: its result is absent, empty,
    an [http://] or [https://] URL, or a path from the root; a URL that has a
    scheme is left untouched; and applied to its own result it changes
    nothing. *)
Theorem validate_urls_idempotent (v : option string) :
  Spec2.normalised_url (EventData.validate_urls v)
  /\ EventData.validate_urls (EventData.validate_urls v)
     = EventData.validate_urls v
  /\ (forall s, v = Some s ->
        Py.startswith s "http://" = true \/ Py.startswith s "https://" = true ->
        EventData.validate_urls v = v).
Proof.
  destruct v as [s|]; [|repeat split; auto; discriminate].
  assert (Hscheme : forall t,
            Py.startswith t "http://" = true \/ Py.startswith t "https://" = true ->
            EventData.validate_urls (Some t) = Some t).
  { intros t [H | H]; unfold EventData.validate_urls; rewrite H;
      now rewrite ?orb_true_r, ?andb_false_r. }
  split; [|split].
  - unfold EventData.validate_urls. cbn [Spec2.normalised_url].
    destruct s as [|c s]; [cbn; auto|]. cbn [Py.is_empty negb andb].
    destruct (Py.startswith (String c s) "http://") eqn:Hhttp; [cbn; auto|].
    destruct (Py.startswith (String c s) "https://") eqn:Hhttps; [cbn; auto|].
    cbn [orb negb].
    destruct (Py.startswith (String c s) "//") eqn:Hslashes.
    + cbn [Spec2.normalised_url]. right. right. left.
      now apply startswith_slashes.
    + destruct (Py.startswith (String c s) "/") eqn:Hslash;
        cbn [negb Spec2.normalised_url].
      * auto.
      * right. right. left. apply startswith_append.
  - unfold EventData.validate_urls at 2 3.
    destruct s as [|c s]; [reflexivity|]. cbn [Py.is_empty negb andb].
    destruct (Py.startswith (String c s) "http://") eqn:Hhttp;
      [cbn [orb negb]; apply Hscheme; auto|].
    destruct (Py.startswith (String c s) "https://") eqn:Hhttps;
      [cbn [orb negb]; apply Hscheme; auto|].
    cbn [orb negb].
    destruct (Py.startswith (String c s) "//") eqn:Hslashes.
    + apply Hscheme. right. now apply startswith_slashes.
    + destruct (Py.startswith (String c s) "/") eqn:Hslash; cbn [negb].
      * unfold EventData.validate_urls. cbn [Py.is_empty negb andb].
        now rewrite Hhttp, Hhttps, Hslashes, Hslash.
      * apply Hscheme. right. apply startswith_append.
  - intros t Ht Hs. injection Ht as <-. now apply Hscheme.
Qed.

Lemma validate_urls_idempotent_witness :
  EventData.validate_urls (Some "http://example.com/a")
  = Some "http://example.com/a".
Proof.
  apply (validate_urls_idempotent (Some "http://example.com/a"))
    with (s := "http://example.com/a").
  - reflexivity.
  - left. reflexivity.
Defined.

(** X7. The time validator accepts an instant exactly when it is not after
    23:59:59 of the current UTC day (the microsecond of [now] kept), a
    threshold that lies between [now] and the end of the day, so an event
    later than [now] on the same day passes. It logs the staleness warning
    exactly for the accepted instants at least 8 whole days before [now]:
    an event 7 days and some hours old is not reported. *)
Theorem validate_event_time_thresholds (now v : Z) :
  (fst (EventData.validate_event_time now v) = Py.Ok v
   <-> v <= Time.replace_235959 now)
  /\ now <= Time.replace_235959 now < (Time.toDate now + 1) * Time.DAY
  /\ (snd (EventData.validate_event_time now v) = [Warning_event_time_old v]
      <-> 8 * Time.DAY <= now - v)
  /\ (snd (EventData.validate_event_time now v) = []
      <-> now - v < 8 * Time.DAY).
Proof.
  pose proof (replace_235959_same_day now) as Hday.
  pose proof (days_between_over_7_iff now v) as Hdays.
  unfold EventData.validate_event_time.
  destruct (Z.ltb_spec (Time.replace_235959 now) v) as [Hfuture|Hpast].
  - cbn [fst snd]. repeat split; intros; try discriminate; try reflexivity;
      unfold Time.DAY, Time.SECOND in *; lia.
  - destruct (Z.ltb_spec 7 (Time.days_between now v)) as [Hold|Hrecent];
      cbn [fst snd].
    + assert (8 * Time.DAY <= now - v) by now apply Hdays.
      repeat split; intros; try discriminate; try reflexivity; lia.
    + assert (now - v < 8 * Time.DAY).
      { destruct (Z.lt_ge_cases (now - v) (8 * Time.DAY)) as [H|H];
          [assumption|]. apply Hdays in H. lia. }
      repeat split; intros; try discriminate; try reflexivity; lia.
Qed.

Lemma validate_event_time_thresholds_witness :
  snd (EventData.validate_event_time sample_now
         (sample_now - 7 * Time.DAY - 23 * 3600 * Time.SECOND)) = [].
Proof.
  apply (validate_event_time_thresholds sample_now
           (sample_now - 7 * Time.DAY - 23 * 3600 * Time.SECOND)).
  vm_compute. reflexivity.
Defined.

(** ** The batch boundary and the stored rows *)

Ltac split_andb :=
  repeat match goal with
         | H : _ && _ = true |- _ => apply andb_true_iff in H; destruct H
         end.

Section RowFacts.
Context {rt : Runtime}.

Lemma clean_string_cap (value : string) (cap : Z) :
  0 <= cap ->
  (String.length (DataCleaner.clean_string value cap) <= Z.to_nat cap)%nat.
Proof. intros H. now destruct (clean_string_shape value cap H). Qed.

Lemma clean_event_caps (event : EventData.t) (r : Row.t) :
  ClickHouseManager._clean_event event = Py.Ok r -> Spec2.within_caps r.
Proof.
  unfold ClickHouseManager._clean_event.
  destruct (if Py.is_empty (or_str (EventData.device_fingerprint event) "")
            then _ else _) as [fp|]; [|discriminate].
  destruct (json_dumps _) as [cp|]; [|discriminate].
  intros H. injection H as <-. unfold Spec2.within_caps.
  cbn [Row.event_id Row.event_type Row.user_id Row.anonymous_id Row.session_id
       Row.device_fingerprint Row.user_agent Row.page_url Row.page_title
       Row.referrer_url Row.utm_source Row.utm_medium Row.utm_campaign
       Row.utm_content Row.utm_term Row.gclid Row.gbraid Row.wbraid
       Row.currency Row.order_id Row.product_id Row.product_category].
  repeat split;
    match goal with
    | |- (String.length (DataCleaner.clean_string ?v ?cap) <= _)%nat =>
        exact (clean_string_cap v cap ltac:(lia))
    end.
Qed.

Lemma clean_event_ip_address (event : EventData.t) (r : Row.t) :
  ClickHouseManager._clean_event event = Py.Ok r ->
  Row.ip_address r
  = DataCleaner.validate_ip_address (or_str (EventData.ip_address event) "0.0.0.0").
Proof.
  unfold ClickHouseManager._clean_event.
  destruct (if Py.is_empty (or_str (EventData.device_fingerprint event) "")
            then _ else _) as [fp|]; [|discriminate].
  destruct (json_dumps _) as [cp|]; [|discriminate].
  intros H. injection H as <-. reflexivity.
Qed.

(** The address check sets no length: four parts with leading zeros pass,
    however long. *)
Lemma long_ip_address_kept :
  String.length sample_long_ip = 307%nat
  /\ DataCleaner.validate_ip_address sample_long_ip = sample_long_ip.
Proof. split; vm_compute; reflexivity. Qed.

Lemma or_int_floor (x : option Z) (d lo : Z) :
  at_least lo x = true -> lo <= d -> lo <= or_int x d.
Proof.
  destruct x as [n|]; simpl; [|auto].
  intros H Hd. apply Z.leb_le in H. destruct (n =? 0); lia.
Qed.

End RowFacts.

Lemma batch_construct_guarantees_aux {rt : Runtime} (now : Z)
    (raws events : list EventData.t) :
  fst (EventBatch.construct now raws) = Py.Ok events ->
  (1 <= List.length raws <= 1000)%nat
  /\ List.length events = List.length raws.
Proof.
  unfold EventBatch.construct.
  destruct (EventBatch.construct_items now raws) as [items logged] eqn:Hitems.
  cbn [fst].
  destruct (Nat.leb_spec 1 (List.length raws)) as [Hlo|Hlo]; [|discriminate].
  destruct (Nat.leb_spec (List.length raws) 1000) as [Hhi|Hhi]; [|discriminate].
  cbn [andb]. intros ->.
  assert (H : fst (EventBatch.construct_items now raws) = Py.Ok events)
    by now rewrite Hitems.
  apply construct_items_ok in H as [-> Hall].
  rewrite length_map. lia.
Qed.

(** X8. A submission that parses into an [EventBatch] holds between 1 and
    1000 events; the batch handed to [insert_events] has the same events in
    the same order, only their two URLs normalised; every one of them met the
    field constraints and none is dated after 23:59:59 of the current day. *)
Theorem batch_construct_guarantees {rt : Runtime} (now : Z)
    (raws events : list EventData.t) :
  fst (EventBatch.construct now raws) = Py.Ok events ->
  (1 <= List.length raws <= 1000)%nat
  /\ List.length events = List.length raws
  /\ map EventData.event_id events = map EventData.event_id raws
  /\ events
     = map (fun raw => EventData.with_urls raw
                         (EventData.validate_urls (EventData.page_url raw))
                         (EventData.validate_urls (EventData.referrer_url raw)))
           raws
  /\ Forall (fun raw => EventData.field_constraints raw = true) raws
  /\ Forall (fun e => EventData.event_time e <= Time.replace_235959 now) events.
Proof.
  unfold EventBatch.construct.
  destruct (EventBatch.construct_items now raws) as [items logged] eqn:Hitems.
  cbn [fst].
  destruct (Nat.leb_spec 1 (List.length raws)) as [Hlo|Hlo]; [|discriminate].
  destruct (Nat.leb_spec (List.length raws) 1000) as [Hhi|Hhi]; [|discriminate].
  cbn [andb]. intros ->.
  assert (H : fst (EventBatch.construct_items now raws) = Py.Ok events)
    by now rewrite Hitems.
  apply construct_items_ok in H as [-> Hall].
  repeat split; try assumption.
  - now rewrite length_map.
  - rewrite map_map. now apply map_ext.
  - eapply Forall_impl; [|exact Hall]. now intros raw [H _].
  - apply Forall_map. eapply Forall_impl; [|exact Hall]. now intros raw [_ H].
Qed.

Lemma batch_construct_guarantees_witness :
  List.length
    (match fst (EventBatch.construct sample_now [sample_stale]) with
     | Py.Ok events => events
     | Py.Raise _ => []
     end) = List.length [sample_stale].
Proof.
  apply (batch_construct_guarantees sample_now [sample_stale]).
  vm_compute. reflexivity.
Defined.

(** X9. Every row that normalisation yields, flagged as bot traffic or not,
    has the 22 text columns that [clean_string] fills within the lengths it is
    called with: 100 for [event_type], 1000 for [user_agent], 2000 for
    [page_url] and [referrer_url], 500 for [page_title], 3 for [currency], 255
    for the other sixteen. [validation_errors] has at most 11 characters.
    [ip_address] has no cap of its own: it is the submitted address or
    ["0.0.0.0"], so it is at most as long as the submitted address, which the
    boundary does not bound (an address of 307 characters is stored whole).
    [custom_properties] is the JSON text, and is not bounded here. *)
Theorem stored_row_within_caps {rt : Runtime} (event : EventData.t) (row : Row.t) :
  ClickHouseManager.clean_and_flag event = Py.Ok row ->
  Spec2.within_caps row
  /\ (String.length (Row.validation_errors row) <= 11)%nat
  /\ (Row.ip_address row = or_str (EventData.ip_address event) "0.0.0.0"
      \/ Row.ip_address row = "0.0.0.0")
  /\ (String.length (Row.ip_address row)
      <= Nat.max 7 (String.length (or_str (EventData.ip_address event) "0.0.0.0")))%nat.
Proof.
  intros H. destruct (clean_and_flag_inv _ _ H) as (r & Hr & ->).
  pose proof (clean_event_caps _ _ Hr) as Hcaps.
  destruct (clean_event_columns _ _ Hr) as (_ & _ & Herr).
  pose proof (clean_event_ip_address _ _ Hr) as Hip.
  assert (Hrow : Spec2.within_caps r
                 /\ (String.length (Row.validation_errors r) <= 11)%nat
                 /\ Row.ip_address r
                    = DataCleaner.validate_ip_address
                        (or_str (EventData.ip_address event) "0.0.0.0")).
  { split; [assumption|]. split; [rewrite Herr; simpl; lia | assumption]. }
  assert (Hflag : Spec2.within_caps (Row.set_validation r 0 "bot_traffic")
                  /\ (String.length
                        (Row.validation_errors (Row.set_validation r 0 "bot_traffic"))
                      <= 11)%nat
                  /\ Row.ip_address (Row.set_validation r 0 "bot_traffic")
                     = DataCleaner.validate_ip_address
                         (or_str (EventData.ip_address event) "0.0.0.0")).
  { split; [exact Hcaps|]. split; [simpl; lia | exact Hip]. }
  assert (Hboth : forall x : Row.t,
             Row.ip_address x
             = DataCleaner.validate_ip_address
                 (or_str (EventData.ip_address event) "0.0.0.0") ->
             (Row.ip_address x = or_str (EventData.ip_address event) "0.0.0.0"
              \/ Row.ip_address x = "0.0.0.0")
             /\ (String.length (Row.ip_address x)
                 <= Nat.max 7 (String.length
                                 (or_str (EventData.ip_address event) "0.0.0.0")))%nat).
  { intros x ->.
    destruct (validate_ip_address_range
                (or_str (EventData.ip_address event) "0.0.0.0")) as [-> | ->].
    - split; [now left | apply Nat.le_max_r].
    - split; [now right | apply Nat.le_max_l]. }
  destruct (DataCleaner.detect_bot_traffic (Row.user_agent r)).
  - destruct Hflag as (H1 & H2 & H3). destruct (Hboth _ H3). auto.
  - destruct Hrow as (H1 & H2 & H3). destruct (Hboth _ H3). auto.
Qed.

Lemma stored_row_within_caps_witness :
  Spec2.within_caps (sample_stored sample_crawler)
  /\ Row.validation_errors (sample_stored sample_crawler) = "bot_traffic"
  /\ Row.ip_address (sample_stored sample_crawler) = "10.0.0.1".
Proof.
  split; [|split; vm_compute; reflexivity].
  apply (stored_row_within_caps sample_crawler). vm_compute. reflexivity.
Defined.

(** X10. For an event that meets the field constraints, the numeric columns
    of its row keep their floors: [visit_id >= 1], [quantity >= 0],
    [session_duration >= 0], [page_views_in_session >= 1], [is_bounce] is 0
    or 1; [event_time] is the event's, and [session_start_time] is the
    event's, or [event_time] when the event has none. *)
Theorem stored_row_numeric_floors {rt : Runtime} (event : EventData.t) (row : Row.t) :
  EventData.field_constraints event = true ->
  ClickHouseManager.clean_and_flag event = Py.Ok row ->
  1 <= Row.visit_id row
  /\ 0 <= Row.quantity row
  /\ 0 <= Row.session_duration row
  /\ 1 <= Row.page_views_in_session row
  /\ (Row.is_bounce row = 0 \/ Row.is_bounce row = 1)
  /\ Row.event_time row = EventData.event_time event
  /\ Row.session_start_time row
     = match EventData.session_start_time event with
       | Some t => t
       | None => EventData.event_time event
       end.
Proof.
  intros Hfc H. destruct (clean_and_flag_inv _ _ H) as (r & Hr & ->).
  assert (Hgoal :
    1 <= Row.visit_id r /\ 0 <= Row.quantity r /\ 0 <= Row.session_duration r
    /\ 1 <= Row.page_views_in_session r
    /\ (Row.is_bounce r = 0 \/ Row.is_bounce r = 1)
    /\ Row.event_time r = EventData.event_time event
    /\ Row.session_start_time r
       = match EventData.session_start_time event with
         | Some t => t
         | None => EventData.event_time event
         end).
  { revert Hr. unfold ClickHouseManager._clean_event.
    destruct (if Py.is_empty (or_str (EventData.device_fingerprint event) "")
              then _ else _) as [fp|]; [|discriminate].
    destruct (json_dumps _) as [cp|]; [|discriminate].
    intros Hr. injection Hr as <-.
    cbn [Row.visit_id Row.quantity Row.session_duration
         Row.page_views_in_session Row.is_bounce Row.event_time
         Row.session_start_time].
    unfold EventData.field_constraints in Hfc. split_andb.
    repeat split.
    - now apply Z.leb_le.
    - now apply or_int_floor.
    - now apply or_int_floor.
    - now apply or_int_floor.
    - destruct (EventData.is_bounce event) as [[|]|]; auto. }
  now destruct (DataCleaner.detect_bot_traffic (Row.user_agent r)).
Qed.

Lemma stored_row_numeric_floors_witness :
  1 <= Row.page_views_in_session (sample_stored sample_crawler).
Proof.
  apply (stored_row_numeric_floors sample_crawler); vm_compute; reflexivity.
Defined.

(** X11. [insert_events] issues at most one bulk write. When no event of the
    batch normalises it issues none and does not raise, whatever the
    storage; when the storage refuses the write, the exception is raised
    again, nothing is stored and the rejections are still collected; an
    empty batch does nothing and logs nothing. *)
Theorem insert_events_storage_failure {rt : Runtime}
    (insert_error : list Row.t -> option string) (events : list EventData.t) :
  let o := ClickHouseManager.insert_events insert_error events in
  (List.length (ClickHouseManager.stored o) <= 1)%nat
  /\ (Spec.accepted events = [] ->
      ClickHouseManager.stored o = [] /\ ClickHouseManager.raised o = None)
  /\ (Spec.accepted events <> [] ->
      ClickHouseManager.raised o = insert_error (Spec.accepted events))
  /\ (forall e, ClickHouseManager.raised o = Some e ->
        ClickHouseManager.stored o = []
        /\ ClickHouseManager.rejected o = Spec.rejections events
        /\ insert_error (Spec.accepted events) = Some e)
  /\ (events = [] -> ClickHouseManager.logged o = []).
Proof.
  unfold ClickHouseManager.insert_events.
  destruct events as [|event rest].
  { cbn. repeat split; auto; try lia; try discriminate. congruence. }
  destruct (clean_loop_partition (event :: rest) [] [] []) as (logged' & ->).
  cbn [app].
  destruct (Spec.accepted (event :: rest)) as [|row rows].
  { cbn. repeat split; auto; try lia; try discriminate; congruence. }
  destruct (insert_error (row :: rows)) as [e|] eqn:He; cbn;
    repeat split; auto; try lia; try discriminate; try congruence.
Qed.

Lemma insert_events_storage_failure_witness :
  ClickHouseManager.raised
    (ClickHouseManager.insert_events (fun _ => Some "Connection refused")
       sample_batch)
  = Some "Connection refused".
Proof.
  destruct (insert_events_storage_failure (fun _ => Some "Connection refused")
              sample_batch) as (_ & _ & Hraised & _).
  rewrite Hraised; [reflexivity|]. vm_compute. discriminate.
Defined.

(** X12. The answer of [POST /api/events] does not depend on the storage:
    a submission that parses is acknowledged with its number of events,
    between 1 and 1000, and [insert_events] runs on the parsed batch
    afterwards, so a write that fails is not reported to the submitter. *)
Theorem collect_events_acknowledges {rt : Runtime}
    (insert_error other_error : list Row.t -> option string)
    (now : Z) (body : list EventData.t) :
  fst (ClickHouseManager.collect_events insert_error now body)
  = fst (ClickHouseManager.collect_events other_error now body)
  /\ (forall events,
        fst (EventBatch.construct now body) = Py.Ok events ->
        ClickHouseManager.collect_events insert_error now body
        = (ClickHouseManager.Accepted (List.length body),
           Some (ClickHouseManager.insert_events insert_error events)))
  /\ (forall n,
        fst (ClickHouseManager.collect_events insert_error now body)
        = ClickHouseManager.Accepted n ->
        n = List.length body /\ (1 <= n <= 1000)%nat).
Proof.
  unfold ClickHouseManager.collect_events.
  destruct (fst (EventBatch.construct now body)) as [events|detail] eqn:Hc.
  - destruct (batch_construct_guarantees_aux now body events Hc) as (Hlen & Heq).
    cbn [fst]. rewrite Heq. split; [reflexivity|]. split.
    + intros evs Hevs. now injection Hevs as <-.
    + intros n Hn. injection Hn as <-. lia.
  - cbn [fst]. split; [reflexivity|]. split; intros ? H; discriminate H.
Qed.

Lemma collect_events_acknowledges_witness :
  fst (EventBatch.construct sample_now [sample_stale; sample_crawler])
  = Py.Ok [sample_stale; sample_crawler]
  /\ ClickHouseManager.collect_events sample_storage sample_now
       [sample_stale; sample_crawler]
     = (ClickHouseManager.Accepted 2,
        Some (ClickHouseManager.insert_events sample_storage
                [sample_stale; sample_crawler])).
Proof.
  assert (H : fst (EventBatch.construct sample_now [sample_stale; sample_crawler])
              = Py.Ok [sample_stale; sample_crawler]) by (vm_compute; reflexivity).
  split; [exact H|].
  exact (proj1 (proj2 (collect_events_acknowledges sample_storage sample_storage
                         sample_now [sample_stale; sample_crawler])) _ H).
Defined.

(** ** Identity resolution and the attribution query *)

(** X13. For identifiers free of quotes and backslashes, [identify_user]
    does not raise, keeps every stored event in place, stamps the user on the
    events of the visitor that carry no user, and changes nothing else: an
    event of another visitor, or one already attributed, is left as it is, and
    of a stamped event only [user_id] changes. *)
Theorem identify_backfill_scoped {rt : Runtime} (now1 now2 : Z)
    (identification : Identity.UserIdentification) (d : Identity.db) :
  Spec.plain (Identity.user_id identification) = true ->
  Spec.plain (Identity.anonymous_id identification) = true ->
  let after := Identity.identify_user now1 now2 identification d in
  Identity.raised after = None
  /\ List.length (Identity.events (Identity.state after))
     = List.length (Identity.events d)
  /\ forall n r,
       nth_error (Identity.events d) n = Some r ->
       exists r',
         nth_error (Identity.events (Identity.state after)) n = Some r'
         /\ Row.set_user_id r' "" = Row.set_user_id r ""
         /\ (Row.anonymous_id r = Identity.anonymous_id identification ->
             Row.user_id r = "" ->
             Row.user_id r' = Identity.user_id identification)
         /\ (Row.user_id r <> "" -> r' = r)
         /\ (Row.anonymous_id r <> Identity.anonymous_id identification -> r' = r).
Proof.
  intros Hu Ha after. unfold after.
  rewrite (identify_user_plain _ _ _ _ Hu Ha).
  cbn [Identity.state Identity.raised Identity.events].
  split; [reflexivity|]. split.
  - unfold Spec.backfilled. apply length_map.
  - intros n r Hn. now apply backfilled_scope.
Qed.

Lemma identify_backfill_scoped_witness :
  map Row.user_id
      (Identity.events
         (Identity.state
            (Identity.identify_user 5 6 (sample_identification "u2" "a1") sample_db)))
  = ["u2"; "u9"]
  /\ List.length
       (Identity.events
          (Identity.state
             (Identity.identify_user 5 6 (sample_identification "u2" "a1") sample_db)))
     = List.length (Identity.events sample_db).
Proof.
  split; [vm_compute; reflexivity|].
  apply (identify_backfill_scoped 5 6 (sample_identification "u2" "a1") sample_db);
    vm_compute; reflexivity.
Defined.

Section QueryFacts.
Import Attribution.
Context {eng : Engine}.

Lemma key_eqb_eq (a b : key) : key_eqb a b = true <-> a = b.
Proof.
  destruct a as [d1 c1], b as [d2 c2]. unfold key_eqb. cbn [fst snd].
  rewrite andb_true_iff, Z.eqb_eq, String.eqb_eq. split.
  - now intros [-> ->].
  - intros H. now injection H.
Qed.

Lemma key_eqb_refl (a : key) : key_eqb a a = true.
Proof. now apply key_eqb_eq. Qed.

Lemma in_groups (k : key) (keys : list key) :
  In k (groups keys) <-> In k keys.
Proof.
  induction keys as [|x keys IH]; cbn [groups In]; [reflexivity|].
  rewrite filter_In, IH. split.
  - intros [-> | [H _]]; auto.
  - intros [-> | H]; [now left|].
    destruct (key_eqb x k) eqn:E.
    + left. now apply key_eqb_eq.
    + right. split; [assumption | reflexivity].
Qed.

Lemma NoDup_filter {A : Type} (f : A -> bool) (l : list A) :
  NoDup l -> NoDup (filter f l).
Proof.
  induction 1 as [|x l Hx Hl IH]; simpl; [constructor|].
  destruct (f x); [|assumption].
  constructor; [|assumption]. intros H. apply filter_In in H. tauto.
Qed.

Lemma NoDup_groups (keys : list key) : NoDup (groups keys).
Proof.
  induction keys as [|x keys IH]; simpl; constructor.
  - intros H. apply filter_In in H as [_ H].
    now rewrite key_eqb_refl in H.
  - now apply NoDup_filter.
Qed.

Lemma filter_filter {A : Type} (f : A -> bool) (l : list A) :
  filter f (filter f l) = filter f l.
Proof.
  induction l as [|x l IH]; simpl; [reflexivity|].
  destruct (f x) eqn:E; simpl; [now rewrite E, IH | assumption].
Qed.

Lemma website_conversions_eligible (today : Z) (events : list event) :
  website_conversions today (filter (Spec2.eligible today) events)
  = website_conversions today events.
Proof.
  unfold website_conversions.
  change (fun e : event =>
            (today - 30 <=? event_date e) && (utm_source e =? "google")%string
            && (utm_medium e =? "cpc")%string
            && negb (utm_campaign e =? "")%string && (is_valid e =? 1))
    with (Spec2.eligible today).
  now rewrite filter_filter.
Qed.

Lemma precedes_total (a b : Summary.t) :
  precedes a b = false -> precedes b a = true.
Proof.
  unfold precedes.
  assert (Hd : date_compare (Summary.date b) (Summary.date a)
               = CompOpp (date_compare (Summary.date a) (Summary.date b))).
  { destruct (Summary.date a), (Summary.date b); simpl; auto.
    apply Z.compare_antisym. }
  assert (Hr : ratio_compare (Summary.roas b) (Summary.roas a)
               = CompOpp (ratio_compare (Summary.roas a) (Summary.roas b))).
  { destruct (Summary.roas a), (Summary.roas b); simpl; auto.
    apply quotient_compare_antisym. }
  rewrite Hd, Hr.
  destruct (date_compare (Summary.date a) (Summary.date b)); simpl;
    try discriminate; auto.
  destruct (ratio_compare (Summary.roas a) (Summary.roas b)); simpl;
    try discriminate; auto.
Qed.

Lemma ratio_compare_not_below (a b : ratio) :
  ratio_compare a b <> Lt -> Spec2.roas_not_below a b.
Proof.
  destruct a, b; cbn [ratio_compare Spec2.roas_not_below]; auto.
Qed.

(** The comparison of the sort is the order of the [ORDER BY] clause. *)
Lemma precedes_in_order (a b : Summary.t) :
  precedes a b = true -> Spec2.in_order a b.
Proof.
  unfold precedes, Spec2.in_order.
  destruct (Summary.date a) as [x|], (Summary.date b) as [y|];
    cbn [date_compare]; auto; try discriminate.
  - destruct (Z.compare_spec x y) as [Heq|Hlt|Hgt]; try discriminate.
    + intros H. right. split; [assumption|].
      apply ratio_compare_not_below.
      destruct (ratio_compare (Summary.roas a) (Summary.roas b));
        discriminate.
    + intros _. now left.
  - intros H. apply ratio_compare_not_below.
    destruct (ratio_compare (Summary.roas a) (Summary.roas b));
      discriminate.
Qed.

Lemma ordered_insert_sorted (x : Summary.t) (l : list Summary.t) :
  Spec2.ordered l -> Spec2.ordered (insert_sorted x l).
Proof.
  induction l as [|y l IH]; [simpl; auto|].
  intros Hl. cbn [insert_sorted].
  destruct (precedes x y) eqn:Hxy.
  - split; [now apply precedes_in_order | assumption].
  - destruct Hl as [Hy Hl]. specialize (IH Hl).
    split; [|exact IH].
    destruct l as [|z l]; cbn [insert_sorted].
    + now apply precedes_in_order, precedes_total.
    + destruct (precedes x z);
        [now apply precedes_in_order, precedes_total | exact Hy].
Qed.

Lemma ordered_order_by (l : list Summary.t) : Spec2.ordered (order_by l).
Proof.
  induction l as [|x l IH]; [exact I|].
  cbn [order_by fold_right]. now apply ordered_insert_sorted.
Qed.

Lemma insert_sorted_permutation (x : Summary.t) (l : list Summary.t) :
  Permutation (insert_sorted x l) (x :: l).
Proof.
  induction l as [|y l IH]; cbn [insert_sorted]; [reflexivity|].
  destruct (precedes x y); [reflexivity|].
  rewrite IH. apply perm_swap.
Qed.

Lemma order_by_permutation (l : list Summary.t) : Permutation (order_by l) l.
Proof.
  induction l as [|x l IH]; [reflexivity|].
  cbn [order_by fold_right]. rewrite insert_sorted_permutation.
  now apply perm_skip.
Qed.

End QueryFacts.

(** X14. No row of the attribution result holds a division by zero, whether
    the join fills the absent side with NULL or with default values: each
    division is taken only when its divisor is positive. *)
Theorem attribution_never_divides_by_zero {eng : Engine}
    (join_use_nulls : bool) (today : Z)
    (google_ads_performance : list Attribution.performance)
    (events : list Attribution.event) (row : Attribution.Summary.t) :
  In row (Attribution.attribution_query join_use_nulls today
            google_ads_performance events) ->
  Attribution.Summary.roas row <> Attribution.DivisionByZero
  /\ Attribution.Summary.cost_per_conversion row <> Attribution.DivisionByZero
  /\ Attribution.Summary.click_to_visit_rate row <> Attribution.DivisionByZero.
Proof. apply ratios_never_divide_by_zero. Qed.

Lemma attribution_never_divides_by_zero_witness :
  Attribution.Summary.roas sample_zero_spend_row <> Attribution.DivisionByZero.
Proof.
  apply (attribution_never_divides_by_zero false sample_today
           [sample_unpaid_performance] [sample_purchase] sample_zero_spend_row).
  vm_compute. left. reflexivity.
Defined.

(** X15. The attribution result holds the rows the [WHERE] clause keeps, each
    as often as the join yields it, in the order [ORDER BY date DESC, roas
    DESC] asks: of two consecutive rows the first has the later date, or the
    two have the same date and the [roas] of the first is not below that of
    the second in the order of the engine, a NULL [roas] last. *)
Theorem attribution_query_ordered {eng : Engine} (join_use_nulls : bool) (today : Z)
    (google_ads_performance : list Attribution.performance)
    (events : list Attribution.event) :
  let result :=
    Attribution.attribution_query join_use_nulls today
      google_ads_performance events in
  Spec2.ordered result
  /\ Permutation result
       (map Attribution.select
          (filter Attribution.where_
             (Attribution.full_outer_join join_use_nulls
                (Attribution.google_ads_clicks today google_ads_performance)
                (Attribution.website_conversions today events))))
  /\ forall before x y after,
       result = (before ++ x :: y :: after)%list ->
       match Attribution.Summary.date x, Attribution.Summary.date y with
       | Some a, Some b =>
           b < a
           \/ (a = b
               /\ match Attribution.Summary.roas x, Attribution.Summary.roas y with
                  | Attribution.Number v, Attribution.Number w =>
                      quotient_compare v w <> Lt
                  | _, Attribution.Number _ => False
                  | _, _ => True
                  end)
       | _, _ => True
       end.
Proof.
  intros result. split; [|split].
  - apply ordered_order_by.
  - apply order_by_permutation.
  - intros before x y after Hresult.
    assert (Hordered : Spec2.ordered result) by apply ordered_order_by.
    rewrite Hresult in Hordered. clear Hresult.
    induction before as [|z before IH].
    + destruct Hordered as [Hxy _]. unfold Spec2.in_order in Hxy.
      destruct (Attribution.Summary.date x), (Attribution.Summary.date y); auto.
    + apply IH. now destruct Hordered.
Qed.

(** X16. Events that are not eligible (flagged invalid, such as bot traffic,
    or not from a Google paid click, or without a campaign, or older than 30
    days) never contribute to the attribution result: adding or removing such
    an event anywhere in [analytics.events] leaves the result unchanged. *)
Theorem ineligible_events_never_contribute {eng : Engine}
    (join_use_nulls : bool) (today : Z)
    (google_ads_performance : list Attribution.performance)
    (before after : list Attribution.event) (e : Attribution.event) :
  Attribution.is_valid e <> 1
  \/ Attribution.utm_source e <> "google"
  \/ Attribution.utm_medium e <> "cpc"
  \/ Attribution.utm_campaign e = ""
  \/ Attribution.event_date e < today - 30 ->
  Attribution.attribution_query join_use_nulls today google_ads_performance
    (before ++ e :: after)
  = Attribution.attribution_query join_use_nulls today google_ads_performance
      (before ++ after).
Proof.
  intros He.
  assert (Hin : Spec2.eligible today e = false).
  { unfold Spec2.eligible.
    destruct He as [H | [H | [H | [H | H]]]].
    - apply Z.eqb_neq in H. rewrite H. apply andb_false_r.
    - apply String.eqb_neq in H. rewrite H. now rewrite andb_false_r.
    - apply String.eqb_neq in H. rewrite H. now rewrite andb_false_r.
    - rewrite H. cbn. now rewrite andb_false_r.
    - apply Z.leb_gt in H. now rewrite H. }
  unfold Attribution.attribution_query.
  rewrite <- (website_conversions_eligible today (before ++ e :: after)).
  rewrite <- (website_conversions_eligible today (before ++ after)).
  rewrite !filter_app. cbn [filter]. now rewrite Hin.
Qed.

Lemma ineligible_events_never_contribute_witness :
  Attribution.attribution_query (eng := sample_engine) false sample_today
    [sample_performance]
    ([sample_purchase]
     ++ {| Attribution.event_time := 100 * Time.DAY;
           Attribution.utm_source := "google"; Attribution.utm_medium := "cpc";
           Attribution.utm_campaign := "summer"; Attribution.user_id := "bot";
           Attribution.revenue := 900; Attribution.event_type := "purchase";
           Attribution.is_valid := 0 |} :: [])
  = Attribution.attribution_query false sample_today [sample_performance]
      ([sample_purchase] ++ []).
Proof.
  apply ineligible_events_never_contribute. left. vm_compute. discriminate.
Defined.

Section GroupFacts.
Import Attribution.

Lemma key_eqb_sym (a b : key) : key_eqb a b = key_eqb b a.
Proof.
  destruct (key_eqb a b) eqn:E1, (key_eqb b a) eqn:E2; auto.
  - apply key_eqb_eq in E1. subst. now rewrite key_eqb_refl in E2.
  - apply key_eqb_eq in E2. subst. now rewrite key_eqb_refl in E1.
Qed.

Lemma filter_all {A : Type} (f : A -> bool) (l : list A) :
  (forall x, In x l -> f x = true) -> filter f l = l.
Proof.
  induction l as [|x l IH]; simpl; intros H; [reflexivity|].
  rewrite (H x) by now left. rewrite IH; auto.
Qed.

Lemma filter_none {A : Type} (f : A -> bool) (l : list A) :
  (forall x, In x l -> f x = false) -> filter f l = [].
Proof.
  induction l as [|x l IH]; simpl; intros H; [reflexivity|].
  rewrite (H x) by now left. apply IH. auto.
Qed.

(** Summing over the keys other than [k], and adding the share of [k] *)
Lemma sum_split_key (f : key -> Z) (k : key) (G : list key) :
  NoDup G -> (~ In k G -> f k = 0) ->
  f k + sumZ (map f (filter (fun k' => negb (key_eqb k k')) G))
  = sumZ (map f G).
Proof.
  induction 1 as [|y G Hy HG IH]; intros Hzero.
  - simpl. rewrite Hzero; auto.
  - cbn [filter]. destruct (key_eqb k y) eqn:E; cbn [negb].
    + apply key_eqb_eq in E. subst y.
      rewrite filter_all; [reflexivity|].
      intros x Hx. destruct (key_eqb k x) eqn:Ex; [|reflexivity].
      apply key_eqb_eq in Ex. now subst.
    + cbn [map sumZ fold_right]. fold (sumZ (map f G)).
      fold (sumZ (map f (filter (fun k' => negb (key_eqb k k')) G))).
      rewrite <- IH; [lia|].
      intros Hk. apply Hzero. intros [-> | H]; [|contradiction].
      now rewrite key_eqb_refl in E.
Qed.

Lemma share_cons (x : performance) (rows : list performance) (k : key) :
  Spec2.share (x :: rows) k
  = (if key_eqb k (performance_key x) then clicks x else 0) + Spec2.share rows k.
Proof.
  unfold Spec2.share. cbn [filter].
  now destruct (key_eqb k (performance_key x)).
Qed.

Lemma share_absent (rows : list performance) (k : key) :
  ~ In k (groups (map performance_key rows)) -> Spec2.share rows k = 0.
Proof.
  intros H. unfold Spec2.share. rewrite filter_none; [reflexivity|].
  intros r Hr. destruct (key_eqb k (performance_key r)) eqn:E; [|reflexivity].
  exfalso. apply H, in_groups, in_map_iff. exists r.
  apply key_eqb_eq in E. auto.
Qed.

(** Grouping loses no click and counts none twice. *)
Lemma shares_sum (rows : list performance) :
  sumZ (map (Spec2.share rows) (groups (map performance_key rows)))
  = sumZ (map clicks rows).
Proof.
  induction rows as [|x rows IH]; [reflexivity|].
  cbn [map groups sumZ fold_right].
  fold (sumZ (map clicks rows)).
  fold (sumZ (map (Spec2.share (x :: rows))
                (filter (fun k' => negb (key_eqb (performance_key x) k'))
                        (groups (map performance_key rows))))).
  rewrite share_cons, key_eqb_refl.
  rewrite (map_ext_in (Spec2.share (x :: rows)) (Spec2.share rows)).
  2:{ intros k Hk. apply filter_In in Hk as [_ Hk].
      rewrite share_cons, key_eqb_sym.
      apply negb_true_iff in Hk. now rewrite Hk. }
  rewrite <- IH, <- Z.add_assoc. f_equal.
  apply sum_split_key; [apply NoDup_groups | apply share_absent].
Qed.

Lemma google_ads_clicks_keys (today : Z) (table : list performance) :
  map (fun g => (gac_date g, gac_campaign_name g))
      (google_ads_clicks today table)
  = groups (map performance_key
              (filter (fun r => today - 30 <=? date r) table)).
Proof.
  unfold google_ads_clicks. rewrite map_map. cbn [gac_date gac_campaign_name].
  rewrite <- (map_id (groups _)) at 2. apply map_ext. now intros [d c].
Qed.

End GroupFacts.

(** X17. The ad-side aggregate holds exactly one row per (date, campaign)
    key of the performance rows of the last 30 days: no key twice, a row for
    every such key, and no row for a key that no performance row of the
    window has. *)
Theorem google_ads_clicks_one_row_per_key (today : Z)
    (table : list Attribution.performance) :
  NoDup (map (fun g => (Attribution.gac_date g, Attribution.gac_campaign_name g))
             (Attribution.google_ads_clicks today table))
  /\ (forall r, In r table -> today - 30 <= Attribution.date r ->
        exists g,
          In g (Attribution.google_ads_clicks today table)
          /\ Attribution.gac_date g = Attribution.date r
          /\ Attribution.gac_campaign_name g = Attribution.campaign_name r)
  /\ (forall g, In g (Attribution.google_ads_clicks today table) ->
        exists r,
          In r table /\ today - 30 <= Attribution.date r
          /\ Attribution.date r = Attribution.gac_date g
          /\ Attribution.campaign_name r = Attribution.gac_campaign_name g).
Proof.
  split; [|split].
  - rewrite google_ads_clicks_keys. apply NoDup_groups.
  - intros r Hr Hwin.
    assert (Hk : In (Attribution.performance_key r)
                    (map (fun g => (Attribution.gac_date g,
                                    Attribution.gac_campaign_name g))
                         (Attribution.google_ads_clicks today table))).
    { rewrite google_ads_clicks_keys. apply in_groups, in_map, filter_In.
      split; [assumption | now apply Z.leb_le]. }
    apply in_map_iff in Hk as (g & Hg & Hin). exists g.
    unfold Attribution.performance_key in Hg. injection Hg as Hd Hc. auto.
  - intros g Hg.
    assert (Hk : In (Attribution.gac_date g, Attribution.gac_campaign_name g)
                    (Attribution.groups
                       (map Attribution.performance_key
                          (filter (fun r => today - 30 <=? Attribution.date r)
                                  table)))).
    { rewrite <- google_ads_clicks_keys. apply in_map_iff. now exists g. }
    apply in_groups, in_map_iff in Hk as (r & Hr & Hin).
    apply filter_In in Hin as [Hin Hwin]. exists r.
    unfold Attribution.performance_key in Hr. injection Hr as Hd Hc.
    apply Z.leb_le in Hwin. auto.
Qed.

Lemma google_ads_clicks_one_row_per_key_witness :
  exists g,
    In g (Attribution.google_ads_clicks sample_today
            [sample_performance; sample_performance])
    /\ Attribution.gac_date g = Attribution.date sample_performance
    /\ Attribution.gac_campaign_name g = Attribution.campaign_name sample_performance.
Proof.
  apply (google_ads_clicks_one_row_per_key sample_today
           [sample_performance; sample_performance]).
  - left. reflexivity.
  - vm_compute. discriminate.
Defined.

(** X18. Grouping conserves clicks: the [ad_clicks] of the ad-side aggregate
    add up to the clicks of all the performance rows of the last 30 days, and
    rows older than that add nothing. *)
Theorem google_ads_clicks_conserve_clicks (today : Z)
    (table : list Attribution.performance) :
  Attribution.sumZ
    (map Attribution.gac_ad_clicks (Attribution.google_ads_clicks today table))
  = Attribution.sumZ
      (map Attribution.clicks
         (filter (fun r => today - 30 <=? Attribution.date r) table)).
Proof.
  unfold Attribution.google_ads_clicks. rewrite map_map.
  cbn [Attribution.gac_ad_clicks]. apply shares_sum.
Qed.

(** ** Data quality checks *)

Section QualityFacts.
Variable query_error : string -> option string.
Variable insert_error : Quality.issue -> option string.
Variable clock : string -> Z.
Variable today : Z.
Variable table : list Quality.performance.

Lemma run_check_cases (check : string * (Z -> list Quality.performance -> Z))
    (st : list Quality.issue * list Quality.logged) :
  fst (Quality.run_check query_error insert_error clock today table check st)
  = fst st
  \/ (fst (Quality.run_check query_error insert_error clock today table check st)
      = (fst st ++ [Quality.issue_of clock (fst check) (snd check today table)])%list
      /\ 0 < snd check today table
      /\ query_error (fst check) = None
      /\ insert_error (Quality.issue_of clock (fst check) (snd check today table))
         = None).
Proof.
  destruct check as [name query], st as [log logged].
  unfold Quality.run_check. cbn [fst snd].
  destruct (query_error name); [now left|].
  destruct (Z.ltb_spec 0 (query today table)); [|now left].
  destruct (insert_error _) eqn:Hi; [now left|]. right. auto.
Qed.

Lemma run_checks_appends (checks : list (string * (Z -> list Quality.performance -> Z)))
    (st : list Quality.issue * list Quality.logged) :
  exists added,
    fst (Quality.run_checks query_error insert_error clock today table checks st)
    = (fst st ++ added)%list
    /\ (List.length added <= List.length checks)%nat
    /\ Forall (Spec2.added_by query_error insert_error clock today table checks)
              added.
Proof.
  revert st. induction checks as [|check rest IH]; intros st.
  - exists []. cbn. now rewrite app_nil_r.
  - cbn [Quality.run_checks].
    destruct (IH (Quality.run_check query_error insert_error clock today table
                    check st)) as (added & Heq & Hlen & Hall).
    assert (Hmono : Forall (Spec2.added_by query_error insert_error clock
                              today table (check :: rest)) added).
    { eapply Forall_impl; [|exact Hall].
      intros i (name & query & Hin & Hi). exists name, query.
      split; [now right | exact Hi]. }
    destruct (run_check_cases check st) as [Hsame | (Hnew & Hpos & Hq & Hi)].
    + exists added. rewrite Heq, Hsame. repeat split; auto. simpl. lia.
    + exists (Quality.issue_of clock (fst check) (snd check today table) :: added).
      rewrite Heq, Hnew, <- app_assoc. repeat split; auto; [simpl; lia|].
      constructor; [|exact Hmono].
      exists (fst check), (snd check). destruct check. cbn [fst snd] in *.
      repeat split; auto. now left.
Qed.

Lemma run_checks_logs (checks : list (string * (Z -> list Quality.performance -> Z)))
    (st : list Quality.issue * list Quality.logged) (i : Quality.issue) :
  Spec2.added_by query_error insert_error clock today table checks i ->
  In i (fst (Quality.run_checks query_error insert_error clock today table
               checks st)).
Proof.
  revert st. induction checks as [|check rest IH]; intros st
    (name & query & Hin & Hi & Hpos & Hq & Hins); [contradiction|].
  cbn [Quality.run_checks].
  destruct Hin as [-> | Hin].
  - destruct (run_checks_appends rest
                (Quality.run_check query_error insert_error clock today table
                   (name, query) st)) as (added & Heq & _).
    rewrite Heq. apply in_app_iff. left.
    unfold Quality.run_check. destruct st as [log logged].
    rewrite Hq. apply Z.ltb_lt in Hpos. rewrite Hpos. rewrite <- Hi, Hins.
    cbn [fst]. apply in_app_iff. right. now left.
  - apply IH. exists name, query. auto.
Qed.

End QualityFacts.

Lemma count_none (table : list Quality.performance)
    (condition : Quality.performance -> bool) :
  (forall r, In r table -> condition r = false) ->
  Quality.count condition table = 0.
Proof.
  intros H. unfold Quality.count.
  replace (filter condition table) with (@nil Quality.performance);
    [reflexivity|].
  symmetry. induction table as [|x l IH]; [reflexivity|].
  simpl. rewrite (H x) by now left. apply IH. intros r Hr. apply H. now right.
Qed.

(** X19. [run_data_quality_checks] only appends to the quality log: the rows
    already there stay, in place, and at most four rows are added, one per
    check. Each added row is the issue of one of the four checks whose query
    succeeded with a positive count; it records that count, and its severity
    is "medium" below 100 and "high" from 100 on, never "low". *)
Theorem quality_checks_append_issues
    (query_error : string -> option string)
    (insert_error : Quality.issue -> option string) (clock : string -> Z)
    (today : Z) (table : list Quality.performance)
    (data_quality_log : list Quality.issue) :
  exists added,
    fst (Quality.run_data_quality_checks query_error insert_error clock
           today table data_quality_log)
    = (data_quality_log ++ added)%list
    /\ (List.length added <= 4)%nat
    /\ forall i, In i added ->
         0 < Quality.issue_count i
         /\ Quality.check_type i = "google_ads_sync"
         /\ Quality.table_name i = "google_ads_performance"
         /\ (Quality.issue_count i < 100 -> Quality.severity i = "medium")
         /\ (100 <= Quality.issue_count i -> Quality.severity i = "high")
         /\ Quality.severity i <> "low"
         /\ exists query,
              In (Quality.issue_type i, query) Quality.quality_checks
              /\ Quality.issue_count i = query today table.
Proof.
  unfold Quality.run_data_quality_checks.
  destruct (run_checks_appends query_error insert_error clock today table
              Quality.quality_checks (data_quality_log, [Quality.Info_running_checks]))
    as (added & Heq & Hlen & Hall).
  exists added. split; [exact Heq|]. split; [exact Hlen|].
  intros i Hi. rewrite Forall_forall in Hall.
  destruct (Hall i Hi) as (name & query & Hin & -> & Hpos & _).
  cbn [Quality.issue_of Quality.issue_count Quality.check_type
       Quality.table_name Quality.severity Quality.issue_type].
  repeat split; auto.
  - intros H. apply Z.ltb_lt in H. now rewrite H.
  - intros H. apply Z.ltb_ge in H. now rewrite H.
  - destruct (query today table <? 100); discriminate.
  - now exists query.
Qed.

Lemma quality_checks_append_issues_witness :
  exists added,
    fst (Quality.run_data_quality_checks sample_query_error (fun _ => None)
           (fun _ => sample_now) 100 sample_quality_table [])
    = ([] ++ added)%list
    /\ (List.length added <= 4)%nat
    /\ Forall (fun i => 0 < Quality.issue_count i) added.
Proof.
  destruct (quality_checks_append_issues sample_query_error (fun _ => None)
              (fun _ => sample_now) 100 sample_quality_table [])
    as (added & Hlog & Hlen & Hissues).
  exists added. split; [exact Hlog|]. split; [exact Hlen|].
  apply Forall_forall. intros i Hi. exact (proj1 (Hissues i Hi)).
Defined.

(** X20. The checks are isolated from one another: a check whose own query
    and insert succeed and which counts at least one row has its issue
    logged, whichever of the other checks fail. *)
Theorem quality_check_isolated
    (query_error : string -> option string)
    (insert_error : Quality.issue -> option string) (clock : string -> Z)
    (today : Z) (table : list Quality.performance)
    (data_quality_log : list Quality.issue)
    (name : string) (query : Z -> list Quality.performance -> Z) :
  In (name, query) Quality.quality_checks ->
  query_error name = None ->
  0 < query today table ->
  insert_error (Quality.issue_of clock name (query today table)) = None ->
  In (Quality.issue_of clock name (query today table))
     (fst (Quality.run_data_quality_checks query_error insert_error clock
             today table data_quality_log)).
Proof.
  intros Hin Hq Hpos Hins. unfold Quality.run_data_quality_checks.
  apply run_checks_logs. exists name, query. auto.
Qed.

Lemma quality_check_isolated_witness :
  map Quality.issue_type
      (fst (Quality.run_data_quality_checks sample_query_error (fun _ => None)
              (fun _ => sample_now) 100 sample_quality_table []))
  = ["zero_cost_with_clicks"; "high_cost_per_click"]
  /\ In (Quality.issue_of (fun _ => sample_now) "zero_cost_with_clicks" 1)
        (fst (Quality.run_data_quality_checks sample_query_error (fun _ => None)
                (fun _ => sample_now) 100 sample_quality_table [])).
Proof.
  split; [vm_compute; reflexivity|].
  apply (quality_check_isolated sample_query_error (fun _ => None)
           (fun _ => sample_now) 100 sample_quality_table [] "zero_cost_with_clicks"
           (fun today =>
              Quality.count (fun r => Qeq_bool (Quality.cost r) 0
                                      && (0 <? Quality.clicks r)
                                      && (today - 7 <=? Quality.date r)))).
  - simpl. auto.
  - reflexivity.
  - vm_compute. reflexivity.
  - reflexivity.
Defined.

(** X21. Only the last 7 days, and dates in the future, are audited: when
    every performance row is dated more than 7 days before [today], no check
    counts anything and the quality log is left as it was. *)
Theorem old_rows_are_not_audited
    (query_error : string -> option string)
    (insert_error : Quality.issue -> option string) (clock : string -> Z)
    (today : Z) (table : list Quality.performance)
    (data_quality_log : list Quality.issue) :
  (forall r, In r table -> Quality.date r < today - 7) ->
  fst (Quality.run_data_quality_checks query_error insert_error clock
         today table data_quality_log)
  = data_quality_log.
Proof.
  intros Hold.
  destruct (run_checks_appends query_error insert_error clock today table
              Quality.quality_checks (data_quality_log, [Quality.Info_running_checks]))
    as (added & Heq & _ & Hall).
  unfold Quality.run_data_quality_checks. rewrite Heq. cbn [fst].
  destruct added as [|i added]; [apply app_nil_r|]. exfalso.
  apply Forall_inv in Hall. destruct Hall as (name & query & Hin & _ & Hpos & _).
  assert (Hzero : query today table = 0); [|lia].
  assert (Hwin : forall r, In r table -> (today - 7 <=? Quality.date r) = false).
  { intros r Hr. apply Z.leb_gt. now apply Hold. }
  simpl in Hin.
  destruct Hin as [H | [H | [H | [H | []]]]]; injection H as _ <-;
    cbn beta; apply count_none; intros r Hr.
  - rewrite (Hwin r Hr). apply andb_false_r.
  - rewrite (Hwin r Hr). apply andb_false_r.
  - rewrite (Hwin r Hr). apply andb_false_r.
  - apply Z.ltb_ge. specialize (Hold r Hr). lia.
Qed.

Lemma old_rows_are_not_audited_witness :
  fst (Quality.run_data_quality_checks (fun _ => None) (fun _ => None)
         (fun _ => sample_now) 100 sample_old_table [])
  = [].
Proof.
  apply (old_rows_are_not_audited (fun _ => None) (fun _ => None)
           (fun _ => sample_now) 100 sample_old_table []).
  intros r Hr. destruct Hr as [<- | []]. vm_compute. reflexivity.
Defined.

(** ** Performance synchronisation and set-up *)

Section SyncFacts.
Variable fetch : string -> Z -> Z -> AdsSync.fetched.
Variable insert_error : list (list AdsSync.cell) -> option string.

Lemma fetch_loop_collects (start_date end_date : Z) (customer_ids : list string)
    (data : list AdsSync.record) (log : list AdsSync.logged) :
  exists log',
    AdsSync.fetch_loop fetch start_date end_date customer_ids data log
    = ((data ++ AdsSync.fetched_records fetch start_date end_date customer_ids)%list,
       (log ++ log')%list).
Proof.
  revert data log. induction customer_ids as [|id rest IH]; intros data log.
  - exists []. cbn. now rewrite !app_nil_r.
  - cbn [AdsSync.fetch_loop AdsSync.fetched_records flat_map].
    destruct (fetch id start_date end_date) as [records|ex|e|google_ads e].
    + destruct (IH (data ++ records)%list
                  (log ++ [AdsSync.Info_fetched (List.length records) id])%list)
        as (log' & ->).
      eexists. now rewrite <- !app_assoc.
    + destruct (IH data (log ++ [AdsSync.Error_google_ads_exception ex;
                                 AdsSync.Error_google_ads_api id ex])%list)
        as (log' & ->).
      eexists. now rewrite <- !app_assoc.
    + destruct (IH data (log ++ [AdsSync.Error_fetching_performance e;
                                 AdsSync.Error_fetching id e])%list)
        as (log' & ->).
      eexists. now rewrite <- !app_assoc.
    + destruct (IH data (log ++ [if google_ads
                                 then AdsSync.Error_google_ads_api id e
                                 else AdsSync.Error_fetching id e])%list)
        as (log' & ->).
      eexists. now rewrite <- !app_assoc.
Qed.

End SyncFacts.

(** [get] on a record that holds each key once *)
Lemma get_present (r : AdsSync.record) (col : string) (v d : AdsSync.cell) :
  NoDup (map fst r) -> In (col, v) r -> AdsSync.get r col d = v.
Proof.
  induction r as [|[k x] r IH]; [contradiction|].
  cbn [map fst AdsSync.get]. intros Hnodup [Hhead | Hin].
  - injection Hhead as -> ->. now rewrite String.eqb_refl.
  - inversion Hnodup as [|? ? Hk Hrest]; subst.
    destruct (String.eqb_spec k col) as [->|_]; [|auto].
    exfalso. apply Hk. apply in_map_iff. now exists (col, v).
Qed.

Lemma get_absent (r : AdsSync.record) (col : string) (d : AdsSync.cell) :
  ~ In col (map fst r) -> AdsSync.get r col d = d.
Proof.
  induction r as [|[k x] r IH]; [reflexivity|].
  cbn [map fst AdsSync.get In]. intros H.
  destruct (String.eqb_spec k col) as [->|_]; [tauto|].
  apply IH. tauto.
Qed.

(** [split] cuts a text at its separators and nowhere else: the entries,
    joined again, are the text, and no entry holds a separator. *)
Lemma split_entries (sep : ascii) (s : string) :
  s = Spec2.joined sep (Py.split sep s)
  /\ Forall (fun entry => Setup.occurrences sep entry = 0%nat) (Py.split sep s).
Proof.
  induction s as [|c s (IHjoin & IHentries)].
  - split; [reflexivity | repeat constructor].
  - cbn [Py.split]. destruct (Ascii.eqb c sep) eqn:Hc.
    + apply Ascii.eqb_eq in Hc. subst c. split.
      * cbn [Spec2.joined].
        destruct (Py.split sep s) as [|h t] eqn:Hsplit.
        -- pose proof (split_length sep s) as Hlen. rewrite Hsplit in Hlen.
           discriminate Hlen.
        -- cbn [String.append]. now rewrite <- IHjoin.
      * constructor; [reflexivity | exact IHentries].
    + destruct (Py.split sep s) as [|h t] eqn:Hsplit.
      * pose proof (split_length sep s) as Hlen. rewrite Hsplit in Hlen.
        discriminate Hlen.
      * split.
        -- cbn [Spec2.joined] in *. destruct t; cbn [String.append];
             now rewrite IHjoin at 1.
        -- inversion IHentries as [|? ? Hh Ht]; subst.
           constructor; [|exact Ht].
           cbn [Setup.occurrences]. now rewrite Hc, Hh.
Qed.

(** X22. [sync_campaign_performance] isolates the accounts: the records of
    every account whose fetch succeeds are inserted, one row per record, in
    account order and in a single bulk insert, whichever other accounts
    fail. When no account yields a record, nothing is inserted, a warning is
    logged and the sync does not raise; when the storage refuses the insert,
    the exception is raised again and nothing is stored. *)
Theorem sync_isolates_accounts
    (fetch : string -> Z -> Z -> AdsSync.fetched)
    (insert_error : list (list AdsSync.cell) -> option string)
    (now days_back : Z) (customer_ids : list string) :
  let end_date := Time.toDate now in
  let records :=
    AdsSync.fetched_records fetch (end_date - days_back) end_date customer_ids in
  let o := AdsSync.sync_campaign_performance fetch insert_error now days_back
             customer_ids in
  (AdsSync.raised o = None ->
   AdsSync.inserted o
   = match records with [] => [] | _ => [map AdsSync.row_of records] end)
  /\ (records = [] ->
      AdsSync.raised o = None /\ AdsSync.inserted o = []
      /\ In AdsSync.Warning_no_performance_data (AdsSync.log o))
  /\ (forall e, AdsSync.raised o = Some e ->
        AdsSync.inserted o = []
        /\ insert_error (map AdsSync.row_of records) = Some e)
  /\ (forall customer_id data r,
        In customer_id customer_ids ->
        fetch customer_id (end_date - days_back) end_date = AdsSync.Fetched data ->
        In r data -> AdsSync.raised o = None ->
        exists rows, AdsSync.inserted o = [rows] /\ In (AdsSync.row_of r) rows).
Proof.
  intros end_date records o.
  assert (Hrec : forall customer_id data r,
            In customer_id customer_ids ->
            fetch customer_id (end_date - days_back) end_date = AdsSync.Fetched data ->
            In r data -> In r records).
  { intros id data r Hid Hfetch Hr. unfold records, AdsSync.fetched_records.
    apply in_flat_map. exists id. split; [assumption|]. now rewrite Hfetch. }
  unfold o, AdsSync.sync_campaign_performance. fold end_date.
  destruct (fetch_loop_collects fetch (end_date - days_back) end_date customer_ids
              [] [AdsSync.Info_syncing (end_date - days_back) end_date])
    as (log' & ->).
  cbn [app]. fold records.
  destruct records as [|r0 rest] eqn:Hrecords.
  - cbn [AdsSync.raised AdsSync.inserted AdsSync.log].
    repeat split; auto; try discriminate.
    + right. apply in_or_app. right. now left.
    + intros id data r Hid Hfetch Hr _. exfalso. exact (Hrec id data r Hid Hfetch Hr).
  - destruct (insert_error (map AdsSync.row_of (r0 :: rest))) as [e|] eqn:He;
      cbn [AdsSync.raised AdsSync.inserted AdsSync.log].
    + split; [discriminate|]. split; [discriminate|]. split.
      * intros e' H. injection H as <-. auto.
      * intros id data r Hid Hfetch Hr H. discriminate H.
    + split; [reflexivity|]. split; [discriminate|]. split; [discriminate|].
      intros id data r Hid Hfetch Hr _. eexists. split; [reflexivity|].
      apply in_map. exact (Hrec id data r Hid Hfetch Hr).
Qed.

Lemma sync_isolates_accounts_witness :
  exists rows,
    AdsSync.inserted
      (AdsSync.sync_campaign_performance sample_fetch (fun _ => None)
         sample_now 7 ["111"; "222"]) = [rows]
    /\ In (AdsSync.row_of [("account_id", AdsSync.Str "222")]) rows.
Proof.
  destruct (sync_isolates_accounts sample_fetch (fun _ => None) sample_now 7
              ["111"; "222"]) as (_ & _ & _ & H).
  apply (H "222" [[("account_id", AdsSync.Str "222")]]).
  - right. left. reflexivity.
  - reflexivity.
  - left. reflexivity.
  - vm_compute. reflexivity.
Defined.

(** X23. [_insert_performance_data] writes each record as 18 values in the
    order of the column list, whatever the order of the keys of the record:
    the value at the place of a column is the value the record holds for the
    column, and the empty string when the record lacks the column. A key of
    the record that is no column is not written. *)
Theorem row_of_record_round_trip (r : AdsSync.record) :
  NoDup (map fst r) ->
  List.length (AdsSync.row_of r) = 18%nat
  /\ (forall i col,
        nth_error AdsSync.columns i = Some col ->
        (forall v, In (col, v) r -> nth_error (AdsSync.row_of r) i = Some v)
        /\ (~ In col (map fst r) ->
            nth_error (AdsSync.row_of r) i = Some (AdsSync.Str "")))
  /\ (forall v, In v (AdsSync.row_of r) ->
        v = AdsSync.Str "" \/ exists col, In col AdsSync.columns /\ In (col, v) r).
Proof.
  intros Hnodup. split; [|split].
  - unfold AdsSync.row_of. now rewrite length_map.
  - intros i col Hcol. unfold AdsSync.row_of. rewrite nth_error_map, Hcol.
    cbn [option_map]. split.
    + intros v Hv. now rewrite (get_present r col v _ Hnodup Hv).
    + intros Habsent. now rewrite (get_absent r col _ Habsent).
  - intros v Hv. unfold AdsSync.row_of in Hv.
    apply in_map_iff in Hv as (col & <- & Hcol).
    clear Hnodup. induction r as [|[k x] r IH]; [now left|].
    cbn [AdsSync.get]. destruct (String.eqb_spec k col) as [->|_].
    + right. exists col. split; [assumption | now left].
    + destruct IH as [-> | (col' & Hcol' & Hin)]; [now left|].
      right. exists col'. split; [assumption | now right].
Qed.

Lemma row_of_record_round_trip_witness :
  nth_error (AdsSync.row_of sample_record) 10 = Some (AdsSync.Int 10)
  /\ nth_error (AdsSync.row_of sample_record) 17 = Some (AdsSync.Str "")
  /\ AdsSync.row_of (rev (combine AdsSync.columns sample_cells)) = sample_cells.
Proof.
  assert (Hnodup : NoDup (map fst sample_record)).
  { vm_compute. repeat (constructor; [simpl; intuition discriminate|]).
    constructor. }
  destruct (row_of_record_round_trip sample_record Hnodup) as (_ & Hcolumns & _).
  split; [|split].
  - apply (Hcolumns 10%nat "cost"); [reflexivity|]. vm_compute. tauto.
  - apply (Hcolumns 17%nat "sync_timestamp"); [reflexivity|].
    vm_compute. intuition discriminate.
  - vm_compute. reflexivity.
Defined.

(** X24. Set-up of the ads connection succeeds only with the four credentials
    present and non-empty and a non-empty [GOOGLE_ADS_CUSTOMER_IDS]. The
    customer ids are then the entries of that variable, the texts between its
    commas, one id per entry and in their order (an empty entry, as after a
    trailing comma, included), each without its surrounding whitespace. A
    missing or empty credential is a [ValueError], raised before the client
    is loaded and before the customer ids are read. *)
Theorem setup_google_ads_customer_ids (environ : string -> option string)
    (load_error : option string) :
  (forall customer_ids,
      Setup.setup_google_ads environ load_error = Py.Ok customer_ids ->
      load_error = None
      /\ Forall (fun name => Setup.truthy (environ name) = true)
                [ "GOOGLE_ADS_DEVELOPER_TOKEN"; "GOOGLE_ADS_CLIENT_ID";
                  "GOOGLE_ADS_CLIENT_SECRET"; "GOOGLE_ADS_REFRESH_TOKEN" ]
      /\ exists s entries,
           environ "GOOGLE_ADS_CUSTOMER_IDS" = Some s /\ s <> ""
           /\ s = Spec2.joined "," entries
           /\ Forall (fun entry => Setup.occurrences "," entry = 0%nat) entries
           /\ Forall2 Spec.trimmed entries customer_ids)
  /\ (forall name,
        In name [ "GOOGLE_ADS_DEVELOPER_TOKEN"; "GOOGLE_ADS_CLIENT_ID";
                  "GOOGLE_ADS_CLIENT_SECRET"; "GOOGLE_ADS_REFRESH_TOKEN" ] ->
        Setup.truthy (environ name) = false ->
        Setup.setup_google_ads environ load_error
        = Py.Raise "Missing required Google Ads API credentials").
Proof.
  unfold Setup.setup_google_ads, Setup.getenv, Setup.getenv_default.
  cbn [forallb]. split.
  - intros ids.
    destruct (Setup.truthy (environ "GOOGLE_ADS_DEVELOPER_TOKEN")) eqn:H1;
      [|discriminate].
    destruct (Setup.truthy (environ "GOOGLE_ADS_CLIENT_ID")) eqn:H2;
      [|discriminate].
    destruct (Setup.truthy (environ "GOOGLE_ADS_CLIENT_SECRET")) eqn:H3;
      [|discriminate].
    destruct (Setup.truthy (environ "GOOGLE_ADS_REFRESH_TOKEN")) eqn:H4;
      [|discriminate].
    cbn [andb negb]. destruct load_error as [e|]; [discriminate|].
    destruct (environ "GOOGLE_ADS_CUSTOMER_IDS") as [s|] eqn:Hs;
      [|discriminate].
    destruct (Py.is_empty s) eqn:Hempty; [discriminate|]. cbn [negb].
    intros H. injection H as <-.
    split; [reflexivity|]. split; [repeat constructor; assumption|].
    exists s, (Py.split "," s).
    destruct (split_entries "," s) as (Hjoin & Hentries).
    repeat split; auto.
    + intros ->. discriminate Hempty.
    + clear. induction (Py.split "," s) as [|entry entries IH]; constructor;
        [apply strip_trimmed | exact IH].
  - intros name Hname Hmissing.
    simpl in Hname.
    destruct Hname as [<- | [<- | [<- | [<- | []]]]]; rewrite Hmissing;
      now rewrite ?andb_false_r.
Qed.

Lemma setup_google_ads_customer_ids_witness :
  Setup.setup_google_ads sample_environ None = Py.Ok ["123"; "456"; ""]
  /\ exists s entries,
       sample_environ "GOOGLE_ADS_CUSTOMER_IDS" = Some s /\ s <> ""
       /\ s = Spec2.joined "," entries
       /\ Forall (fun entry => Setup.occurrences "," entry = 0%nat) entries
       /\ Forall2 Spec.trimmed entries ["123"; "456"; ""].
Proof.
  assert (H : Setup.setup_google_ads sample_environ None
              = Py.Ok ["123"; "456"; ""]) by (vm_compute; reflexivity).
  split; [exact H|].
  destruct (setup_google_ads_customer_ids sample_environ None) as (Hok & _).
  exact (proj2 (proj2 (Hok _ H))).
Defined.

(** ** The campaign name on both sides of the attribution join *)

Section KeyFacts.

Lemma or_str_empty_default (s : string) : or_str (Some s) "" = s.
Proof. now destruct s. Qed.

Lemma clean_string_fixed_point (cleaned : string) (max_length : Z) :
  0 <= max_length ->
  (String.length cleaned <= Z.to_nat max_length)%nat ->
  Spec.all_chars (fun c => negb (Spec.stripped_control c)) cleaned = true ->
  Py.strip cleaned = cleaned ->
  DataCleaner.clean_string cleaned max_length = cleaned.
Proof.
  intros Hlen Hle Hall Hstrip. unfold DataCleaner.clean_string.
  destruct cleaned as [|c r] eqn:Hr; [reflexivity|]. cbn [Py.is_empty].
  rewrite join_if_all.
  2:{ apply all_chars_impl
        with (p := fun c => negb (Spec.stripped_control c)); [|assumption].
      intros x Hx. now rewrite keep_iff_not_stripped. }
  rewrite slice_to_truncated, truncated_all by assumption.
  exact Hstrip.
Qed.

End KeyFacts.

(** X25. The two sides of the attribution join normalise a campaign name the
    same way: an event stored with the raw campaign name of the ads platform
    as its [utm_campaign], or with the name as the performance sync stores it
    ([_clean_string], 255 characters), gets exactly the stored
    [campaign_name] as its [utm_campaign], so the keys of the join match. *)
Theorem campaign_join_keys_agree {rt : Runtime} (event : EventData.t)
    (row : Row.t) (name : string) :
  ClickHouseManager._clean_event event = Py.Ok row ->
  EventData.utm_campaign event = Some name
  \/ EventData.utm_campaign event = Some (AdsSync._clean_string name 255) ->
  Row.utm_campaign row = AdsSync._clean_string name 255.
Proof.
  intros Hrow Hname.
  assert (Hkey : Row.utm_campaign row
                 = DataCleaner.clean_string
                     (or_str (EventData.utm_campaign event) "") 255).
  { revert Hrow. unfold ClickHouseManager._clean_event.
    destruct (if Py.is_empty (or_str (EventData.device_fingerprint event) "")
              then _ else _) as [fp|e]; [|discriminate].
    destruct (json_dumps _) as [custom|e]; [|discriminate].
    intros H. injection H as <-. reflexivity. }
  rewrite Hkey.
  change (AdsSync._clean_string name 255)
    with (DataCleaner.clean_string name 255) in *.
  destruct Hname as [-> | ->]; rewrite or_str_empty_default; [reflexivity|].
  destruct (clean_string_shape name 255 ltac:(lia)) as (Hle & Hall & Hstrip).
  now apply clean_string_fixed_point.
Qed.

Lemma campaign_join_keys_agree_witness :
  exists row,
    ClickHouseManager._clean_event (sample_campaign_event " Spring Sale ")
    = Py.Ok row
    /\ Row.utm_campaign row = AdsSync._clean_string " Spring Sale " 255
    /\ Row.utm_campaign row = "Spring Sale".
Proof.
  eexists. split; [vm_compute; reflexivity|]. split.
  - apply (campaign_join_keys_agree (sample_campaign_event " Spring Sale ") _
             " Spring Sale ").
    + vm_compute. reflexivity.
    + left. reflexivity.
  - reflexivity.
Defined.

(** ** The attribution summary: ratios, log and table *)

Section SummaryFacts.
Import Attribution.
Context {eng : Engine}.

Lemma date_eqb_eq (a b : option Z) : date_eqb a b = true <-> a = b.
Proof.
  destruct a as [x|], b as [y|]; cbn [date_eqb]; split; intros H;
    try discriminate; try reflexivity.
  - apply Z.eqb_eq in H. now subst.
  - injection H as ->. apply Z.eqb_refl.
Qed.

Lemma name_eqb_eq (a b : option string) : name_eqb a b = true <-> a = b.
Proof.
  destruct a as [x|], b as [y|]; cbn [name_eqb]; split; intros H;
    try discriminate; try reflexivity.
  - apply String.eqb_eq in H. now subst.
  - injection H as ->. apply String.eqb_refl.
Qed.

Lemma same_key_eq (a b : stored) :
  same_key a b = true
  <-> Summary.date (row a) = Summary.date (row b)
      /\ Summary.campaign_name (row a) = Summary.campaign_name (row b).
Proof.
  unfold same_key. now rewrite andb_true_iff, date_eqb_eq, name_eqb_eq.
Qed.

Lemma same_key_sym (a b : stored) : same_key a b = same_key b a.
Proof.
  destruct (same_key a b) eqn:Hab, (same_key b a) eqn:Hba; try reflexivity.
  - apply same_key_eq in Hab as [H1 H2].
    assert (same_key b a = true) by (apply same_key_eq; split; congruence).
    congruence.
  - apply same_key_eq in Hba as [H1 H2].
    assert (same_key a b = true) by (apply same_key_eq; split; congruence).
    congruence.
Qed.



(** The merge leaves one row of a key. *)
Lemma merged_one_per_key (l : list stored) (x y : stored) :
  In x (merged l) -> In y (merged l) -> same_key x y = true -> x = y.
Proof.
  induction l as [|s later IH]; [contradiction|].
  cbn [merged]. destruct (existsb _ later); [exact IH|].
  intros [<- | Hx] [<- | Hy] Hkey; try reflexivity.
  - apply filter_In in Hy as [_ Hy]. rewrite Hkey in Hy. discriminate Hy.
  - apply filter_In in Hx as [_ Hx]. rewrite same_key_sym, Hkey in Hx.
    discriminate Hx.
  - apply filter_In in Hx as [Hx _]. apply filter_In in Hy as [Hy _]. auto.
Qed.

Lemma merged_subset (l : list stored) (x : stored) :
  In x (merged l) -> In x l.
Proof.
  induction l as [|s later IH]; [contradiction|].
  cbn [merged]. destruct (existsb _ later).
  - intros H. right. auto.
  - intros [<- | H]; [now left|].
    apply filter_In in H as [H _]. right. auto.
Qed.




Lemma on_eq (g : google_ads_click) (w : website_conversion) :
  on g w = true ->
  gac_date g = wc_date w /\ gac_campaign_name g = wc_campaign_name w.
Proof.
  unfold on. intros H. apply andb_true_iff in H as [Hd Hc].
  apply Z.eqb_eq in Hd. apply String.eqb_eq in Hc. auto.
Qed.

(** The key a row of the result carries *)
Lemma select_key_ad_side (g : google_ads_click) (wc : wc_cells) :
  Summary.date (select (gac_present g, wc)) = Some (gac_date g)
  /\ Summary.campaign_name (select (gac_present g, wc))
     = Some (gac_campaign_name g).
Proof. split; reflexivity. Qed.




Section Sync.
Variable query_error : option string.
Variable create_error : option string.
Variable insert_error : list Summary.t -> option string.





End Sync.



End SummaryFacts.




(** With default values filled in, two campaigns known from the site only
    are inserted under one key, day 0 and the empty name: once the table is
    merged one row is left of the two. *)
Lemma site_only_rows_share_default_key :
  map (fun s => (Attribution.Summary.date (Attribution.row s),
                 Attribution.Summary.campaign_name (Attribution.row s),
                 Attribution.Summary.website_revenue (Attribution.row s)))
      (Attribution.attribution_summary
         (sample_sync false [] [sample_purchase; sample_winter_purchase]))
  = [(Some 0, Some "", Some (50 + 0)%Q); (Some 0, Some "", Some (20 + 0)%Q)]
  /\ List.length
       (Attribution.merged
          (Attribution.attribution_summary
             (sample_sync false [] [sample_purchase; sample_winter_purchase])))
     = 1%nat.
Proof. split; vm_compute; reflexivity. Qed.

(** With NULLs filled in, the campaign with spend and no visit has a NULL
    [roas]: the log of the first rows raises, and nothing is stored. *)
Lemma null_roas_ends_the_sync :
  Attribution.raised (sample_sync true [sample_performance] [])
  = Some Attribution.format_error
  /\ Attribution.attribution_summary (sample_sync true [sample_performance] [])
     = [].
Proof. split; vm_compute; reflexivity. Qed.

Section GuardFacts.
Import Attribution.
Context {eng : Engine}.




(** The cells of the rows of the join: both sides, the ad side alone or
    the site side alone, the absent side all NULL or all default values *)
Lemma join_cells (join_use_nulls : bool) (gac : list google_ads_click)
    (wc : list website_conversion) (j : gac_cells * wc_cells) :
  In j (full_outer_join join_use_nulls gac wc) ->
  (exists g, fst j = gac_present g) \/ fst j = gac_absent join_use_nulls.
Proof.
  intros H. apply in_full_outer_join in H
    as [(g & w & _ & _ & _ & ->) | [(g & _ & _ & ->) | (w & _ & _ & ->)]];
    cbn [fst]; eauto.
Qed.

Lemma join_cells_site (join_use_nulls : bool) (gac : list google_ads_click)
    (wc : list website_conversion) (j : gac_cells * wc_cells) :
  In j (full_outer_join join_use_nulls gac wc) ->
  (exists w, snd j = wc_present w) \/ snd j = wc_absent join_use_nulls.
Proof.
  intros H. apply in_full_outer_join in H
    as [(g & w & _ & _ & _ & ->) | [(g & _ & _ & ->) | (w & _ & _ & ->)]];
    cbn [snd]; eauto.
Qed.

End GuardFacts.




(** ** The records of the ads platform: units and rounding *)

Section FloatFacts.




(** On the sample values the operations of the model are those of the
    machine's binary64 numbers. *)
Lemma operations_agree_with_machine :
  FloatOps.SF2Prim
    (PyFloat.div (PyFloat.of_int 2500000) (PyFloat.of_int 1000000))
  = PrimFloat.div (FloatOps.SF2Prim (PyFloat.of_int 2500000))
                  (FloatOps.SF2Prim (PyFloat.of_int 1000000))
  /\ FloatOps.SF2Prim
       (PyFloat.mul (PyFloat.of_decimal false 523 4) (PyFloat.of_int 100))
     = PrimFloat.mul (FloatOps.SF2Prim (PyFloat.of_decimal false 523 4))
                     (FloatOps.SF2Prim (PyFloat.of_int 100))
  /\ FloatOps.SF2Prim (PyFloat.of_decimal false 523 2)
     = PrimFloat.div (FloatOps.SF2Prim (PyFloat.of_int 523))
                     (FloatOps.SF2Prim (PyFloat.of_int 100))
  /\ FloatOps.SF2Prim (PyFloat.of_decimal false 523 4)
     = PrimFloat.div (FloatOps.SF2Prim (PyFloat.of_int 523))
                     (FloatOps.SF2Prim (PyFloat.of_int 10000))
  /\ FloatOps.Prim2SF (FloatOps.SF2Prim (PyFloat.of_decimal false 523 2))
     = PyFloat.of_decimal false 523 2.
Proof. repeat split; vm_compute; reflexivity. Qed.

End FloatFacts.




